(** * GenerateDidWeb: a shallow embedding of [generate.py]

    The script builds a [did:web] document around an elliptic-curve key.
    Python functions become computations in a state-and-exception monad
    over an explicit [World] (file system, standard streams, system
    calls issued, randomness); builtins that cannot touch the world
    ([int.to_bytes], [base64.urlsafe_b64encode], dict subscripting,
    [re.fullmatch]) are plain functions. The [cryptography] and [hashlib]
    entry points the script calls are an interface ([Backend]). *)

From Stdlib Require Import ZArith Lia Ascii String List.
From Stdlib.Strings Require Import Byte.
From stdpp Require Import base gmap strings list pretty.

Local Open Scope Z_scope.

(** ** Bytes and Python integers *)

Definition byte_of_Z (z : Z) : byte :=
  match Byte.of_N (Z.to_N (z mod 256)) with
  | Some b => b
  | None => x00
  end.

Definition Z_of_byte (b : byte) : Z := Z.of_N (Byte.to_N b).

(** Python exceptions deriving from [Exception], with what [str(e)]
    needs. [SystemExit] derives from [BaseException] only and is kept
    apart in [raised]. *)
Inductive exception :=
| KeyError (key : Z)
| OverflowError (msg : string)
| ValueError (msg : string)
| TypeError (msg : string)
| OSError (cls : string) (msg : string)
| UnsupportedAlgorithm (msg : string).

Definition exception_str (e : exception) : string :=
  match e with
  | KeyError k => pretty k
  | OverflowError m | ValueError m | TypeError m
  | OSError _ m | UnsupportedAlgorithm m => m
  end.

Inductive raised :=
| RaiseException (e : exception)
| RaiseSystemExit (code : Z).

(** Builtins either return or raise an ordinary exception. *)
Definition Result (A : Type) : Type := A + exception.

(** [be_bytes len n]: the [len] low-order base-256 digits of [n], most
    significant first. *)
Fixpoint be_bytes (len : nat) (n : Z) : list byte :=
  match len with
  | O => []
  | S k => be_bytes k (n / 256) ++ [byte_of_Z (n mod 256)]
  end.

(** [n.to_bytes(length, "big")] (unsigned). *)
Definition int_to_bytes_big (n length : Z) : Result (list byte) :=
  if length <? 0 then inr (ValueError "length argument must be non-negative")
  else if n <? 0 then inr (OverflowError "can't convert negative int to unsigned")
  else if 2 ^ (8 * length) <=? n then inr (OverflowError "int too big to convert")
  else inl (be_bytes (Z.to_nat length) n).

(** [int.from_bytes(bs, "big")], used to read coordinates back. *)
Definition int_from_bytes_big (bs : list byte) : Z :=
  fold_left (fun acc b => acc * 256 + Z_of_byte b) bs 0.

(** ** [base64.urlsafe_b64encode] *)

Definition urlsafe_alphabet : string :=
  "ABCDEFGHIJKLMNOPQRSTUVWXYZabcdefghijklmnopqrstuvwxyz0123456789-_".

Definition b64_char (i : Z) : ascii :=
  match String.get (Z.to_nat i) urlsafe_alphabet with
  | Some c => c
  | None => "A"%char
  end.

(** The [k]-th six-bit group of a 24-bit block, and its character. *)
Definition sextet_value (n : Z) (k : Z) : Z := Z.land (Z.shiftr n (6 * k)) 63.

Definition sextet (n : Z) (k : Z) : ascii := b64_char (sextet_value n k).

Definition pad_char : ascii := "="%char.

(** Three input bytes give four characters; a trailing group of one or
    two bytes is completed with [=]. *)
Fixpoint b64_chars (bs : list byte) : list ascii :=
  match bs with
  | [] => []
  | [a] =>
      let n := Z.shiftl (Z_of_byte a) 16 in
      [sextet n 3; sextet n 2; pad_char; pad_char]
  | [a; b] =>
      let n := Z.lor (Z.shiftl (Z_of_byte a) 16) (Z.shiftl (Z_of_byte b) 8) in
      [sextet n 3; sextet n 2; sextet n 1; pad_char]
  | a :: b :: c :: rest =>
      let n := Z.lor (Z.lor (Z.shiftl (Z_of_byte a) 16)
                            (Z.shiftl (Z_of_byte b) 8)) (Z_of_byte c) in
      sextet n 3 :: sextet n 2 :: sextet n 1 :: sextet n 0 :: b64_chars rest
  end.

(** [base64.urlsafe_b64encode(bs).decode("ascii")]. *)
Definition urlsafe_b64encode (bs : list byte) : string :=
  string_of_list_ascii (b64_chars bs).

(** Reading base64url text back. [b64_bytes] accepts whole groups of
    four alphabet characters, the last one possibly completed with [=];
    on such text it computes what [base64.urlsafe_b64decode] returns.
    [None] stands for everything else (text that [binascii] rejects, or
    accepts only by skipping characters). *)
Fixpoint index_from (c : ascii) (s : string) (i : Z) : option Z :=
  match s with
  | EmptyString => None
  | String d rest => if Ascii.eqb c d then Some i else index_from c rest (i + 1)
  end.

Definition b64_index (c : ascii) : option Z := index_from c urlsafe_alphabet 0.

Definition b64_group (i3 i2 i1 i0 : Z) : Z :=
  Z.lor (Z.lor (Z.lor (Z.shiftl i3 18) (Z.shiftl i2 12)) (Z.shiftl i1 6)) i0.

Definition octet (n k : Z) : byte := byte_of_Z (Z.land (Z.shiftr n (8 * k)) 255).

Fixpoint b64_bytes (cs : list ascii) : option (list byte) :=
  match cs with
  | [] => Some []
  | c3 :: c2 :: c1 :: c0 :: rest =>
      match b64_index c3, b64_index c2 with
      | Some i3, Some i2 =>
          match b64_index c1, b64_index c0 with
          | Some i1, Some i0 =>
              let n := b64_group i3 i2 i1 i0 in
              match b64_bytes rest with
              | Some tl => Some (octet n 2 :: octet n 1 :: octet n 0 :: tl)
              | None => None
              end
          | Some i1, None =>
              let n := b64_group i3 i2 i1 0 in
              match rest with
              | [] => if Ascii.eqb c0 pad_char then Some [octet n 2; octet n 1] else None
              | _ :: _ => None
              end
          | None, _ =>
              let n := b64_group i3 i2 0 0 in
              match rest with
              | [] => if Ascii.eqb c1 pad_char && Ascii.eqb c0 pad_char
                      then Some [octet n 2] else None
              | _ :: _ => None
              end
          end
      | _, _ => None
      end
  | _ => None
  end.

Definition urlsafe_b64decode_strict (s : string) : option (list byte) :=
  b64_bytes (list_ascii_of_string s).

(** [bytes.hex()] / [hexdigest()]: two lowercase digits per byte. *)
Definition hex_digit (i : Z) : ascii :=
  match String.get (Z.to_nat i) "0123456789abcdef" with
  | Some c => c
  | None => "0"%char
  end.

Fixpoint hex_chars (bs : list byte) : list ascii :=
  match bs with
  | [] => []
  | b :: rest =>
      hex_digit (Z_of_byte b / 16) :: hex_digit (Z_of_byte b mod 16) :: hex_chars rest
  end.

Definition hexlify (bs : list byte) : string := string_of_list_ascii (hex_chars bs).

Definition hex2 (n : N) : string :=
  String (hex_digit (Z.of_N n / 16)) (String (hex_digit (Z.of_N n mod 16)) "").

(** ** [repr] of a [str], as the text of an [OSError] shows a file name

    A [string] stands for a Python [str] whose code points are below
    256, character [n] for code point [n]. The quote is the double one
    when the string holds a single quote and no double quote; the
    quote, the backslash, tab, line feed and carriage return are
    escaped with a backslash, every other character that is not
    printable as [\xNN]. *)
Definition quote_char : ascii := "034"%char.

Definition is_printable (n : N) : bool :=
  (((32 <=? n) && (n <=? 126)) || ((161 <=? n) && negb (n =? 173)))%N.

Definition repr_escape (quote : ascii) (c : ascii) : string :=
  let n := N_of_ascii c in
  if Ascii.eqb c quote || Ascii.eqb c "\" then String "\" (String c "")
  else if (n =? 9)%N then "\t"
  else if (n =? 10)%N then "\n"
  else if (n =? 13)%N then "\r"
  else if is_printable n then String c ""
  else "\x" +:+ hex2 n.

Definition has_char (c : ascii) (s : string) : bool :=
  existsb (Ascii.eqb c) (list_ascii_of_string s).

Definition py_repr (s : string) : string :=
  let quote :=
    if has_char "'" s && negb (has_char quote_char s) then quote_char
    else "'"%char in
  String quote
    (String.concat "" (map (repr_escape quote) (list_ascii_of_string s))
     +:+ String quote "").

(** ** [re.fullmatch] on the fragment of patterns the script uses *)

Inductive set_item :=
| Range (lo hi : ascii)
| Single (c : ascii).

Inductive regex :=
| RNone
| REps
| RLit (c : ascii)
| RSet (items : list set_item)
| RCat (r1 r2 : regex)
| RAlt (r1 r2 : regex)
| RStar (r : regex)
| RPlus (r : regex).

Definition in_item (c : ascii) (i : set_item) : bool :=
  match i with
  | Range lo hi => ((N_of_ascii lo <=? N_of_ascii c) && (N_of_ascii c <=? N_of_ascii hi))%N
  | Single d => Ascii.eqb c d
  end.

Definition in_set (c : ascii) (items : list set_item) : bool :=
  existsb (in_item c) items.

Fixpoint nullable (r : regex) : bool :=
  match r with
  | RNone | RLit _ | RSet _ => false
  | REps | RStar _ => true
  | RCat r1 r2 => nullable r1 && nullable r2
  | RAlt r1 r2 => nullable r1 || nullable r2
  | RPlus r => nullable r
  end.

(** Brzozowski derivative: what is left to match after reading [c]. *)
Fixpoint deriv (c : ascii) (r : regex) : regex :=
  match r with
  | RNone | REps => RNone
  | RLit d => if Ascii.eqb c d then REps else RNone
  | RSet items => if in_set c items then REps else RNone
  | RCat r1 r2 =>
      if nullable r1 then RAlt (RCat (deriv c r1) r2) (deriv c r2)
      else RCat (deriv c r1) r2
  | RAlt r1 r2 => RAlt (deriv c r1) (deriv c r2)
  | RStar r => RCat (deriv c r) (RStar r)
  | RPlus r => RCat (deriv c r) (RStar r)
  end.

(** [re.fullmatch(r, s)]: a match object (here the matched text) when
    the whole of [s] is in the language of [r], else [None]. *)
Definition re_fullmatch (r : regex) (s : string) : option string :=
  if nullable (fold_left (fun r c => deriv c r) (list_ascii_of_string s) r)
  then Some s else None.

(** [bool(m)] for [m] a match object or [None]. *)
Definition bool_of_match (m : option string) : bool :=
  match m with Some _ => true | None => false end.

(** Language of a pattern, the reference semantics for [re_fullmatch]. *)
Inductive matches : regex -> list ascii -> Prop :=
| MEps : matches REps []
| MLit c : matches (RLit c) [c]
| MSet c items : in_set c items = true -> matches (RSet items) [c]
| MCat r1 r2 s1 s2 :
    matches r1 s1 -> matches r2 s2 -> matches (RCat r1 r2) (s1 ++ s2)
| MAltL r1 r2 s : matches r1 s -> matches (RAlt r1 r2) s
| MAltR r1 r2 s : matches r2 s -> matches (RAlt r1 r2) s
| MStarNil r : matches (RStar r) []
| MStarApp r s1 s2 :
    matches r s1 -> matches (RStar r) s2 -> matches (RStar r) (s1 ++ s2)
| MPlus r s1 s2 :
    matches r s1 -> matches (RStar r) s2 -> matches (RPlus r) (s1 ++ s2).

(** The items of the class [[a-zA-Z0-9_-]]: three ranges, then the
    literal underscore and the trailing literal hyphen. *)
Definition word_items : list set_item :=
  [Range "a" "z"; Range "A" "Z"; Range "0" "9"; Single "_"; Single "-"].

(** [[a-zA-Z0-9_-]] *)
Definition word_set : regex := RSet word_items.

(** [r'\.[a-zA-Z0-9_-]+|[a-zA-Z0-9_-]+'] *)
Definition folder_name_pattern : regex :=
  RAlt (RCat (RLit ".") (RPlus word_set)) (RPlus word_set).

(** ** Python values the script builds: strings, lists, dicts *)

Unset Elimination Schemes.
Inductive value :=
| VStr (s : string)
| VList (l : list value)
| VDict (d : list (string * value)).
Set Elimination Schemes.

(** A [dict] keeps insertion order; assigning to a present key replaces
    the value in place. *)
Definition pydict : Type := list (string * value).

Fixpoint dict_set (k : string) (v : value) (d : pydict) : pydict :=
  match d with
  | [] => [(k, v)]
  | (k', v') :: rest =>
      if String.eqb k' k then (k, v) :: rest else (k', v') :: dict_set k v rest
  end.

Fixpoint dict_get (k : string) (d : pydict) : option value :=
  match d with
  | [] => None
  | (k', v') :: rest => if String.eqb k' k then Some v' else dict_get k rest
  end.

(** [{**d, **extra}]: the entries of [extra] are assigned left to right. *)
Definition dict_merge (d extra : pydict) : pydict :=
  fold_left (fun acc kv => dict_set (fst kv) (snd kv) acc) extra d.

Definition dict_keys (d : pydict) : list string := map fst d.

(** [d[k]] on the module-level tables: [KeyError] when [k] is absent. *)
Definition subscript (d : gmap Z string) (k : Z) : Result string :=
  match d !! k with
  | Some v => inl v
  | None => inr (KeyError k)
  end.

(** ** Keys: the part of [cryptography.hazmat.primitives.asymmetric.ec]
    the script reads *)

Module ec.

Record EllipticCurve := { name : string; key_size : Z }.

Record EllipticCurvePublicNumbers :=
  { x : Z; y : Z; curve : EllipticCurve }.

Record EllipticCurvePublicKey :=
  { public_numbers : EllipticCurvePublicNumbers }.

(** [public_key.curve] *)
Definition public_curve (k : EllipticCurvePublicKey) : EllipticCurve :=
  curve (public_numbers k).

Record EllipticCurvePrivateKey :=
  { private_value : Z; public_key : EllipticCurvePublicKey }.

Definition SECP256R1 : EllipticCurve := {| name := "secp256r1"; key_size := 256 |}.
Definition SECP384R1 : EllipticCurve := {| name := "secp384r1"; key_size := 384 |}.
Definition SECP521R1 : EllipticCurve := {| name := "secp521r1"; key_size := 521 |}.

End ec.

(** What [load_pem_private_key] can hand back: an EC key or a key of
    another algorithm (RSA, DSA, Ed25519, ...). *)
Inductive PrivateKey :=
| ECPrivateKey (k : ec.EllipticCurvePrivateKey)
| OtherPrivateKey (algorithm : string).

Module serialization.
Inductive Encoding := PEM | DER.
Inductive PrivateFormat := PKCS8 | TraditionalOpenSSL.
Inductive PublicFormat := SubjectPublicKeyInfo.
Inductive KeySerializationEncryption := NoEncryption.
End serialization.

(** The library entry points the script calls. Parsing may raise an
    ordinary exception, never [SystemExit]; key generation consumes
    operating-system randomness, passed in as a seed. *)
Class Backend := {
  load_pem_private_key : list byte -> option (list byte) -> Result PrivateKey;
  private_bytes :
    ec.EllipticCurvePrivateKey -> serialization.Encoding ->
    serialization.PrivateFormat -> serialization.KeySerializationEncryption ->
    list byte;
  public_bytes :
    ec.EllipticCurvePublicKey -> serialization.Encoding ->
    serialization.PublicFormat -> list byte;
  generate_private_key : ec.EllipticCurve -> N -> ec.EllipticCurvePrivateKey;
  sha256 : list byte -> list byte
}.

(** A key's affine coordinates are elements of the curve's field, which
    has [key_size] bits on the prime-field curves of the library: this is
    what the library guarantees of every public key object it builds. *)
Definition coordinates_in_field (k : ec.EllipticCurvePublicKey) : Prop :=
  let n := ec.public_numbers k in
  0 <= ec.x n < 2 ^ ec.key_size (ec.curve n) /\
  0 <= ec.y n < 2 ^ ec.key_size (ec.curve n).

(** ** The world a run acts on *)

Inductive node :=
| File (content : list byte)
| Directory.

Inductive fs_call :=
| FsRead (path : string)
| FsWrite (path : string) (data : list byte).

(** How a write that the operating system does not let through ends:
    refused when the file is opened, the file system untouched; or
    failing once the file has been created or truncated (device full,
    quota, input/output error), the first [kept] bytes left in it. *)
Inductive write_fault :=
| RefusedAtOpen (e : exception)
| FailsAfter (kept : nat) (e : exception).

(** [denied] holds the paths at which creating or writing a file
    fails, and [fault] tells how and with which exception; a denied path
    without an entry there is refused for want of permission.
    [unreadable] holds the regular files whose reading fails, with the
    exception raised. [fs_log] records every read and write the run
    attempts, oldest first. *)
Record World := mkWorld {
  files : gmap string node;
  denied : gset string;
  stdout : list string;
  stderr : list string;
  fs_log : list fs_call;
  entropy : N;
  unreadable : gmap string exception;
  fault : gmap string write_fault
}.

Definition permission_denied (p : string) : exception :=
  OSError "PermissionError" ("[Errno 13] Permission denied: " +:+ py_repr p).

Definition fault_at (w : World) (p : string) : write_fault :=
  match fault w !! p with
  | Some f => f
  | None => RefusedAtOpen (permission_denied p)
  end.

Definition M (A : Type) : Type := World -> (A + raised) * World.

Definition ret {A} (a : A) : M A := fun w => (inl a, w).

Definition bind {A B} (m : M A) (f : A -> M B) : M B :=
  fun w =>
    match m w with
    | (inl a, w') => f a w'
    | (inr r, w') => (inr r, w')
    end.

Definition raise {A} (e : exception) : M A := fun w => (inr (RaiseException e), w).

Definition lift {A} (r : Result A) : M A :=
  match r with
  | inl a => ret a
  | inr e => raise e
  end.

(** [try: body / except Exception as e: handler(e)]: [SystemExit] is not
    an [Exception] and passes through. *)
Definition try_except {A} (body : M A) (handler : exception -> M A) : M A :=
  fun w =>
    match body w with
    | (inr (RaiseException e), w') => handler e w'
    | other => other
    end.

Declare Scope py_scope.
Delimit Scope py_scope with py.
Notation "x <- m ;; k" := (bind m (fun x => k))
  (at level 100, m at next level, right associativity) : py_scope.
Notation "m ;;; k" := (bind m (fun _ => k))
  (at level 100, right associativity) : py_scope.
Local Open Scope py_scope.

Definition print (line : string) : M unit :=
  fun w => (inl tt, mkWorld (files w) (denied w) (stdout w ++ [line]) (stderr w)
                            (fs_log w) (entropy w) (unreadable w) (fault w)).

Definition print_stderr (line : string) : M unit :=
  fun w => (inl tt, mkWorld (files w) (denied w) (stdout w) (stderr w ++ [line])
                            (fs_log w) (entropy w) (unreadable w) (fault w)).

(** [sys.exit(code)] *)
Definition sys_exit {A} (code : Z) : M A := fun w => (inr (RaiseSystemExit code), w).

(** [Path.exists()] *)
Definition path_exists (p : string) : M bool :=
  fun w => (inl (bool_decide (is_Some (files w !! p))), w).

Definition log_call (c : fs_call) (w : World) : World :=
  mkWorld (files w) (denied w) (stdout w) (stderr w) (fs_log w ++ [c]) (entropy w)
          (unreadable w) (fault w).

(** The files once [data] has been put at [p]. *)
Definition with_file (p : string) (data : list byte) (w : World) : World :=
  mkWorld (<[p := File data]> (files w)) (denied w) (stdout w) (stderr w)
          (fs_log w) (entropy w) (unreadable w) (fault w).

(** [Path.read_bytes()]: the read of an existing regular file fails
    when the operating system says so. *)
Definition read_bytes (p : string) : M (list byte) :=
  fun w =>
    let w' := log_call (FsRead p) w in
    match files w !! p with
    | Some (File data) =>
        match unreadable w !! p with
        | Some e => (inr (RaiseException e), w')
        | None => (inl data, w')
        end
    | Some Directory =>
        (inr (RaiseException (OSError "IsADirectoryError"
                ("[Errno 21] Is a directory: " +:+ py_repr p))), w')
    | None =>
        (inr (RaiseException (OSError "FileNotFoundError"
                ("[Errno 2] No such file or directory: " +:+ py_repr p))), w')
    end.

(** [Path.write_bytes(data)], and [open(p, "w")] followed by the writes
    and the close: the file is created or truncated when it is opened,
    so a failure after that leaves a file holding what got through. *)
Definition write_bytes (p : string) (data : list byte) : M unit :=
  fun w =>
    let w' := log_call (FsWrite p data) w in
    match files w !! p with
    | Some Directory =>
        (inr (RaiseException (OSError "IsADirectoryError"
                ("[Errno 21] Is a directory: " +:+ py_repr p))), w')
    | _ =>
        if bool_decide (p ∈ denied w) then
          match fault_at w p with
          | RefusedAtOpen e => (inr (RaiseException e), w')
          | FailsAfter kept e =>
              (inr (RaiseException e), with_file p (take kept data) w')
          end
        else (inl tt, with_file p data w')
    end.

(** ** The script *)

Definition DEFAULT_EC_CURVE : ec.EllipticCurve := ec.SECP384R1.

Definition EC_CURVE_NAMES : gmap Z string :=
  list_to_map [(256, "P-256"); (384, "P-384"); (521, "P-521")].

Definition SIGNING_ALGORITHMS : gmap Z string :=
  list_to_map [(256, "ES256"); (384, "ES384"); (521, "ES512")].

(** [die]: the call never returns, whence the free result type. *)
Definition die {A} (message : string) : M A :=
  print_stderr ("Error: " +:+ message);;;
  sys_exit 1.

Definition is_valid_did_folder_name (name : string) : M bool :=
  ret (bool_of_match (re_fullmatch folder_name_pattern name)).

Section Script.

Context `{Backend}.

(** [ec.generate_private_key(curve)]: draws from the world's entropy. *)
Definition ec_generate_private_key (c : ec.EllipticCurve)
  : M ec.EllipticCurvePrivateKey :=
  fun w => (inl (generate_private_key c (entropy w)),
            mkWorld (files w) (denied w) (stdout w) (stderr w) (fs_log w)
                    (N.succ (entropy w)) (unreadable w) (fault w)).

Definition convert_key_to_jwk (public_key : ec.EllipticCurvePublicKey)
    (options : pydict) : M pydict :=
  let numbers := ec.public_numbers public_key in
  let curve_size := ec.key_size (ec.curve numbers) in
  let coordinate_size := (curve_size + 7) / 8 in
  x_bytes <- lift (int_to_bytes_big (ec.x numbers) coordinate_size);;
  y_bytes <- lift (int_to_bytes_big (ec.y numbers) coordinate_size);;
  crv <- lift (subscript EC_CURVE_NAMES curve_size);;
  ret (dict_merge
         [("kty", VStr "EC");
          ("crv", VStr crv);
          ("x", VStr (urlsafe_b64encode x_bytes));
          ("y", VStr (urlsafe_b64encode y_bytes))]
         options).

Definition generate_key_fingerprint (public_key : ec.EllipticCurvePublicKey)
  : M string :=
  let der_bytes :=
    public_bytes public_key serialization.DER serialization.SubjectPublicKeyInfo in
  ret (hexlify (sha256 der_bytes)).

Definition load_or_generate_private_key (key_path : string)
  : M ec.EllipticCurvePrivateKey :=
  present <- path_exists key_path;;
  if (present : bool) then
    print ("Using existing private key at `" +:+ key_path +:+ "`");;;
    try_except
      (data <- read_bytes key_path;;
       private_key <- lift (load_pem_private_key data None);;
       match private_key with
       | ECPrivateKey k => ret k
       | OtherPrivateKey _ => die "Only elliptic curve keys are supported"
       end)
      (fun e => die ("Could not load private key: " +:+ exception_str e))
  else
    print ("Generating new private key at `" +:+ key_path +:+ "`");;;
    private_key <- ec_generate_private_key DEFAULT_EC_CURVE;;
    try_except
      (write_bytes key_path
         (private_bytes private_key serialization.PEM serialization.PKCS8
            serialization.NoEncryption))
      (fun e => die ("Could not write private key: " +:+ exception_str e));;;
    ret private_key.

Definition create_did_document (did : string)
    (public_key : ec.EllipticCurvePublicKey) : M value :=
  fingerprint <- generate_key_fingerprint public_key;;
  let key_id := "#" +:+ fingerprint in
  alg <- lift (subscript SIGNING_ALGORITHMS
                 (ec.key_size (ec.public_curve public_key)));;
  jwk <- convert_key_to_jwk public_key
           [("kid", VStr key_id); ("alg", VStr alg)];;
  ret (VDict
         [("id", VStr did);
          ("assertionMethod",
           VList
             [VDict
                [("@context", VStr "https://www.w3.org/ns/did/v1");
                 ("id", VStr (did +:+ key_id));
                 ("type", VStr "JsonWebKey2020");
                 ("controller", VStr did);
                 ("publicKeyJwk", VDict jwk)]])]).

End Script.

(** ** Vocabulary of the properties *)

(** Mathematical ceiling of [a / b], independent of the script's
    [(a + 7) // 8]. *)
Definition ceil_div (a b : Z) : Z := - ((- a) / b).

Definition registered (b : Z) : Prop := b = 256 \/ b = 384 \/ b = 521.

(** The folder-name grammar in the specification's words: one or more
    characters of [[A-Za-z0-9_-]], optionally after one leading dot. *)
Definition word_chars : list ascii :=
  list_ascii_of_string
    "ABCDEFGHIJKLMNOPQRSTUVWXYZabcdefghijklmnopqrstuvwxyz0123456789_-".

Definition word_run (cs : list ascii) : Prop :=
  cs <> [] /\ Forall (fun c => In c word_chars) cs.

Definition folder_name_grammar (name : string) : Prop :=
  let cs := list_ascii_of_string name in
  (exists rest, cs = "."%char :: rest /\ word_run rest) \/ word_run cs.

(** A computation that neither reads nor changes the world. *)
Definition pure_computation {A} (m : M A) : Prop :=
  exists o, forall w, m w = (o, w).

Definition is_write (c : fs_call) : bool :=
  match c with FsWrite _ _ => true | FsRead _ => false end.

(** The specification's error kinds, recognised by the diagnostic the
    script hands to [die]. *)
Inductive failure := KeyLoadError | UnsupportedKeyType | KeyPersistError.

Definition failure_of_diagnostic (line : string) : option failure :=
  if String.eqb line "Error: Only elliptic curve keys are supported"
  then Some UnsupportedKeyType
  else if String.prefix "Error: Could not load private key: " line
  then Some KeyLoadError
  else if String.prefix "Error: Could not write private key: " line
  then Some KeyPersistError
  else None.

(** The run from [w] ended in [die] with a diagnostic of kind [f]. *)
Definition fails_with {A} (f : failure) (w : World) (r : (A + raised) * World) : Prop :=
  fst r = inr (RaiseSystemExit 1) /\
  exists line, stderr (snd r) = stderr w ++ [line] /\
               failure_of_diagnostic line = Some f.



(** The string ends in the base64 padding character. *)
Definition ends_with_pad (s : string) : Prop := exists pre, s = pre +:+ "=".

Definition has_pad (s : string) : Prop := In pad_char (list_ascii_of_string s).

(** ** A stand-in backend and sample data, to run the script on *)

Module Demo.

Definition sample_key (c : ec.EllipticCurve) (seed : N) : ec.EllipticCurvePrivateKey :=
  {| ec.private_value := Z.of_N seed + 1;
     ec.public_key :=
       {| ec.public_numbers :=
            {| ec.x := (Z.of_N seed * 7 + 3) mod 2 ^ ec.key_size c;
               ec.y := (Z.of_N seed * 11 + 5) mod 2 ^ ec.key_size c;
               ec.curve := c |} |} |}.

(** Files starting with [E] hold the EC key of their second byte,
    files starting with [R] a key of another kind, anything else does
    not parse. *)
Definition parse (data : list byte) (password : option (list byte))
  : Result PrivateKey :=
  match data with
  | x45 :: b :: _ => inl (ECPrivateKey (sample_key ec.SECP384R1 (Byte.to_N b)))
  | x52 :: _ => inl (OtherPrivateKey "RSA")
  | _ => inr (ValueError "Could not deserialize key data.")
  end.

Definition checksum (data : list byte) : list byte :=
  be_bytes 32 (int_from_bytes_big data * 2654435761 + 40503).

#[local] Instance backend : Backend := {|
  load_pem_private_key := parse;
  private_bytes := fun k _ _ _ => [x45; byte_of_Z (ec.private_value k - 1)];
  public_bytes := fun k _ _ =>
    x04 :: be_bytes 4 (ec.x (ec.public_numbers k))
        ++ be_bytes 4 (ec.y (ec.public_numbers k));
  generate_private_key := sample_key;
  sha256 := checksum
|}.

Definition p256_key : ec.EllipticCurvePublicKey :=
  {| ec.public_numbers :=
       {| ec.x := 0x6b17d1f2e12c4247f8bce6e563a440f277037d812deb33a0f4a13945d898c296;
          ec.y := 0x4fe342e2fe1a7f9b8ee7eb4a7c0f9e162bce33576b315ececbb6406837bf51f5;
          ec.curve := ec.SECP256R1 |} |}.

Definition p384_key : ec.EllipticCurvePublicKey :=
  {| ec.public_numbers :=
       {| ec.x := 2 ^ 383 + 2 ^ 100 + 17; ec.y := 2 ^ 300 + 4242;
          ec.curve := ec.SECP384R1 |} |}.

Definition p521_key : ec.EllipticCurvePublicKey :=
  {| ec.public_numbers :=
       {| ec.x := 2 ^ 520 + 12345; ec.y := 77; ec.curve := ec.SECP521R1 |} |}.

Definition p224_key : ec.EllipticCurvePublicKey :=
  {| ec.public_numbers :=
       {| ec.x := 2 ^ 200 + 1; ec.y := 2 ^ 223 + 9;
          ec.curve := {| ec.name := "secp224r1"; ec.key_size := 224 |} |} |}.

Definition world (fs : gmap string node) (locked : gset string) : World :=
  mkWorld fs locked [] [] [] 0 ∅ ∅.

Definition empty_world : World := world ∅ ∅.


Definition ec_file : list byte := [x45; x07].

End Demo.

(** * The rest of the script: DID inference, persistence, [main] *)

(** ** [str] methods and [json.dump]

    Strings are Python [str] values as for [py_repr]. *)

(** The line boundaries of [str.splitlines] in that range: LF, CR, VT,
    FF, FS, GS, RS and NEL. *)
Definition is_line_boundary (c : ascii) : bool :=
  existsb (N.eqb (N_of_ascii c)) [10; 13; 11; 12; 28; 29; 30; 133]%N.

(** [cur] holds the current line, last character first. CR LF counts as
    one boundary; no empty line is added after a final boundary. *)
Fixpoint splitlines_from (cur : list ascii) (s : list ascii) : list (list ascii) :=
  match s with
  | [] => match cur with [] => [] | _ :: _ => [rev cur] end
  | c :: rest =>
      if is_line_boundary c then
        rev cur ::
          match rest with
          | d :: rest2 =>
              if Ascii.eqb c "013" && Ascii.eqb d "010"
              then splitlines_from [] rest2
              else splitlines_from [] rest
          | [] => splitlines_from [] rest
          end
      else splitlines_from (c :: cur) rest
  end.

(** [s.splitlines()] *)
Definition splitlines (s : string) : list string :=
  map string_of_list_ascii (splitlines_from [] (list_ascii_of_string s)).

(** One character inside a JSON string, as [json] writes it with
    [ensure_ascii] on: printable ASCII but the quote and the backslash
    as it is, the usual short escapes, [\u00XX] for the rest. *)
Definition json_escape (c : ascii) : string :=
  let n := N_of_ascii c in
  if Ascii.eqb c quote_char then String "\" (String quote_char "")
  else if Ascii.eqb c "\" then "\\"
  else if (n =? 10)%N then "\n"
  else if (n =? 13)%N then "\r"
  else if (n =? 9)%N then "\t"
  else if (n =? 8)%N then "\b"
  else if (n =? 12)%N then "\f"
  else if ((32 <=? n) && (n <=? 126))%N then String c ""
  else "\u00" +:+ hex2 n.

Definition json_string (s : string) : string :=
  String quote_char
    (String.concat "" (map json_escape (list_ascii_of_string s))
     +:+ String quote_char "").

Definition newline : string := String "010" "".

(** Line break and indentation for nesting depth [level], two spaces
    a level. *)
Fixpoint indentation (level : nat) : string :=
  match level with
  | O => ""
  | S k => "  " +:+ indentation k
  end.

Definition newline_indent (level : nat) : string := newline +:+ indentation level.

(** [json.dumps(v, indent=2)] with [v] at nesting depth [level]. *)
Fixpoint json_encode (level : nat) (v : value) : string :=
  match v with
  | VStr s => json_string s
  | VList [] => "[]"
  | VList items =>
      "[" +:+ newline_indent (S level)
      +:+ String.concat ("," +:+ newline_indent (S level))
               (map (json_encode (S level)) items)
      +:+ newline_indent level +:+ "]"
  | VDict [] => "{}"
  | VDict entries =>
      "{" +:+ newline_indent (S level)
      +:+ String.concat ("," +:+ newline_indent (S level))
               (map (fun kv => json_string (fst kv) +:+ ": "
                               +:+ json_encode (S level) (snd kv)) entries)
      +:+ newline_indent level +:+ "}"
  end.

Definition json_dumps (v : value) : string := json_encode 0 v.

(** The bytes of ASCII text. *)
Definition encode_text (s : string) : list byte :=
  map byte_of_ascii (list_ascii_of_string s).

(** [with open(path, "w") as f: f.write(text)], line ends left alone. *)
Definition write_text (p : string) (text : string) : M unit :=
  write_bytes p (encode_text text).

(** [os.makedirs(p, exist_ok=True)] for a one-component relative path,
    the only kind [main] passes. *)
Definition makedirs_exist_ok (p : string) : M unit :=
  fun w =>
    match files w !! p with
    | Some Directory => (inl tt, w)
    | Some (File _) =>
        (inr (RaiseException (OSError "FileExistsError"
                ("[Errno 17] File exists: " +:+ py_repr p))), w)
    | None =>
        if bool_decide (p ∈ denied w) then
          match fault_at w p with
          | RefusedAtOpen e | FailsAfter _ e => (inr (RaiseException e), w)
          end
        else
          (inl tt, mkWorld (<[p := Directory]> (files w)) (denied w) (stdout w)
                           (stderr w) (fs_log w) (entropy w) (unreadable w)
                           (fault w))
    end.

(** ** [re.search] with groups, by backtracking *)

Inductive atom :=
| AChar (c : ascii)
| AAny
| ASet (items : list set_item).

(** [.] matches everything but a line feed. *)
Definition atom_matches (a : atom) (c : ascii) : bool :=
  match a with
  | AChar d => Ascii.eqb c d
  | AAny => negb (Ascii.eqb c "010")
  | ASet items => in_set c items
  end.

Inductive pattern :=
| PEmpty
| PAtom (a : atom)
| PSeq (p q : pattern)
| PAlt (p q : pattern)
| POpt (p : pattern)
| PLazyPlus (a : atom)
| PGroup (n : nat) (p : pattern).

(** A run of literal characters. *)
Fixpoint lit (s : string) : pattern :=
  match s with
  | EmptyString => PEmpty
  | String c rest => PSeq (PAtom (AChar c)) (lit rest)
  end.

(** Group number and the text it last matched, most recent first. *)
Definition captures : Type := list (nat * list ascii).

(** What is left after [a+?] has taken one character, two, ...: the
    shortest match first. *)
Fixpoint lazy_tails (a : atom) (s : list ascii) : list (list ascii) :=
  match s with
  | [] => []
  | c :: rest => if atom_matches a c then rest :: lazy_tails a rest else []
  end.

(** All the ways [p] matches a prefix of [s], in the order the
    backtracking engine tries them: each is the groups set and the rest
    of the input. *)
Fixpoint run (p : pattern) (s : list ascii) (caps : captures)
  : list (captures * list ascii) :=
  match p with
  | PEmpty => [(caps, s)]
  | PAtom a =>
      match s with
      | c :: rest => if atom_matches a c then [(caps, rest)] else []
      | [] => []
      end
  | PSeq p q => List.flat_map (fun m => run q (snd m) (fst m)) (run p s caps)
  | PAlt p q => run p s caps ++ run q s caps
  | POpt p => run p s caps ++ [(caps, s)]
  | PLazyPlus a => map (fun rest => (caps, rest)) (lazy_tails a s)
  | PGroup n p =>
      map (fun m => ((n, firstn (length s - length (snd m)) s) :: fst m, snd m))
          (run p s caps)
  end.

(** The first match at the leftmost position that has one. *)
Fixpoint search_from (p : pattern) (s : list ascii) : option captures :=
  match run p s [] with
  | m :: _ => Some (fst m)
  | [] =>
      match s with
      | [] => None
      | _ :: rest => search_from p rest
      end
  end.

(** [re.search(p, s)]: the match object, reduced to its groups. *)
Definition re_search (p : pattern) (s : string) : option captures :=
  search_from p (list_ascii_of_string s).

(** [m.group(n)]; [None] for a group that took no part. *)
Fixpoint group (m : captures) (n : nat) : option string :=
  match m with
  | [] => None
  | (k, text) :: rest =>
      if Nat.eqb k n then Some (string_of_list_ascii text) else group rest n
  end.

(** [r"github\.com[/|:](.+?)/(.+?)(\.git)? \((fetch|push)\)"] *)
Definition github_pattern : pattern :=
  PSeq (lit "github.com")
  (PSeq (PAtom (ASet [Single "/"; Single "|"; Single ":"]))
  (PSeq (PGroup 1 (PLazyPlus AAny))
  (PSeq (PAtom (AChar "/"))
  (PSeq (PGroup 2 (PLazyPlus AAny))
  (PSeq (POpt (PGroup 3 (lit ".git")))
  (PSeq (lit " (")
  (PSeq (PGroup 4 (PAlt (lit "fetch") (lit "push")))
        (lit ")")))))))).

(** [f"{g}"] for a group: [None] prints as its name. *)
Definition format_group (g : option string) : string :=
  match g with
  | Some s => s
  | None => "None"
  end.

(** The body of the loop of [infer_did_from_git] once a line matched. *)
Definition did_of_match (m : captures) (did_folder : option string) : string :=
  let owner := group m 1 in
  let repo := group m 2 in
  let did_folder :=
    match did_folder with
    | Some (String c rest) => ":" +:+ String c rest
    | Some EmptyString | None => ""
    end in
  let pages := format_group owner +:+ ".github.io" in
  if match repo with Some r => String.eqb r pages | None => false end
  then "did:web:" +:+ format_group owner +:+ ".github.io" +:+ did_folder
  else "did:web:" +:+ format_group owner +:+ ".github.io:" +:+ format_group repo
       +:+ did_folder.

(** The loop over the lines: the first line that matches decides. *)
Fixpoint scan_remotes (lines : list string) (did_folder : option string)
  : option string :=
  match lines with
  | [] => None
  | line :: rest =>
      match re_search github_pattern line with
      | Some m => Some (did_of_match m did_folder)
      | None => scan_remotes rest did_folder
      end
  end.

(** ** Child processes *)

Module subprocess.

(** What [subprocess.run] hands back. [stdout] is the captured text; a
    run that does not capture leaves it empty (Python has [None]
    there): the script reads it only after a capturing run. *)
Record CompletedProcess := { returncode : Z; stdout : string }.

End subprocess.

(** How a child process ended: it ran and exited, or could not be
    started ([FileNotFoundError] when the program is missing). *)
Inductive process_result :=
| Exited (returncode : Z) (out : string)
| NotStarted (e : exception).

(** What a child process leaves behind: the file system as it is when
    the child ends, and what the child wrote to the terminal it
    inherits (nothing when its output is captured). *)
Record child_effects := {
  files_after : gmap string node;
  to_stdout : list string;
  to_stderr : list string
}.

(** The programs the script starts. [spawn args capture w] runs the
    command from world [w]. [called_process_error_str] is [str(e)] of a
    [CalledProcessError]. *)
Class Shell := {
  spawn : list string -> bool -> World -> process_result * child_effects;
  called_process_error_str : list string -> Z -> string
}.

(** No program started through [shell] touches the file at [p]. *)
Definition leaves_alone (shell : Shell) (p : string) : Prop :=
  forall args capture w,
    files_after (snd (spawn args capture w)) !! p = files w !! p.

(** The world once a child has ended: the script's own record of file
    calls and the rest are as before. *)
Definition after_child (w : World) (fx : child_effects) : World :=
  mkWorld (files_after fx) (denied w) (stdout w ++ to_stdout fx)
          (stderr w ++ to_stderr fx) (fs_log w) (entropy w) (unreadable w)
          (fault w).

(** A run of the whole script: the world and the commands started,
    oldest first. *)
Record Session := mkSession {
  world : World;
  spawned : list (list string)
}.

(** [CalledProcessError] derives from [Exception] as well. *)
Inductive sh_raised :=
| Propagated (r : raised)
| CalledProcessError (cmd : list string) (returncode : Z).

Definition Sh (A : Type) : Type := Session -> (A + sh_raised) * Session.

Definition sh_ret {A} (a : A) : Sh A := fun s => (inl a, s).

Definition sh_bind {A B} (m : Sh A) (f : A -> Sh B) : Sh B :=
  fun s =>
    match m s with
    | (inl a, s') => f a s'
    | (inr r, s') => (inr r, s')
    end.

(** A function of the first part run inside a session. *)
Definition lift_world {A} (m : M A) : Sh A :=
  fun s =>
    match m (world s) with
    | (inl a, w') => (inl a, mkSession w' (spawned s))
    | (inr r, w') => (inr (Propagated r), mkSession w' (spawned s))
    end.

(** [try: body / except subprocess.CalledProcessError: handler] *)
Definition try_except_called_process_error {A} (body : Sh A)
    (handler : list string -> Z -> Sh A) : Sh A :=
  fun s =>
    match body s with
    | (inr (CalledProcessError cmd rc), s') => handler cmd rc s'
    | other => other
    end.

(** [try: body / except subprocess.CalledProcessError as e: on_process(e)
    / except Exception as e: on_exception(e)] *)
Definition try_except_process_then_exception {A} (body : Sh A)
    (on_process : list string -> Z -> Sh A) (on_exception : exception -> Sh A)
  : Sh A :=
  fun s =>
    match body s with
    | (inr (CalledProcessError cmd rc), s') => on_process cmd rc s'
    | (inr (Propagated (RaiseException e)), s') => on_exception e s'
    | other => other
    end.

Declare Scope sh_scope.
Delimit Scope sh_scope with sh.
Notation "x <- m ;; k" := (sh_bind m (fun x => k))
  (at level 100, m at next level, right associativity) : sh_scope.
Notation "m ;;; k" := (sh_bind m (fun _ => k))
  (at level 100, right associativity) : sh_scope.

Section Collaborators.

Context {backend : Backend} {shell : Shell}.

Local Open Scope sh_scope.

(** [subprocess.run(args, check=..., capture_output=...)] *)
Definition subprocess_run (args : list string) (check capture_output : bool)
  : Sh subprocess.CompletedProcess :=
  fun s =>
    let (r, fx) := spawn args capture_output (world s) in
    let s' := mkSession (after_child (world s) fx) (spawned s ++ [args]) in
    match r with
    | NotStarted e => (inr (Propagated (RaiseException e)), s')
    | Exited rc out =>
        if check && negb (rc =? 0)
        then (inr (CalledProcessError args rc), s')
        else (inl {| subprocess.returncode := rc;
                     subprocess.stdout := if capture_output then out else "" |}, s')
    end.

Definition infer_did_from_git (did_folder : option string) : Sh string :=
  result <- try_except_called_process_error
              (subprocess_run ["git"; "remote"; "--verbose"] true true)
              (fun _ _ =>
                 lift_world
                   (die "Could not get git remote information. Are you in a git repository?"));;
  match scan_remotes (splitlines (subprocess.stdout result)) did_folder with
  | Some did => sh_ret did
  | None => lift_world (die "Could not infer a DID from the git configuration")
  end.

Definition save_and_commit_did_document (document : value) (did_path : string)
  : Sh unit :=
  try_except_process_then_exception
    (lift_world (write_text did_path (json_dumps document));;;
     subprocess_run ["git"; "add"; did_path] true false;;;
     result <- subprocess_run
                 ["git"; "diff-index"; "--quiet"; "HEAD"; did_path] false true;;
     if negb (subprocess.returncode result =? 0) then
       lift_world (print "Committing the DID document...");;;
       subprocess_run
         ["git"; "commit"; "--quiet"; "--allow-empty"; did_path;
          "-m"; "Update DID document"] true false;;;
       sh_ret tt
     else sh_ret tt)
    (fun cmd rc =>
       lift_world (die ("Git operation failed: " +:+ called_process_error_str cmd rc)))
    (fun e =>
       lift_world (die ("Could not save DID document: " +:+ exception_str e))).

(** The usage text of [main]. *)
Definition usage (program : string) : string :=
  "Usage:" +:+ newline +:+ "  " +:+ program +:+ newline
  +:+ "  " +:+ program +:+ " <folder_name>" +:+ newline
  +:+ "  " +:+ program +:+ " did:web:example.com".

(** The argument parsing of [main]: the DID and the folder name it
    settles on. *)
Definition parse_arguments (program : string) (arguments : list string)
  : Sh (string * string) :=
  match arguments with
  | [] =>
      did <- infer_did_from_git None;;
      sh_ret (did, "")
  | [arg] =>
      if String.prefix "did:web:" arg then sh_ret (arg, "")
      else
        valid <- lift_world (is_valid_did_folder_name arg);;
        if (valid : bool) then
          did <- infer_did_from_git (Some arg);;
          lift_world (makedirs_exist_ok arg);;;
          sh_ret (did, arg)
        else
          lift_world (die ("`" +:+ arg +:+ "` is not a valid DID folder name"))
  | _ :: _ :: _ => lift_world (die (usage program))
  end.

(** [main], with [sys.argv] as [program :: arguments]. *)
Definition main (program : string) (arguments : list string) : Sh unit :=
  parsed <- parse_arguments program arguments;;
  let did := fst parsed in
  let folder_name := snd parsed in
  let private_key_path :=
    match folder_name with
    | String _ _ => folder_name +:+ "/" +:+ "private_key.pem"
    | EmptyString => "private_key.pem"
    end in
  let did_document_path :=
    match folder_name with
    | String _ _ => folder_name +:+ "/did.json"
    | EmptyString => "did.json"
    end in
  private_key <- lift_world (load_or_generate_private_key private_key_path);;
  let public_key := ec.public_key private_key in
  lift_world (print ("Creating DID document for `" +:+ did +:+ "`..."));;;
  fingerprint <- lift_world (generate_key_fingerprint public_key);;
  let key_id := "#" +:+ fingerprint in
  lift_world (print ("Key ID: `" +:+ key_id +:+ "`"));;;
  document <- lift_world (create_did_document did public_key);;
  save_and_commit_did_document document did_document_path;;;
  lift_world (print "Done!");;;
  lift_world (print "Run `git push` to publish the DID document to GitHub");;;
  lift_world (print ("Check status at: https://dev.uniresolver.io/#" +:+ did));;;
  lift_world
    (print "Note: GitHub Pages deployment may take a few minutes after pushing").

End Collaborators.

(** ** Vocabulary of the further properties *)

(** [s.startswith(p)] and [s.find(p)] on character lists. *)
Fixpoint starts_with (p s : list ascii) : bool :=
  match p, s with
  | [], _ => true
  | a :: p', b :: s' => Ascii.eqb a b && starts_with p' s'
  | _ :: _, [] => false
  end.

Fixpoint find_from (p s : list ascii) (i : nat) : option nat :=
  if starts_with p s then Some i
  else match s with
       | [] => None
       | _ :: rest => find_from p rest (S i)
       end.

(** Index of the first occurrence of [needle] in [hay], if any. *)
Definition str_find (needle hay : string) : option nat :=
  find_from (list_ascii_of_string needle) (list_ascii_of_string hay) 0.

Definition contains_char (c : ascii) (s : string) : Prop :=
  In c (list_ascii_of_string s).

Definition no_line_boundary (s : string) : Prop :=
  forallb (fun c => negb (is_line_boundary c)) (list_ascii_of_string s) = true.

(** What [infer_did_from_git] appends for the folder: nothing for
    [None] and for the empty string. *)
Definition folder_suffix (did_folder : option string) : string :=
  match did_folder with
  | Some (String c rest) => ":" +:+ String c rest
  | Some EmptyString | None => ""
  end.

(** The session after a child has run. *)
Definition after_spawn (s : Session) (args : list string) (fx : child_effects)
  : Session :=
  mkSession (after_child (world s) fx) (spawned s ++ [args]).

(** The session after the script has called [die]. *)
Definition after_die (s : Session) (message : string) : Session :=
  mkSession
    (mkWorld (files (world s)) (denied (world s)) (stdout (world s))
             (stderr (world s) ++ ["Error: " +:+ message])
             (fs_log (world s)) (entropy (world s)) (unreadable (world s))
             (fault (world s)))
    (spawned s).

(** A child that changes nothing. *)
Definition no_effects (w : World) : child_effects :=
  {| files_after := files w; to_stdout := []; to_stderr := [] |}.

(** The end of [github_pattern], after the second group. *)
Definition github_kind : pattern :=
  PSeq (lit " (")
  (PSeq (PGroup 4 (PAlt (lit "fetch") (lit "push")))
        (lit ")")).

Definition github_tail : pattern :=
  PSeq (POpt (PGroup 3 (lit ".git"))) github_kind.

(** Whether [p] has a group numbered [k]. *)
Fixpoint sets_group (k : nat) (p : pattern) : bool :=
  match p with
  | PEmpty | PAtom _ | PLazyPlus _ => false
  | PSeq p q | PAlt p q => sets_group k p || sets_group k q
  | POpt p => sets_group k p
  | PGroup n p => Nat.eqb n k || sets_group k p
  end.

(** ** A scripted shell, to run the second part on *)

Module DemoShell.

Fixpoint answer (script : list (list string * process_result)) (args : list string)
  : process_result :=
  match script with
  | [] => NotStarted (OSError "FileNotFoundError"
                        "[Errno 2] No such file or directory: 'git'")
  | (cmd, r) :: rest => if bool_decide (cmd = args) then r else answer rest args
  end.

(** Children that answer by a table and touch nothing. *)
Definition scripted (script : list (list string * process_result)) : Shell := {|
  spawn := fun args _ w => (answer script args, no_effects w);
  called_process_error_str := fun cmd rc =>
    "Command '" +:+ String.concat " " cmd
    +:+ "' returned non-zero exit status " +:+ pretty rc +:+ "."
|}.

Definition tab : string := String "009" "".

Definition remote_output : string :=
  "origin" +:+ tab +:+ "git@github.com:alice/keys.git (fetch)" +:+ newline
  +:+ "origin" +:+ tab +:+ "git@github.com:alice/keys.git (push)" +:+ newline.

Definition git_remote : list string := ["git"; "remote"; "--verbose"].

Definition session (w : World) : Session := mkSession w [].

End DemoShell.

(** The three commands of [save_and_commit_did_document]. *)
Definition git_add (did_path : string) : list string := ["git"; "add"; did_path].

Definition git_diff_index (did_path : string) : list string :=
  ["git"; "diff-index"; "--quiet"; "HEAD"; did_path].

Definition git_commit (did_path : string) : list string :=
  ["git"; "commit"; "--quiet"; "--allow-empty"; did_path; "-m"; "Update DID document"].

(** The world after the script has written [data] at [p]. *)
Definition after_write (w : World) (p : string) (data : list byte) : World :=
  mkWorld (<[p := File data]> (files w)) (denied w) (stdout w) (stderr w)
          (fs_log w ++ [FsWrite p data]) (entropy w) (unreadable w) (fault w).

(** A write at [p] goes through; a write at [p] is refused when the
    file is opened. *)
Definition writable (w : World) (p : string) : Prop :=
  files w !! p <> Some Directory /\ p ∉ denied w.


(** The session with its world replaced. *)
Definition with_world (s : Session) (w : World) : Session :=
  mkSession w (spawned s).

(** The text [json.dump(document, f, indent=2)] leaves in the file. *)
Definition document_bytes (document : value) : list byte :=
  encode_text (json_dumps document).

Module DemoSave.

Definition document : value := VDict [("id", VStr "did:web:example.com")].

Definition changed : Shell :=
  DemoShell.scripted
    [(git_add "did.json", Exited 0 "");
     (git_diff_index "did.json", Exited 1 "");
     (git_commit "did.json", Exited 0 "")].

Definition add_refused : Shell :=
  DemoShell.scripted [(git_add "did.json", Exited 128 "")].

Definition commit_refused : Shell :=
  DemoShell.scripted
    [(git_add "did.json", Exited 0 "");
     (git_diff_index "did.json", Exited 1 "");
     (git_commit "did.json", Exited 1 "")].

Definition start : Session := DemoShell.session Demo.empty_world.


End DemoSave.

(** [l1] is an initial part of [l2]. *)
Definition initial_part {A} (l1 l2 : list A) : Prop := exists rest, l2 = l1 ++ rest.

(** ** Vocabulary of the properties of [main] *)

(** The path a file call is made on. *)
Definition call_path (c : fs_call) : string :=
  match c with FsRead p => p | FsWrite p _ => p end.

(** The command line [main] goes on with: none, a DID, or a folder name
    of the grammar. *)
Definition accepted_arguments (arguments : list string) : Prop :=
  match arguments with
  | [] => True
  | [arg] => String.prefix "did:web:" arg = true \/ folder_name_grammar arg
  | _ :: _ :: _ => False
  end.

(** What [main] tells the user about any other command line. *)
Definition rejection (program : string) (arguments : list string) : string :=
  match arguments with
  | [arg] => "`" +:+ arg +:+ "` is not a valid DID folder name"
  | _ => usage program
  end.

(** The folder a command line names, if any. *)
Definition folder_of (arguments : list string) : string :=
  match arguments with
  | [arg] => if String.prefix "did:web:" arg then "" else arg
  | _ => ""
  end.

Definition in_folder (folder name : string) : string :=
  match folder with
  | EmptyString => name
  | String _ _ => folder +:+ "/" +:+ name
  end.

Definition git_remote : list string := ["git"; "remote"; "--verbose"].

(** The commands a run on a command line may start, in their order. *)
Definition inference_commands (arguments : list string) : list (list string) :=
  match arguments with
  | [] => [git_remote]
  | [arg] => if String.prefix "did:web:" arg then [] else [git_remote]
  | _ :: _ :: _ => []
  end.

Definition script_commands (arguments : list string) : list (list string) :=
  let did_path := in_folder (folder_of arguments) "did.json" in
  inference_commands arguments
  ++ [git_add did_path; git_diff_index did_path; git_commit did_path].

(** The document [create_did_document] builds around a JWK, and the JWK
    with the two fields it passes in, as Python orders them. *)
Definition did_document (did fingerprint : string) (jwk : pydict) : value :=
  VDict
    [("id", VStr did);
     ("assertionMethod",
      VList
        [VDict
           [("@context", VStr "https://www.w3.org/ns/did/v1");
            ("id", VStr (did +:+ "#" +:+ fingerprint));
            ("type", VStr "JsonWebKey2020");
            ("controller", VStr did);
            ("publicKeyJwk", VDict jwk)]])].

Definition jwk_fields (crv x y kid alg : string) : pydict :=
  [("kty", VStr "EC"); ("crv", VStr crv); ("x", VStr x); ("y", VStr y);
   ("kid", VStr kid); ("alg", VStr alg)].

(** The closing lines of [main]. *)
Definition closing_lines (did : string) : list string :=
  ["Done!";
   "Run `git push` to publish the DID document to GitHub";
   "Check status at: https://dev.uniresolver.io/#" +:+ did;
   "Note: GitHub Pages deployment may take a few minutes after pushing"].

Module DemoMain.

Definition no_remote : Shell :=
  DemoShell.scripted [(git_remote, Exited 128 "")].

Definition with_remote : Shell :=
  DemoShell.scripted [(git_remote, Exited 0 DemoShell.remote_output)].

Definition keys_is_file : Session :=
  DemoShell.session (Demo.world {["keys" := File []]} ∅).

Definition with_key : Session :=
  DemoShell.session (Demo.world {["private_key.pem" := File Demo.ec_file]} ∅).

Definition key : ec.EllipticCurvePrivateKey := Demo.sample_key ec.SECP384R1 7.

(** A library whose key files all hold one key on [secp224r1]. *)
Definition p224_private_key : ec.EllipticCurvePrivateKey :=
  {| ec.private_value := 5; ec.public_key := Demo.p224_key |}.

Definition legacy_backend : Backend := {|
  load_pem_private_key := fun _ _ => inl (ECPrivateKey p224_private_key);
  private_bytes := private_bytes (Backend := Demo.backend);
  public_bytes := public_bytes (Backend := Demo.backend);
  generate_private_key := generate_private_key (Backend := Demo.backend);
  sha256 := Demo.checksum
|}.

Definition locked_key : World := Demo.world ∅ {["private_key.pem"]}.

(** A device that takes one byte of the key file and no more. *)
Definition full_disk : World :=
  mkWorld ∅ {["private_key.pem"]} [] [] [] 0 ∅
    {["private_key.pem" :=
        FailsAfter 1 (OSError "OSError" "[Errno 28] No space left on device")]}.

Definition key_is_directory : World :=
  Demo.world {["private_key.pem" := Directory]} ∅.

End DemoMain.

(** Line feed or printable ASCII, and text made of such characters. *)
Definition is_plain (c : ascii) : bool :=
  let n := N_of_ascii c in
  (n =? 10)%N || ((32 <=? n) && (n <=? 126))%N.

Definition plain_text (s : string) : bool :=
  forallb is_plain (list_ascii_of_string s).

(** * Properties *)

(** ** Sanity checks on concrete inputs *)

Example b64_foobar :
  urlsafe_b64encode [x66; x6f; x6f; x62; x61] = "Zm9vYmE=".
Proof. reflexivity. Qed.

Example b64_urlsafe_chars :
  urlsafe_b64encode [xfb; xff; xfe] = "-__-".
Proof. reflexivity. Qed.

Example to_bytes_1025 : int_to_bytes_big 1025 4 = inl [x00; x00; x04; x01].
Proof. reflexivity. Qed.

Example to_bytes_overflow :
  int_to_bytes_big 65536 2 = inr (OverflowError "int too big to convert").
Proof. reflexivity. Qed.

Example to_bytes_negative :
  int_to_bytes_big (-1) 2 = inr (OverflowError "can't convert negative int to unsigned").
Proof. reflexivity. Qed.

Example hexlify_bytes : hexlify [x00; xab; x1f] = "00ab1f".
Proof. reflexivity. Qed.

Example to_bytes_left_padded :
  option_map urlsafe_b64encode
    (match int_to_bytes_big 1 32 with inl bs => Some bs | inr _ => None end)
  = Some "AAAAAAAAAAAAAAAAAAAAAAAAAAAAAAAAAAAAAAAAAAE=".
Proof. reflexivity. Qed.

Example fullmatch_accepts_dot_folder :
  bool_of_match (re_fullmatch folder_name_pattern ".well-known") = true.
Proof. reflexivity. Qed.

Example fullmatch_rejects_inner_dot :
  bool_of_match (re_fullmatch folder_name_pattern "a.b") = false.
Proof. reflexivity. Qed.

Example fullmatch_rejects_empty :
  bool_of_match (re_fullmatch folder_name_pattern "") = false.
Proof. reflexivity. Qed.

(** A first run on an empty directory generates and stores a key; the
    second run finds the file, reads it and writes nothing. *)
Example acquire_twice :
  let run := load_or_generate_private_key (H := Demo.backend) "private_key.pem" in
  let r1 := run Demo.empty_world in
  let r2 := run (snd r1) in
  fst r1 = inl (Demo.sample_key ec.SECP384R1 0) /\
  fst r2 = fst r1 /\
  files (snd r2) = files (snd r1) /\
  fs_log (snd r2)
    = [FsWrite "private_key.pem" [x45; x00]; FsRead "private_key.pem"] /\
  stdout (snd r2)
    = ["Generating new private key at `private_key.pem`";
       "Using existing private key at `private_key.pem`"].
Proof.
  cbv zeta. repeat (split; [vm_compute; reflexivity|]). vm_compute. reflexivity.
Qed.

(** A location that cannot be written: the run ends in [die]. *)
Example acquire_read_only :
  let r := load_or_generate_private_key (H := Demo.backend) "private_key.pem"
             (Demo.world ∅ {["private_key.pem"]}) in
  fst r = inr (RaiseSystemExit 1) /\
  files (snd r) = (∅ : gmap string node) /\
  stderr (snd r)
    = ["Error: Could not write private key: [Errno 13] Permission denied: 'private_key.pem'"].
Proof.
  cbv zeta. repeat (split; [vm_compute; reflexivity|]). vm_compute. reflexivity.
Qed.

(** ** Fixed-length big-endian rendering *)

Lemma Z_of_byte_range (b : byte) : 0 <= Z_of_byte b < 256.
Proof.
  unfold Z_of_byte. pose proof (Byte.to_N_bounded b). lia.
Qed.

Lemma Z_of_byte_of_Z (z : Z) : Z_of_byte (byte_of_Z z) = z mod 256.
Proof.
  unfold Z_of_byte, byte_of_Z.
  assert (Hr : 0 <= z mod 256 < 256) by (apply Z.mod_pos_bound; lia).
  destruct (Byte.of_N (Z.to_N (z mod 256))) as [b|] eqn:E.
  - apply Byte.to_of_N in E. rewrite E. lia.
  - apply Byte.of_N_None_iff in E. lia.
Qed.

Lemma be_bytes_length (len : nat) (n : Z) : length (be_bytes len n) = len.
Proof.
  revert n. induction len as [|k IH]; intros n; simpl; [reflexivity|].
  rewrite length_app, IH. simpl. lia.
Qed.

Lemma int_from_bytes_big_snoc (bs : list byte) (b : byte) :
  int_from_bytes_big (bs ++ [b]) = int_from_bytes_big bs * 256 + Z_of_byte b.
Proof. unfold int_from_bytes_big. rewrite fold_left_app. reflexivity. Qed.

Lemma int_from_be_bytes (len : nat) (n : Z) :
  0 <= n < 2 ^ (8 * Z.of_nat len) ->
  int_from_bytes_big (be_bytes len n) = n.
Proof.
  revert n. induction len as [|k IH]; intros n Hn.
  - simpl in *. unfold int_from_bytes_big. simpl. lia.
  - simpl be_bytes. rewrite int_from_bytes_big_snoc, Z_of_byte_of_Z, IH.
    + rewrite Z.mod_mod by lia. pose proof (Z.div_mod n 256 ltac:(lia)). lia.
    + replace (8 * Z.of_nat (S k)) with (8 + 8 * Z.of_nat k) in Hn by lia.
      rewrite Z.pow_add_r in Hn by lia. change (2 ^ 8) with 256 in Hn.
      split; [apply Z.div_pos; lia|].
      apply Z.div_lt_upper_bound; lia.
Qed.

Lemma int_to_bytes_big_fits (n len : Z) :
  0 <= len -> 0 <= n < 2 ^ (8 * len) ->
  int_to_bytes_big n len = inl (be_bytes (Z.to_nat len) n).
Proof.
  intros Hl [Hn0 Hn1]. unfold int_to_bytes_big.
  destruct (Z.ltb_spec len 0); [lia|].
  destruct (Z.ltb_spec n 0); [lia|].
  destruct (Z.leb_spec (2 ^ (8 * len)) n); [lia|]. reflexivity.
Qed.

(** [to_bytes] refuses exactly the integers that do not fit. *)
Lemma int_to_bytes_big_raises (n len : Z) (e : exception) :
  int_to_bytes_big n len = inr e -> len < 0 \/ n < 0 \/ 2 ^ (8 * len) <= n.
Proof.
  unfold int_to_bytes_big.
  destruct (Z.ltb_spec len 0); [lia|].
  destruct (Z.ltb_spec n 0); [lia|].
  destruct (Z.leb_spec (2 ^ (8 * len)) n); [lia|]. discriminate.
Qed.

Lemma field_fits_coordinate_size (bits v : Z) :
  0 <= v < 2 ^ bits ->
  0 <= (bits + 7) / 8 /\ 0 <= v < 2 ^ (8 * ((bits + 7) / 8)).
Proof.
  intros [H0 H1].
  assert (Hb : 0 <= bits).
  { destruct (Z.lt_ge_cases bits 0) as [Hneg|]; [|assumption].
    rewrite Z.pow_neg_r in H1 by assumption. lia. }
  assert (Hc : bits <= 8 * ((bits + 7) / 8)).
  { pose proof (Z.div_mod (bits + 7) 8 ltac:(lia)).
    pose proof (Z.mod_pos_bound (bits + 7) 8 ltac:(lia)). lia. }
  split; [apply Z.div_pos; lia|]. split; [assumption|].
  eapply Z.lt_le_trans; [exact H1|]. apply Z.pow_le_mono_r; lia.
Qed.

(** ** Base64 *)

Lemma list_ind3 {A} (P : list A -> Prop) :
  P [] -> (forall a, P [a]) -> (forall a b, P [a; b]) ->
  (forall a b c l, P l -> P (a :: b :: c :: l)) ->
  forall l, P l.
Proof.
  intros H0 H1 H2 H3.
  refine (fix go (l : list A) : P l :=
            match l with
            | [] => H0
            | [a] => H1 a
            | [a; b] => H2 a b
            | a :: b :: c :: r => H3 a b c r (go r)
            end).
Qed.

Lemma b64_char_not_pad (i : Z) : b64_char (Z.land i 63) <> pad_char.
Proof.
  change 63 with (Z.ones 6). rewrite Z.land_ones by lia.
  pose proof (Z.mod_pos_bound i (2 ^ 6) ltac:(lia)) as Hr.
  change (2 ^ 6) with 64 in *.
  remember (i mod 64) as j eqn:Ej. clear Ej i.
  unfold b64_char.
  assert (Hn : (Z.to_nat j < 64)%nat) by lia.
  remember (Z.to_nat j) as n eqn:En. clear En Hr j.
  do 64 (destruct n as [|n]; [vm_compute; discriminate|]).
  lia.
Qed.

Lemma sextet_not_pad (n k : Z) : sextet n k <> pad_char.
Proof. apply b64_char_not_pad. Qed.

Lemma sextet_value_range (n k : Z) : 0 <= sextet_value n k < 64.
Proof.
  unfold sextet_value. change 63 with (Z.ones 6).
  rewrite Z.land_ones by lia. apply Z.mod_pos_bound. lia.
Qed.

Lemma sextet_value_arith (n k : Z) :
  0 <= k -> sextet_value n k = (n / 2 ^ (6 * k)) mod 64.
Proof.
  intros Hk. unfold sextet_value. rewrite Z.shiftr_div_pow2 by lia.
  change 63 with (Z.ones 6). rewrite Z.land_ones by lia. reflexivity.
Qed.

(** Bitwise or of two numbers with no bit in common is their sum. *)
Lemma lor_disjoint_add (hi lo k : Z) :
  0 <= k -> hi mod 2 ^ k = 0 -> 0 <= lo < 2 ^ k -> Z.lor hi lo = hi + lo.
Proof.
  intros Hk Hhi Hlo. rewrite <- Z.add_lor_land.
  assert (E : Z.land hi lo = 0); [|rewrite E; lia].
  apply Z.bits_inj'. intros i Hi. rewrite Z.land_spec, Z.bits_0.
  destruct (Z.lt_ge_cases i k) as [Hlt|Hge].
  - rewrite <- (Z.mod_pow2_bits_low hi k i) by lia.
    rewrite Hhi, Z.bits_0. reflexivity.
  - rewrite <- (Z.mod_small lo (2 ^ k)) by lia.
    rewrite Z.mod_pow2_bits_high by lia. apply andb_false_r.
Qed.

Lemma b64_group_arith (i3 i2 i1 i0 : Z) :
  0 <= i3 < 64 -> 0 <= i2 < 64 -> 0 <= i1 < 64 -> 0 <= i0 < 64 ->
  b64_group i3 i2 i1 i0 = ((i3 * 64 + i2) * 64 + i1) * 64 + i0.
Proof.
  intros H3 H2 H1 H0. unfold b64_group. rewrite !Z.shiftl_mul_pow2 by lia.
  change (2 ^ 18) with 262144. change (2 ^ 12) with 4096. change (2 ^ 6) with 64.
  rewrite (lor_disjoint_add (i3 * 262144) (i2 * 4096) 18); [|lia| |lia].
  2:{ change (2 ^ 18) with 262144. rewrite Z.mod_mul by lia. reflexivity. }
  rewrite (lor_disjoint_add _ (i1 * 64) 12);
    [|lia| |change (2 ^ 12) with 4096; lia].
  2:{ change (2 ^ 12) with 4096.
      replace (i3 * 262144 + i2 * 4096) with ((i3 * 64 + i2) * 4096) by lia.
      rewrite Z.mod_mul by lia. reflexivity. }
  rewrite (lor_disjoint_add _ i0 6); [lia|lia| |change (2 ^ 6) with 64; lia].
  change (2 ^ 6) with 64.
  replace (i3 * 262144 + i2 * 4096 + i1 * 64)
    with (((i3 * 64 + i2) * 64 + i1) * 64) by lia.
  rewrite Z.mod_mul by lia. reflexivity.
Qed.

(** The four sextets of a 24-bit block put it together again. *)
Lemma regroup (n : Z) :
  0 <= n < 2 ^ 24 ->
  b64_group (sextet_value n 3) (sextet_value n 2)
            (sextet_value n 1) (sextet_value n 0) = n.
Proof.
  intros Hn. rewrite b64_group_arith by apply sextet_value_range.
  rewrite !sextet_value_arith by lia.
  change (2 ^ (6 * 3)) with 262144. change (2 ^ (6 * 2)) with 4096.
  change (2 ^ (6 * 1)) with 64. change (2 ^ (6 * 0)) with 1.
  change (2 ^ 24) with 16777216 in Hn.
  Z.div_mod_to_equations. lia.
Qed.

Lemma sextet_value_low_zero (n k : Z) :
  0 <= k -> n mod 2 ^ (6 * k + 6) = 0 -> sextet_value n k = 0.
Proof.
  intros Hk Hn. rewrite sextet_value_arith by lia.
  apply Z.mod_divide in Hn as [q ->]; [|apply Z.pow_nonzero; lia].
  rewrite Z.pow_add_r by lia. change (2 ^ 6) with 64.
  replace (q * (2 ^ (6 * k) * 64)) with (q * 64 * 2 ^ (6 * k)) by lia.
  rewrite Z.div_mul by (apply Z.pow_nonzero; lia).
  apply Z.mod_mul. lia.
Qed.

Lemma regroup_two (n : Z) :
  0 <= n < 2 ^ 24 -> n mod 2 ^ 6 = 0 ->
  b64_group (sextet_value n 3) (sextet_value n 2) (sextet_value n 1) 0 = n.
Proof.
  intros Hn Hz. pose proof (regroup n Hn) as R.
  rewrite (sextet_value_low_zero n 0) in R by (assumption || lia). exact R.
Qed.

Lemma regroup_one (n : Z) :
  0 <= n < 2 ^ 24 -> n mod 2 ^ 12 = 0 ->
  b64_group (sextet_value n 3) (sextet_value n 2) 0 0 = n.
Proof.
  intros Hn Hz. pose proof (regroup n Hn) as R.
  rewrite (sextet_value_low_zero n 1) in R by (assumption || lia).
  rewrite (sextet_value_low_zero n 0) in R; [exact R|lia|].
  change (2 ^ 12) with 4096 in Hz. change (2 ^ (6 * 0 + 6)) with 64.
  Z.div_mod_to_equations. lia.
Qed.

Lemma byte_of_Z_of_byte (b : byte) : byte_of_Z (Z_of_byte b) = b.
Proof.
  unfold byte_of_Z. rewrite Z.mod_small by apply Z_of_byte_range.
  unfold Z_of_byte. rewrite N2Z.id, Byte.of_to_N. reflexivity.
Qed.

Lemma b64_index_char (i : Z) : 0 <= i < 64 -> b64_index (b64_char i) = Some i.
Proof.
  intros Hi. rewrite <- (Z2Nat.id i) at 2 by lia.
  assert (Hn : (Z.to_nat i < 64)%nat) by lia.
  unfold b64_char. remember (Z.to_nat i) as n eqn:En. clear En Hi i.
  do 64 (destruct n as [|n]; [reflexivity|]). lia.
Qed.

Lemma b64_index_sextet (n k : Z) :
  b64_index (sextet n k) = Some (sextet_value n k).
Proof. apply b64_index_char, sextet_value_range. Qed.

Lemma b64_index_pad : b64_index pad_char = None.
Proof. reflexivity. Qed.

Lemma pack_arith (A B C : Z) :
  0 <= A < 256 -> 0 <= B < 256 -> 0 <= C < 256 ->
  Z.lor (Z.lor (Z.shiftl A 16) (Z.shiftl B 8)) C = A * 65536 + B * 256 + C.
Proof.
  intros HA HB HC. rewrite !Z.shiftl_mul_pow2 by lia.
  change (2 ^ 16) with 65536. change (2 ^ 8) with 256.
  rewrite (lor_disjoint_add (A * 65536) (B * 256) 16);
    [|lia| |change (2 ^ 16) with 65536; lia].
  2:{ change (2 ^ 16) with 65536. rewrite Z.mod_mul by lia. reflexivity. }
  rewrite (lor_disjoint_add _ C 8); [lia|lia| |change (2 ^ 8) with 256; lia].
  change (2 ^ 8) with 256.
  replace (A * 65536 + B * 256) with ((A * 256 + B) * 256) by lia.
  rewrite Z.mod_mul by lia. reflexivity.
Qed.

Lemma octet_arith (n k : Z) :
  0 <= k -> octet n k = byte_of_Z ((n / 2 ^ (8 * k)) mod 256).
Proof.
  intros Hk. unfold octet. rewrite Z.shiftr_div_pow2 by lia.
  change 255 with (Z.ones 8). rewrite Z.land_ones by lia. reflexivity.
Qed.

Lemma octets_of_pack (a b c : byte) :
  let n := Z_of_byte a * 65536 + Z_of_byte b * 256 + Z_of_byte c in
  0 <= n < 2 ^ 24 /\ octet n 2 = a /\ octet n 1 = b /\ octet n 0 = c.
Proof.
  pose proof (Z_of_byte_range a). pose proof (Z_of_byte_range b).
  pose proof (Z_of_byte_range c). cbv zeta.
  change (2 ^ 24) with 16777216. split; [lia|].
  rewrite !octet_arith by lia.
  change (2 ^ (8 * 2)) with 65536. change (2 ^ (8 * 1)) with 256.
  change (2 ^ (8 * 0)) with 1.
  rewrite <- (byte_of_Z_of_byte a) at 2. rewrite <- (byte_of_Z_of_byte b) at 3.
  rewrite <- (byte_of_Z_of_byte c) at 4.
  repeat split; f_equal; Z.div_mod_to_equations; lia.
Qed.

(** Reading an encoding back gives the bytes that were encoded. *)
Lemma b64_bytes_chars (bs : list byte) : b64_bytes (b64_chars bs) = Some bs.
Proof.
  induction bs as [|a|a b|a b c l IH] using list_ind3.
  - reflexivity.
  - pose proof (Z_of_byte_range a) as Ha.
    destruct (octets_of_pack a x00 x00) as (Hn & Ea & _).
    change (Z_of_byte x00) with 0 in *. cbv zeta in *.
    cbn [b64_chars b64_bytes].
    rewrite !b64_index_sextet, b64_index_pad. cbn [Ascii.eqb andb].
    rewrite Z.shiftl_mul_pow2 by lia. change (2 ^ 16) with 65536.
    replace (Z_of_byte a * 65536) with (Z_of_byte a * 65536 + 0 * 256 + 0) by lia.
    rewrite regroup_one; [rewrite Ea; reflexivity|assumption|].
    change (2 ^ 12) with 4096. Z.div_mod_to_equations. lia.
  - pose proof (Z_of_byte_range a) as Ha. pose proof (Z_of_byte_range b) as Hb.
    destruct (octets_of_pack a b x00) as (Hn & Ea & Eb & _).
    change (Z_of_byte x00) with 0 in *. cbv zeta in *.
    cbn [b64_chars b64_bytes].
    rewrite !b64_index_sextet, b64_index_pad. cbn [Ascii.eqb].
    rewrite <- (Z.lor_0_r (Z.lor _ _)).
    rewrite (pack_arith _ _ 0) by (assumption || lia).
    rewrite regroup_two; [rewrite Ea, Eb; reflexivity|assumption|].
    change (2 ^ 6) with 64. Z.div_mod_to_equations. lia.
  - pose proof (Z_of_byte_range a) as Ha. pose proof (Z_of_byte_range b) as Hb.
    pose proof (Z_of_byte_range c) as Hc.
    destruct (octets_of_pack a b c) as (Hn & Ea & Eb & Ec). cbv zeta in *.
    cbn [b64_chars b64_bytes].
    rewrite !b64_index_sextet, IH.
    rewrite pack_arith by assumption.
    rewrite regroup by assumption.
    rewrite Ea, Eb, Ec. reflexivity.
Qed.

Lemma b64_chars_length (bs : list byte) :
  length (b64_chars bs) = (4 * ((length bs + 2) / 3))%nat.
Proof.
  induction bs as [|a|a b|a b c l IH] using list_ind3; try reflexivity.
  cbn [b64_chars length]. rewrite IH.
  replace (S (S (S (length l))) + 2)%nat with ((length l + 2) + 1 * 3)%nat by lia.
  rewrite Nat.div_add by lia. lia.
Qed.

(** A whole number of three-byte groups needs no padding. *)
Lemma b64_chars_unpadded (bs : list byte) :
  (length bs mod 3 = 0)%nat -> ~ In pad_char (b64_chars bs).
Proof.
  induction bs as [|a|a b|a b c l IH] using list_ind3; intros Hm.
  - simpl. tauto.
  - discriminate Hm.
  - discriminate Hm.
  - cbn [b64_chars]. cbn [length] in Hm.
    replace (S (S (S (length l)))) with (length l + 1 * 3)%nat in Hm by lia.
    rewrite Nat.Div0.mod_add in Hm.
    intros [E|[E|[E|[E|Hin]]]];
      try exact (sextet_not_pad _ _ E).
    exact (IH Hm Hin).
Qed.

(** Two bytes left over: exactly one [=], at the end. *)
Lemma b64_chars_one_pad (bs : list byte) :
  (length bs mod 3 = 2)%nat ->
  exists pre, b64_chars bs = pre ++ [pad_char] /\ ~ In pad_char pre.
Proof.
  induction bs as [|a|a b|a b c l IH] using list_ind3; intros Hm.
  - discriminate Hm.
  - discriminate Hm.
  - eexists [_; _; _]. split; [reflexivity|].
    intros [E|[E|[E|[]]]]; exact (sextet_not_pad _ _ E).
  - cbn [length] in Hm.
    replace (S (S (S (length l)))) with (length l + 1 * 3)%nat in Hm by lia.
    rewrite Nat.Div0.mod_add in Hm.
    destruct (IH Hm) as (pre & E & Hpre).
    eexists (_ :: _ :: _ :: _ :: pre). cbn [b64_chars]. rewrite E.
    split; [reflexivity|].
    intros [F|[F|[F|[F|Hin]]]];
      try exact (sextet_not_pad _ _ F).
    exact (Hpre Hin).
Qed.

Lemma string_of_list_ascii_length (cs : list ascii) :
  String.length (string_of_list_ascii cs) = length cs.
Proof. induction cs as [|c cs IH]; simpl; [reflexivity|]. now rewrite IH. Qed.

Lemma string_of_list_ascii_snoc (cs : list ascii) (c : ascii) :
  string_of_list_ascii (cs ++ [c]) = string_of_list_ascii cs +:+ String c "".
Proof. induction cs as [|d cs IH]; simpl; [reflexivity|]. now rewrite IH. Qed.

Lemma urlsafe_b64encode_length (bs : list byte) :
  String.length (urlsafe_b64encode bs) = (4 * ((length bs + 2) / 3))%nat.
Proof.
  unfold urlsafe_b64encode. rewrite string_of_list_ascii_length.
  apply b64_chars_length.
Qed.

Lemma urlsafe_b64encode_chars (bs : list byte) :
  list_ascii_of_string (urlsafe_b64encode bs) = b64_chars bs.
Proof. apply list_ascii_of_string_of_list_ascii. Qed.

Lemma urlsafe_b64decode_encode (bs : list byte) :
  urlsafe_b64decode_strict (urlsafe_b64encode bs) = Some bs.
Proof.
  unfold urlsafe_b64decode_strict. rewrite urlsafe_b64encode_chars.
  apply b64_bytes_chars.
Qed.

Lemma urlsafe_b64encode_inj (bs1 bs2 : list byte) :
  urlsafe_b64encode bs1 = urlsafe_b64encode bs2 -> bs1 = bs2.
Proof.
  intros E. apply (f_equal urlsafe_b64decode_strict) in E.
  rewrite !urlsafe_b64decode_encode in E. congruence.
Qed.

(** ** Dicts *)

Lemma dict_get_set_eq (k : string) (v : value) (d : pydict) :
  dict_get k (dict_set k v d) = Some v.
Proof.
  induction d as [|[k' v'] d IH]; simpl.
  - now rewrite String.eqb_refl.
  - destruct (String.eqb k' k) eqn:E; simpl.
    + now rewrite String.eqb_refl.
    + now rewrite E.
Qed.

Lemma dict_get_set_ne (k k' : string) (v : value) (d : pydict) :
  k <> k' -> dict_get k (dict_set k' v d) = dict_get k d.
Proof.
  intros Hne. induction d as [|[k0 v0] d IH]; simpl.
  - destruct (String.eqb_spec k' k); [congruence|reflexivity].
  - destruct (String.eqb_spec k0 k') as [-> | Hk0]; simpl.
    + destruct (String.eqb_spec k' k); [congruence|reflexivity].
    + destruct (String.eqb_spec k0 k); [reflexivity|exact IH].
Qed.

(** Entries the caller does not name survive the merge. *)
Lemma dict_get_merge_other (k : string) (d extra : pydict) :
  ~ In k (dict_keys extra) -> dict_get k (dict_merge d extra) = dict_get k d.
Proof.
  unfold dict_merge. revert d.
  induction extra as [|[k' v'] extra IH]; intros d Hk; simpl; [reflexivity|].
  simpl in Hk. rewrite IH by tauto. apply dict_get_set_ne. intros ->. tauto.
Qed.

(** ** The curve tables *)

Lemma EC_CURVE_NAMES_lookup (b : Z) :
  EC_CURVE_NAMES !! b =
    if b =? 256 then Some "P-256"
    else if b =? 384 then Some "P-384"
    else if b =? 521 then Some "P-521"
    else None.
Proof.
  unfold EC_CURVE_NAMES. cbn [list_to_map foldr fst snd].
  destruct (Z.eqb_spec b 256) as [-> | H1]; [apply lookup_insert_eq|].
  rewrite lookup_insert_ne by congruence.
  destruct (Z.eqb_spec b 384) as [-> | H2]; [apply lookup_insert_eq|].
  rewrite lookup_insert_ne by congruence.
  destruct (Z.eqb_spec b 521) as [-> | H3]; [apply lookup_insert_eq|].
  rewrite lookup_insert_ne by congruence.
  apply lookup_empty.
Qed.

Lemma SIGNING_ALGORITHMS_lookup (b : Z) :
  SIGNING_ALGORITHMS !! b =
    if b =? 256 then Some "ES256"
    else if b =? 384 then Some "ES384"
    else if b =? 521 then Some "ES512"
    else None.
Proof.
  unfold SIGNING_ALGORITHMS. cbn [list_to_map foldr fst snd].
  destruct (Z.eqb_spec b 256) as [-> | H1]; [apply lookup_insert_eq|].
  rewrite lookup_insert_ne by congruence.
  destruct (Z.eqb_spec b 384) as [-> | H2]; [apply lookup_insert_eq|].
  rewrite lookup_insert_ne by congruence.
  destruct (Z.eqb_spec b 521) as [-> | H3]; [apply lookup_insert_eq|].
  rewrite lookup_insert_ne by congruence.
  apply lookup_empty.
Qed.

Lemma subscript_names_registered (b : Z) :
  registered b -> exists crv, subscript EC_CURVE_NAMES b = inl crv.
Proof.
  unfold subscript. rewrite EC_CURVE_NAMES_lookup.
  intros [-> | [-> | ->]]; simpl; eauto.
Qed.

Lemma subscript_names_raises (b : Z) (e : exception) :
  subscript EC_CURVE_NAMES b = inr e -> e = KeyError b /\ ~ registered b.
Proof.
  unfold subscript, registered. rewrite EC_CURVE_NAMES_lookup.
  destruct (Z.eqb_spec b 256); [discriminate|].
  destruct (Z.eqb_spec b 384); [discriminate|].
  destruct (Z.eqb_spec b 521); [discriminate|].
  intros E. injection E as <-. split; [reflexivity|lia].
Qed.

Lemma subscript_algorithms_registered (b : Z) :
  registered b -> exists alg, subscript SIGNING_ALGORITHMS b = inl alg.
Proof.
  unfold subscript. rewrite SIGNING_ALGORITHMS_lookup.
  intros [-> | [-> | ->]]; simpl; eauto.
Qed.

(** ** JWK encoding *)

(** On a key whose coordinates lie in the field both [to_bytes] calls
    return, and the outcome is decided by the table lookup alone. *)
Lemma convert_key_to_jwk_eval (public_key : ec.EllipticCurvePublicKey)
    (options : pydict) (w : World) :
  coordinates_in_field public_key ->
  let numbers := ec.public_numbers public_key in
  let curve_size := ec.key_size (ec.curve numbers) in
  let coordinate_size := Z.to_nat ((curve_size + 7) / 8) in
  convert_key_to_jwk public_key options w =
    (match subscript EC_CURVE_NAMES curve_size with
     | inl crv =>
         inl (dict_merge
                [("kty", VStr "EC");
                 ("crv", VStr crv);
                 ("x", VStr (urlsafe_b64encode (be_bytes coordinate_size (ec.x numbers))));
                 ("y", VStr (urlsafe_b64encode (be_bytes coordinate_size (ec.y numbers))))]
                options)
     | inr e => inr (RaiseException e)
     end, w).
Proof.
  intros [Hx Hy]. cbv zeta.
  destruct (field_fits_coordinate_size _ _ Hx) as [Hs Hx'].
  destruct (field_fits_coordinate_size _ _ Hy) as [_ Hy'].
  unfold convert_key_to_jwk.
  rewrite (int_to_bytes_big_fits _ _ Hs Hx'), (int_to_bytes_big_fits _ _ Hs Hy').
  unfold bind, lift, ret, raise.
  destruct (subscript EC_CURVE_NAMES _); reflexivity.
Qed.

(** The JWK of a key on a registered curve: the four fields the function
    computes, merged with the caller's. *)
Lemma convert_key_to_jwk_registered (public_key : ec.EllipticCurvePublicKey)
    (options : pydict) (w : World) :
  registered (ec.key_size (ec.public_curve public_key)) ->
  coordinates_in_field public_key ->
  let numbers := ec.public_numbers public_key in
  let size := Z.to_nat ((ec.key_size (ec.curve numbers) + 7) / 8) in
  exists crv,
    convert_key_to_jwk public_key options w =
      (inl (dict_merge
              [("kty", VStr "EC");
               ("crv", VStr crv);
               ("x", VStr (urlsafe_b64encode (be_bytes size (ec.x numbers))));
               ("y", VStr (urlsafe_b64encode (be_bytes size (ec.y numbers))))]
              options), w).
Proof.
  intros Hreg Hfield. cbv zeta. unfold ec.public_curve in Hreg.
  rewrite (convert_key_to_jwk_eval _ options w Hfield). cbv zeta.
  destruct (subscript_names_registered _ Hreg) as [crv ->].
  exists crv. reflexivity.
Qed.

Lemma dict_get_jwk_x (crv xs ys : string) (options : pydict) :
  ~ In "x" (dict_keys options) ->
  dict_get "x" (dict_merge [("kty", VStr "EC"); ("crv", VStr crv);
                            ("x", VStr xs); ("y", VStr ys)] options)
    = Some (VStr xs).
Proof. intros Hx. now rewrite dict_get_merge_other. Qed.

Lemma dict_get_jwk_y (crv xs ys : string) (options : pydict) :
  ~ In "y" (dict_keys options) ->
  dict_get "y" (dict_merge [("kty", VStr "EC"); ("crv", VStr crv);
                            ("x", VStr xs); ("y", VStr ys)] options)
    = Some (VStr ys).
Proof. intros Hy. now rewrite dict_get_merge_other. Qed.

Lemma coordinate_size_registered (b : Z) :
  registered b -> Z.of_nat (Z.to_nat ((b + 7) / 8)) = ceil_div b 8.
Proof. intros [-> | [-> | ->]]; reflexivity. Qed.

(** C3. The two module-level tables map 256, 384 and 521 to
    ("P-256","ES256"), ("P-384","ES384") and ("P-521","ES512"); subscripting
    either with any other bit size raises [KeyError] for that size, and
    no default is returned. *)
Theorem curve_registry_lookup (b : Z) :
  (subscript EC_CURVE_NAMES b, subscript SIGNING_ALGORITHMS b) =
    if b =? 256 then (inl "P-256", inl "ES256")
    else if b =? 384 then (inl "P-384", inl "ES384")
    else if b =? 521 then (inl "P-521", inl "ES512")
    else (inr (KeyError b), inr (KeyError b)).
Proof.
  unfold subscript. rewrite EC_CURVE_NAMES_lookup, SIGNING_ALGORITHMS_lookup.
  destruct (b =? 256); [reflexivity|].
  destruct (b =? 384); [reflexivity|].
  destruct (b =? 521); reflexivity.
Qed.

(** C1. On a key of a 256-, 384- or 521-bit curve [convert_key_to_jwk]
    returns a JWK built from fields [x] and [y] that are the base64url
    encodings of byte strings of exactly ceil(b/8) bytes: the strings
    decode to those bytes, which read back, big-endian, as the two
    coordinates (fixed length, zero-padded on the left). These are the
    values found under [x] and [y] unless the caller's extra fields
    themselves name [x] or [y]. *)
Theorem jwk_coordinates_fixed_length (public_key : ec.EllipticCurvePublicKey)
    (options : pydict) (w : World) :
  registered (ec.key_size (ec.public_curve public_key)) ->
  coordinates_in_field public_key ->
  let numbers := ec.public_numbers public_key in
  let b := ec.key_size (ec.curve numbers) in
  exists jwk crv xs ys x_bytes y_bytes,
    convert_key_to_jwk public_key options w = (inl jwk, w) /\
    jwk = dict_merge [("kty", VStr "EC"); ("crv", VStr crv);
                      ("x", VStr xs); ("y", VStr ys)] options /\
    (~ In "x" (dict_keys options) -> dict_get "x" jwk = Some (VStr xs)) /\
    (~ In "y" (dict_keys options) -> dict_get "y" jwk = Some (VStr ys)) /\
    xs = urlsafe_b64encode x_bytes /\
    ys = urlsafe_b64encode y_bytes /\
    urlsafe_b64decode_strict xs = Some x_bytes /\
    urlsafe_b64decode_strict ys = Some y_bytes /\
    Z.of_nat (length x_bytes) = ceil_div b 8 /\
    Z.of_nat (length y_bytes) = ceil_div b 8 /\
    int_from_bytes_big x_bytes = ec.x numbers /\
    int_from_bytes_big y_bytes = ec.y numbers.
Proof.
  intros Hreg Hfield. cbv zeta.
  destruct (convert_key_to_jwk_registered _ options w Hreg Hfield) as [crv Hrun].
  cbv zeta in Hrun.
  unfold ec.public_curve in Hreg. destruct Hfield as [Fx Fy].
  destruct (field_fits_coordinate_size _ _ Fx) as [Hs Fx'].
  destruct (field_fits_coordinate_size _ _ Fy) as [_ Fy'].
  eexists; exists crv; do 4 eexists.
  split; [exact Hrun|]. split; [reflexivity|].
  split; [apply dict_get_jwk_x|]. split; [apply dict_get_jwk_y|].
  split; [reflexivity|]. split; [reflexivity|].
  split; [apply urlsafe_b64decode_encode|].
  split; [apply urlsafe_b64decode_encode|].
  rewrite !be_bytes_length, (coordinate_size_registered _ Hreg).
  split; [reflexivity|]. split; [reflexivity|].
  split; apply int_from_be_bytes; rewrite Z2Nat.id by assumption; assumption.
Qed.

Lemma jwk_coordinates_fixed_length_witness :
  exists jwk crv xs ys x_bytes y_bytes,
    convert_key_to_jwk Demo.p256_key
      [("kid", VStr "#ab"); ("alg", VStr "ES256")] Demo.empty_world
      = (inl jwk, Demo.empty_world) /\
    jwk = dict_merge [("kty", VStr "EC"); ("crv", VStr crv);
                      ("x", VStr xs); ("y", VStr ys)]
                     [("kid", VStr "#ab"); ("alg", VStr "ES256")] /\
    dict_get "x" jwk = Some (VStr xs) /\
    dict_get "y" jwk = Some (VStr ys) /\
    urlsafe_b64decode_strict xs = Some x_bytes /\
    urlsafe_b64decode_strict ys = Some y_bytes /\
    length x_bytes = 32%nat /\
    length y_bytes = 32%nat /\
    int_from_bytes_big x_bytes = ec.x (ec.public_numbers Demo.p256_key) /\
    int_from_bytes_big y_bytes = ec.y (ec.public_numbers Demo.p256_key).
Proof.
  assert (Hreg : registered (ec.key_size (ec.public_curve Demo.p256_key)))
    by (left; reflexivity).
  assert (Hfield : coordinates_in_field Demo.p256_key)
    by (unfold coordinates_in_field; simpl; lia).
  destruct (jwk_coordinates_fixed_length Demo.p256_key
              [("kid", VStr "#ab"); ("alg", VStr "ES256")] Demo.empty_world
              Hreg Hfield)
    as (jwk & crv & xs & ys & xb & yb & Hrun & Hjwk & Hx & Hy & _ & _
        & Hdx & Hdy & Hlx & Hly & Hvx & Hvy).
  exists jwk, crv, xs, ys, xb, yb.
  split; [exact Hrun|]. split; [exact Hjwk|].
  split; [apply Hx; simpl; intros [E|[E|[]]]; discriminate E|].
  split; [apply Hy; simpl; intros [E|[E|[]]]; discriminate E|].
  split; [exact Hdx|]. split; [exact Hdy|].
  simpl in Hlx, Hly. change (ceil_div 256 8) with 32 in *.
  split; [lia|]. split; [lia|]. split; assumption.
Defined.

Lemma urlsafe_b64encode_one_pad (bs : list byte) :
  (length bs mod 3 = 2)%nat -> ends_with_pad (urlsafe_b64encode bs).
Proof.
  intros Hm. destruct (b64_chars_one_pad bs Hm) as (pre & E & _).
  exists (string_of_list_ascii pre). unfold urlsafe_b64encode.
  rewrite E. apply string_of_list_ascii_snoc.
Qed.

Lemma urlsafe_b64encode_unpadded (bs : list byte) :
  (length bs mod 3 = 0)%nat -> ~ has_pad (urlsafe_b64encode bs).
Proof.
  intros Hm. unfold has_pad. rewrite urlsafe_b64encode_chars.
  now apply b64_chars_unpadded.
Qed.

(** C9. The coordinates keep their base64 padding: on a 256-bit curve
    the [x] and [y] that [convert_key_to_jwk] produces are 44 characters
    long and end in [=]; on the 384- and 521-bit curves (48 and 66 bytes,
    64 and 88 characters) they contain no [=] at all. *)
Theorem jwk_coordinates_padding (public_key : ec.EllipticCurvePublicKey)
    (options : pydict) (w : World) :
  registered (ec.key_size (ec.public_curve public_key)) ->
  coordinates_in_field public_key ->
  let b := ec.key_size (ec.public_curve public_key) in
  exists jwk crv xs ys,
    convert_key_to_jwk public_key options w = (inl jwk, w) /\
    jwk = dict_merge [("kty", VStr "EC"); ("crv", VStr crv);
                      ("x", VStr xs); ("y", VStr ys)] options /\
    (~ In "x" (dict_keys options) -> dict_get "x" jwk = Some (VStr xs)) /\
    (~ In "y" (dict_keys options) -> dict_get "y" jwk = Some (VStr ys)) /\
    if b =? 256 then
      String.length xs = 44%nat /\ String.length ys = 44%nat /\
      ends_with_pad xs /\ ends_with_pad ys
    else
      String.length xs = Z.to_nat (ceil_div b 8 / 3 * 4) /\
      String.length ys = Z.to_nat (ceil_div b 8 / 3 * 4) /\
      ~ has_pad xs /\ ~ has_pad ys.
Proof.
  intros Hreg Hfield. cbv zeta.
  destruct (convert_key_to_jwk_registered _ options w Hreg Hfield) as [crv Hrun].
  cbv zeta in Hrun.
  eexists; exists crv; do 2 eexists.
  split; [exact Hrun|]. split; [reflexivity|].
  split; [apply dict_get_jwk_x|]. split; [apply dict_get_jwk_y|].
  unfold ec.public_curve in *.
  rewrite !urlsafe_b64encode_length.
  destruct Hreg as [-> | [-> | ->]]; cbn [Z.eqb Pos.eqb];
    (split; [rewrite be_bytes_length; reflexivity|]);
    (split; [rewrite be_bytes_length; reflexivity|]).
  - split; apply urlsafe_b64encode_one_pad; rewrite be_bytes_length; reflexivity.
  - split; apply urlsafe_b64encode_unpadded; rewrite be_bytes_length; reflexivity.
  - split; apply urlsafe_b64encode_unpadded; rewrite be_bytes_length; reflexivity.
Qed.

Lemma jwk_coordinates_padding_witness :
  exists jwk xs ys,
    convert_key_to_jwk Demo.p256_key [] Demo.empty_world
      = (inl jwk, Demo.empty_world) /\
    dict_get "x" jwk = Some (VStr xs) /\
    dict_get "y" jwk = Some (VStr ys) /\
    String.length xs = 44%nat /\ String.length ys = 44%nat /\
    ends_with_pad xs /\ ends_with_pad ys.
Proof.
  assert (Hreg : registered (ec.key_size (ec.public_curve Demo.p256_key)))
    by (left; reflexivity).
  assert (Hfield : coordinates_in_field Demo.p256_key)
    by (unfold coordinates_in_field; simpl; lia).
  destruct (jwk_coordinates_padding Demo.p256_key [] Demo.empty_world Hreg Hfield)
    as (jwk & crv & xs & ys & Hrun & _ & Hx & Hy & Hpad).
  exists jwk, xs, ys.
  split; [exact Hrun|].
  split; [apply Hx; simpl; tauto|]. split; [apply Hy; simpl; tauto|].
  exact Hpad.
Defined.

(** C10. On a key whose coordinates are field elements the two
    [to_bytes] calls of [convert_key_to_jwk] always return: on the
    registered sizes both coordinates are in [0, 2^(8*ceil(b/8))), and
    whatever the size the function can only fail with the [KeyError] of
    the curve-name lookup, and then the size is not a registered one. *)
Theorem coordinate_rendering_total (public_key : ec.EllipticCurvePublicKey)
    (options : pydict) (w : World) :
  coordinates_in_field public_key ->
  let numbers := ec.public_numbers public_key in
  let b := ec.key_size (ec.curve numbers) in
  (registered b ->
   0 <= ec.x numbers < 2 ^ (8 * ceil_div b 8) /\
   0 <= ec.y numbers < 2 ^ (8 * ceil_div b 8)) /\
  (exists x_bytes y_bytes,
     int_to_bytes_big (ec.x numbers) ((b + 7) / 8) = inl x_bytes /\
     int_to_bytes_big (ec.y numbers) ((b + 7) / 8) = inl y_bytes) /\
  (forall r w', convert_key_to_jwk public_key options w = (inr r, w') ->
     r = RaiseException (KeyError b) /\ ~ registered b /\ w' = w) /\
  (registered b ->
   exists jwk, convert_key_to_jwk public_key options w = (inl jwk, w)).
Proof.
  intros Hfield. cbv zeta.
  pose proof (convert_key_to_jwk_eval _ options w Hfield) as Hrun. cbv zeta in Hrun.
  destruct Hfield as [Fx Fy].
  destruct (field_fits_coordinate_size _ _ Fx) as [Hs Fx'].
  destruct (field_fits_coordinate_size _ _ Fy) as [_ Fy'].
  split; [|split; [|split]].
  - intros Hreg. rewrite <- (coordinate_size_registered _ Hreg).
    rewrite Z2Nat.id by assumption. split; assumption.
  - do 2 eexists. split; apply int_to_bytes_big_fits; assumption.
  - intros r w' E. rewrite Hrun in E.
    destruct (subscript EC_CURVE_NAMES _) as [crv|e] eqn:Es; [discriminate E|].
    injection E as <- <-. destruct (subscript_names_raises _ _ Es) as [-> Hn].
    auto.
  - intros Hreg. rewrite Hrun.
    destruct (subscript_names_registered _ Hreg) as [crv ->]. eauto.
Qed.

Lemma coordinate_rendering_total_witness :
  convert_key_to_jwk Demo.p224_key [] Demo.empty_world
    = (inr (RaiseException (KeyError 224)), Demo.empty_world) /\
  exists jwk,
    convert_key_to_jwk Demo.p521_key [] Demo.empty_world
      = (inl jwk, Demo.empty_world).
Proof.
  split.
  - assert (F : coordinates_in_field Demo.p224_key)
      by (unfold coordinates_in_field; simpl; lia).
    destruct (convert_key_to_jwk Demo.p224_key [] Demo.empty_world)
      as [[jwk|r] w'] eqn:E.
    + vm_compute in E. discriminate E.
    + destruct (coordinate_rendering_total Demo.p224_key [] Demo.empty_world F)
        as (_ & _ & Hfail & _).
      destruct (Hfail r w' E) as (-> & _ & ->). reflexivity.
  - assert (F : coordinates_in_field Demo.p521_key)
      by (unfold coordinates_in_field; simpl; lia).
    apply (coordinate_rendering_total Demo.p521_key [] Demo.empty_world F).
    right. right. reflexivity.
Defined.

(** ** Running the monad *)

Lemma bind_ret {A B} (a : A) (f : A -> M B) (w : World) :
  bind (ret a) f w = f a w.
Proof. reflexivity. Qed.

Lemma bind_returns {A B} (m : M A) (f : A -> M B) (w w' : World) (a : A) :
  m w = (inl a, w') -> bind m f w = f a w'.
Proof. intros E. unfold bind. now rewrite E. Qed.

Lemma bind_raises {A B} (m : M A) (f : A -> M B) (w w' : World) (r : raised) :
  m w = (inr r, w') -> bind m f w = (inr r, w').
Proof. intros E. unfold bind. now rewrite E. Qed.

(** ** Computations that leave the world alone *)

Lemma pure_ret {A} (a : A) : pure_computation (ret a).
Proof. exists (inl a). reflexivity. Qed.

Lemma pure_lift {A} (r : Result A) : pure_computation (lift r).
Proof. destruct r as [a|e]; eexists; reflexivity. Qed.

Lemma pure_bind {A B} (m : M A) (f : A -> M B) :
  pure_computation m -> (forall a, pure_computation (f a)) ->
  pure_computation (bind m f).
Proof.
  intros [o Hm] Hf. destruct o as [a|r].
  - destruct (Hf a) as [o' Hfa]. exists o'. intros w.
    unfold bind. rewrite Hm. apply Hfa.
  - exists (inr r). intros w. unfold bind. now rewrite Hm.
Qed.

Create HintDb pure.
#[local] Hint Resolve pure_ret pure_lift : pure.


Lemma pure_convert_key_to_jwk (public_key : ec.EllipticCurvePublicKey)
    (options : pydict) :
  pure_computation (convert_key_to_jwk public_key options).
Proof.
  unfold convert_key_to_jwk.
  repeat (apply pure_bind; [auto with pure|intros ?]). auto with pure.
Qed.





Section Documents.

Context `{Backend}.

Lemma pure_generate_key_fingerprint (public_key : ec.EllipticCurvePublicKey) :
  pure_computation (generate_key_fingerprint public_key).
Proof. apply pure_ret. Qed.

Lemma pure_create_did_document (did : string)
    (public_key : ec.EllipticCurvePublicKey) :
  pure_computation (create_did_document did public_key).
Proof.
  unfold create_did_document.
  apply pure_bind; [apply pure_generate_key_fingerprint|intros fp].
  apply pure_bind; [apply pure_lift|intros alg].
  apply pure_bind; [apply pure_convert_key_to_jwk|intros jwk].
  apply pure_ret.
Qed.


(** C2. [create_did_document] is a function of its two arguments: run
    from any two worlds with the same DID and key it gives the same
    outcome (the same document, or the same exception), and it leaves
    the world it ran in as it found it. *)
Theorem create_did_document_deterministic (did : string)
    (public_key : ec.EllipticCurvePublicKey) (w1 w2 : World) :
  fst (create_did_document did public_key w1)
    = fst (create_did_document did public_key w2) /\
  snd (create_did_document did public_key w1) = w1.
Proof.
  destruct (pure_create_did_document did public_key) as [o Ho].
  rewrite (Ho w1), (Ho w2). split; reflexivity.
Qed.

(** C4. On a key of a registered curve the document has [id] equal to
    the DID and one verification method, of type JsonWebKey2020,
    controlled by the DID, whose [id] is the DID followed by [#] and the
    key's fingerprint and whose JWK carries [kid] equal to [#] and that
    same fingerprint, the value [generate_key_fingerprint] returns. *)
Theorem create_did_document_structure (did : string)
    (public_key : ec.EllipticCurvePublicKey) (w : World) :
  registered (ec.key_size (ec.public_curve public_key)) ->
  coordinates_in_field public_key ->
  exists fingerprint doc vm jwk,
    generate_key_fingerprint public_key w = (inl fingerprint, w) /\
    create_did_document did public_key w = (inl (VDict doc), w) /\
    dict_keys doc = ["id"; "assertionMethod"] /\
    dict_get "id" doc = Some (VStr did) /\
    dict_get "assertionMethod" doc = Some (VList [VDict vm]) /\
    dict_get "type" vm = Some (VStr "JsonWebKey2020") /\
    dict_get "controller" vm = Some (VStr did) /\
    dict_get "id" vm = Some (VStr (did +:+ "#" +:+ fingerprint)) /\
    dict_get "publicKeyJwk" vm = Some (VDict jwk) /\
    dict_get "kid" jwk = Some (VStr ("#" +:+ fingerprint)).
Proof.
  intros Hreg Hfield.
  destruct (subscript_algorithms_registered _ Hreg) as [alg Halg].
  destruct (subscript_names_registered _ Hreg) as [crv Hcrv].
  unfold ec.public_curve in Hcrv.
  do 4 eexists. split; [reflexivity|]. split.
  - unfold create_did_document, generate_key_fingerprint.
    rewrite bind_ret, Halg. cbn [lift]. rewrite bind_ret.
    erewrite bind_returns; [reflexivity|].
    rewrite (convert_key_to_jwk_eval _ _ w Hfield). cbv zeta.
    rewrite Hcrv. reflexivity.
  - repeat (split; [reflexivity|]). reflexivity.
Qed.

End Documents.

Lemma create_did_document_structure_witness :
  exists fingerprint doc vm jwk,
    generate_key_fingerprint (H := Demo.backend) Demo.p384_key Demo.empty_world
      = (inl fingerprint, Demo.empty_world) /\
    create_did_document (H := Demo.backend) "did:web:example.github.io"
      Demo.p384_key Demo.empty_world
      = (inl (VDict doc), Demo.empty_world) /\
    dict_keys doc = ["id"; "assertionMethod"] /\
    dict_get "id" doc = Some (VStr "did:web:example.github.io") /\
    dict_get "assertionMethod" doc = Some (VList [VDict vm]) /\
    dict_get "type" vm = Some (VStr "JsonWebKey2020") /\
    dict_get "controller" vm = Some (VStr "did:web:example.github.io") /\
    dict_get "id" vm
      = Some (VStr ("did:web:example.github.io" +:+ "#" +:+ fingerprint)) /\
    dict_get "publicKeyJwk" vm = Some (VDict jwk) /\
    dict_get "kid" jwk = Some (VStr ("#" +:+ fingerprint)).
Proof.
  apply (create_did_document_structure (H := Demo.backend)
           "did:web:example.github.io" Demo.p384_key Demo.empty_world).
  - right. left. reflexivity.
  - unfold coordinates_in_field. simpl. lia.
Defined.

(** ** Key acquisition *)

Lemma die_run {A} (message : string) (w : World) :
  @die A message w =
    (inr (RaiseSystemExit 1),
     mkWorld (files w) (denied w) (stdout w) (stderr w ++ ["Error: " +:+ message])
             (fs_log w) (entropy w) (unreadable w) (fault w)).
Proof. reflexivity. Qed.

Lemma failure_of_load_diagnostic (detail : string) :
  failure_of_diagnostic ("Error: " +:+ "Could not load private key: " +:+ detail)
    = Some KeyLoadError.
Proof. destruct detail; reflexivity. Qed.

Lemma failure_of_write_diagnostic (detail : string) :
  failure_of_diagnostic ("Error: " +:+ "Could not write private key: " +:+ detail)
    = Some KeyPersistError.
Proof. destruct detail; reflexivity. Qed.

Lemma failure_of_type_diagnostic :
  failure_of_diagnostic ("Error: " +:+ "Only elliptic curve keys are supported")
    = Some UnsupportedKeyType.
Proof. reflexivity. Qed.

Section KeyAcquisition.

Context `{Backend}.

(** The load branch, case by case. *)
Lemma load_existing_key (key_path : string) (w : World) (n : node) :
  files w !! key_path = Some n ->
  load_or_generate_private_key key_path w =
    let w1 :=
      mkWorld (files w) (denied w)
              (stdout w ++ ["Using existing private key at `" +:+ key_path +:+ "`"])
              (stderr w) (fs_log w ++ [FsRead key_path]) (entropy w)
              (unreadable w) (fault w) in
    match n with
    | File data =>
        match unreadable w !! key_path with
        | Some e => die ("Could not load private key: " +:+ exception_str e) w1
        | None =>
            match load_pem_private_key data None with
            | inl (ECPrivateKey k) => (inl k, w1)
            | inl (OtherPrivateKey _) =>
                die "Only elliptic curve keys are supported" w1
            | inr e => die ("Could not load private key: " +:+ exception_str e) w1
            end
        end
    | Directory =>
        die ("Could not load private key: " +:+
             "[Errno 21] Is a directory: " +:+ py_repr key_path) w1
    end.
Proof.
  intros Hn. unfold load_or_generate_private_key.
  unfold bind at 1. unfold path_exists. rewrite Hn.
  rewrite bool_decide_eq_true_2 by eauto.
  unfold bind at 1. unfold print at 1. unfold try_except.
  unfold bind at 1. unfold read_bytes. cbn [files unreadable]. rewrite Hn.
  destruct n as [data|]; [|reflexivity].
  destruct (unreadable w !! key_path) as [e|]; [reflexivity|].
  unfold bind, log_call.
  cbn [files denied stdout stderr fs_log entropy unreadable fault].
  destruct (load_pem_private_key data None) as [[k|alg]|e]; reflexivity.
Qed.

(** The generation branch. *)
Lemma generate_new_key (key_path : string) (w : World) :
  files w !! key_path = None ->
  load_or_generate_private_key key_path w =
    let private_key := generate_private_key DEFAULT_EC_CURVE (entropy w) in
    let data := private_bytes private_key serialization.PEM serialization.PKCS8
                  serialization.NoEncryption in
    let out := stdout w ++ ["Generating new private key at `" +:+ key_path +:+ "`"] in
    let log := fs_log w ++ [FsWrite key_path data] in
    let w1 := mkWorld (files w) (denied w) out (stderr w) log (N.succ (entropy w))
                      (unreadable w) (fault w) in
    if bool_decide (key_path ∈ denied w) then
      match fault_at w key_path with
      | RefusedAtOpen e =>
          die ("Could not write private key: " +:+ exception_str e) w1
      | FailsAfter kept e =>
          die ("Could not write private key: " +:+ exception_str e)
              (with_file key_path (take kept data) w1)
      end
    else (inl private_key, with_file key_path data w1).
Proof.
  intros Hn. unfold load_or_generate_private_key.
  unfold bind at 1. unfold path_exists. rewrite Hn.
  rewrite bool_decide_eq_false_2 by (intros [? ?]; discriminate).
  unfold bind at 1. unfold print at 1.
  unfold bind at 1. unfold ec_generate_private_key.
  cbn [files denied stdout stderr fs_log entropy unreadable fault].
  unfold bind, try_except, write_bytes, log_call, fault_at.
  cbn [files denied stdout stderr fs_log entropy unreadable fault]. rewrite Hn.
  destruct (bool_decide (key_path ∈ denied w)); [|reflexivity].
  destruct (fault w !! key_path) as [[e|kept e]|]; reflexivity.
Qed.

End KeyAcquisition.

Section KeyAcquisitionProperties.

Context `{Backend}.

(** C5. A run of [load_or_generate_private_key] attempts at most one
    file write; when something exists at the key path it attempts none
    and the file system is unchanged; a write is only ever attempted
    at the key path and only when nothing existed there; hence no file
    present before the run differs after it. *)
Theorem existing_key_never_overwritten (key_path : string) (w : World)
    (o : ec.EllipticCurvePrivateKey + raised) (w' : World) :
  load_or_generate_private_key key_path w = (o, w') ->
  exists calls,
    fs_log w' = fs_log w ++ calls /\
    (length (List.filter is_write calls) <= 1)%nat /\
    (is_Some (files w !! key_path) ->
     List.filter is_write calls = [] /\ files w' = files w) /\
    (forall p data, In (FsWrite p data) calls ->
       p = key_path /\ files w !! key_path = None) /\
    (forall p, is_Some (files w !! p) -> files w' !! p = files w !! p).
Proof.
  intros Hrun. destruct (files w !! key_path) as [n|] eqn:Hn.
  - rewrite (load_existing_key _ _ _ Hn) in Hrun. cbv zeta in Hrun.
    exists [FsRead key_path].
    assert (Hw : fs_log w' = fs_log w ++ [FsRead key_path] /\ files w' = files w).
    { destruct n as [data|];
        [destruct (unreadable w !! key_path) as [e0|];
           [|destruct (load_pem_private_key data None) as [[k|alg]|e]]|];
        rewrite ?die_run in Hrun; injection Hrun as <- <-; split; reflexivity. }
    destruct Hw as [Hlog Hfiles]. rewrite Hfiles.
    split; [exact Hlog|]. split; [simpl; lia|]. split; [auto|].
    split; [|reflexivity].
    intros p data [E|[]]. discriminate E.
  - rewrite (generate_new_key _ _ Hn) in Hrun. cbv zeta in Hrun.
    eexists [FsWrite key_path _].
    assert (Hkept : forall data p, is_Some (files w !! p) ->
              <[key_path := File data]> (files w) !! p = files w !! p).
    { intros data p [n Hp]. apply lookup_insert_ne. intros <-. congruence. }
    destruct (bool_decide (key_path ∈ denied w));
      [destruct (fault_at w key_path) as [e|kept e]|];
      rewrite ?die_run in Hrun; injection Hrun as <- <-;
      cbn [with_file files fs_log];
      (split; [reflexivity|]); (split; [simpl; lia|]);
      (split; [intros [? ?]; discriminate|]);
      (split; [intros p data [E|[]]; injection E as <- _; auto|]);
      solve [reflexivity | apply Hkept].
Qed.




End KeyAcquisitionProperties.

Lemma existing_key_never_overwritten_witness :
  let w := Demo.world {["private_key.pem" := File Demo.ec_file]} ∅ in
  let r := load_or_generate_private_key (H := Demo.backend) "private_key.pem" w in
  files (snd r) = files w /\
  exists calls,
    fs_log (snd r) = fs_log w ++ calls /\ List.filter is_write calls = [].
Proof.
  cbv zeta.
  destruct (existing_key_never_overwritten (H := Demo.backend) "private_key.pem"
              (Demo.world {["private_key.pem" := File Demo.ec_file]} ∅) _ _
              (surjective_pairing _))
    as (calls & Hlog & _ & Hkept & _).
  destruct Hkept as [Hnone Hfiles].
  - exists (File Demo.ec_file). reflexivity.
  - split; [exact Hfiles|]. exists calls. split; assumption.
Defined.




(** ** Regular expressions: the matcher decides the language *)

Lemma matches_nil_nullable (r : regex) (s : list ascii) :
  matches r s -> s = [] -> nullable r = true.
Proof.
  induction 1 as [ | c | c items Hc | r1 r2 s1 s2 _ IH1 _ IH2 | r1 r2 s _ IH
                 | r1 r2 s _ IH | r | r s1 s2 _ IH1 _ IH2 | r s1 s2 _ IH1 _ IH2 ];
    intros Hs; simpl; try reflexivity; try discriminate Hs.
  - apply app_eq_nil in Hs as [-> ->]. now rewrite IH1, IH2.
  - now rewrite IH.
  - rewrite IH by assumption. apply orb_true_r.
  - apply app_eq_nil in Hs as [-> ->]. now apply IH1.
Qed.

Lemma nullable_matches_nil (r : regex) : nullable r = true -> matches r [].
Proof.
  induction r as [ | | c | items | r1 IH1 r2 IH2 | r1 IH1 r2 IH2 | r IH | r IH ];
    simpl; intros Hn; try discriminate Hn.
  - constructor.
  - apply andb_true_iff in Hn as [H1 H2].
    change (@nil ascii) with (@nil ascii ++ []). constructor; auto.
  - apply orb_true_iff in Hn as [H1|H2]; [apply MAltL|apply MAltR]; auto.
  - constructor.
  - change (@nil ascii) with (@nil ascii ++ []). constructor; [auto|constructor].
Qed.

Lemma deriv_sound (c : ascii) (r : regex) :
  forall s, matches (deriv c r) s -> matches r (c :: s).
Proof.
  induction r as [ | | d | items | r1 IH1 r2 IH2 | r1 IH1 r2 IH2 | r IH | r IH ];
    simpl; intros s Hm.
  - inversion Hm.
  - inversion Hm.
  - destruct (Ascii.eqb_spec c d) as [-> | Hne]; inversion Hm; subst. constructor.
  - destruct (in_set c items) eqn:E; inversion Hm; subst. now constructor.
  - destruct (nullable r1) eqn:En.
    + inversion Hm as [ | | | | ? ? ? Hl | ? ? ? Hr | | | ]; subst.
      * inversion Hl as [ | | | ? ? s1 s2 H1 H2 | | | | | ]; subst.
        change (c :: s1 ++ s2) with ((c :: s1) ++ s2). constructor; auto.
      * change (c :: s) with ([] ++ c :: s).
        constructor; [now apply nullable_matches_nil|auto].
    + inversion Hm as [ | | | ? ? s1 s2 H1 H2 | | | | | ]; subst.
      change (c :: s1 ++ s2) with ((c :: s1) ++ s2). constructor; auto.
  - inversion Hm; subst; [apply MAltL|apply MAltR]; auto.
  - inversion Hm as [ | | | ? ? s1 s2 H1 H2 | | | | | ]; subst.
    change (c :: s1 ++ s2) with ((c :: s1) ++ s2). constructor; auto.
  - inversion Hm as [ | | | ? ? s1 s2 H1 H2 | | | | | ]; subst.
    change (c :: s1 ++ s2) with ((c :: s1) ++ s2). constructor; auto.
Qed.

Lemma deriv_complete (c : ascii) (r : regex) (cs : list ascii) :
  matches r cs -> forall s, cs = c :: s -> matches (deriv c r) s.
Proof.
  induction 1 as [ | d | d items Hd | r1 r2 s1 s2 H1 IH1 H2 IH2 | r1 r2 s0 _ IH
                 | r1 r2 s0 _ IH | r | r s1 s2 H1 IH1 H2 IH2
                 | r s1 s2 H1 IH1 H2 IH2 ];
    intros s Hs; simpl.
  - discriminate Hs.
  - injection Hs as <- <-. rewrite Ascii.eqb_refl. constructor.
  - injection Hs as <- <-. rewrite Hd. constructor.
  - destruct s1 as [|a s1'].
    + simpl in Hs. subst s2.
      rewrite (matches_nil_nullable _ _ H1 eq_refl). apply MAltR. now apply IH2.
    + simpl in Hs. injection Hs as -> <-.
      assert (Hc : matches (RCat (deriv c r1) r2) (s1' ++ s2))
        by (constructor; auto).
      destruct (nullable r1); [now apply MAltL|exact Hc].
  - apply MAltL. now apply IH.
  - apply MAltR. now apply IH.
  - discriminate Hs.
  - destruct s1 as [|a s1'].
    + simpl in Hs. now apply IH2.
    + simpl in Hs. injection Hs as -> <-. constructor; auto.
  - destruct s1 as [|a s1'].
    + simpl in Hs. now apply IH2.
    + simpl in Hs. injection Hs as -> <-. constructor; auto.
Qed.

Lemma derivatives_decide (s : list ascii) :
  forall r, nullable (fold_left (fun r c => deriv c r) s r) = true <-> matches r s.
Proof.
  induction s as [|c s IH]; intros r; simpl.
  - split; [apply nullable_matches_nil|intros Hm; now apply (matches_nil_nullable r [])].
  - rewrite IH. split; [apply deriv_sound|intros Hm; now apply (deriv_complete c r (c :: s))].
Qed.

Lemma re_fullmatch_matches (r : regex) (s : string) :
  bool_of_match (re_fullmatch r s) = true <-> matches r (list_ascii_of_string s).
Proof.
  unfold re_fullmatch. rewrite <- derivatives_decide.
  destruct (nullable _); simpl; split; congruence.
Qed.

(** ** The folder-name pattern *)

Lemma in_set_word_chars (c : ascii) :
  in_set c word_items = existsb (Ascii.eqb c) word_chars.
Proof. destruct c as [[] [] [] [] [] [] [] []]; reflexivity. Qed.

Lemma in_set_word (c : ascii) : in_set c word_items = true <-> In c word_chars.
Proof.
  rewrite in_set_word_chars, existsb_exists. split.
  - intros (d & Hd & E). apply Ascii.eqb_eq in E. now subst.
  - intros Hc. exists c. split; [assumption|apply Ascii.eqb_refl].
Qed.

Lemma matches_word_set (s : list ascii) :
  matches word_set s <-> exists c, s = [c] /\ In c word_chars.
Proof.
  split.
  - intros Hm. inversion Hm as [ | | c items Hc | | | | | | ]; subst.
    exists c. split; [reflexivity|]. now apply in_set_word.
  - intros (c & -> & Hc). constructor. now apply in_set_word.
Qed.

Lemma matches_word_star (s : list ascii) :
  matches (RStar word_set) s <-> Forall (fun c => In c word_chars) s.
Proof.
  split.
  - intros Hm. remember (RStar word_set) as r eqn:Er.
    induction Hm as [ | | | | | | r0 | r0 s1 s2 H1 _ H2 IH2 | ];
      try discriminate Er.
    + constructor.
    + injection Er as ->. apply matches_word_set in H1 as (c & -> & Hc).
      constructor; [assumption|]. now apply IH2.
  - induction 1 as [|c s Hc _ IH]; [constructor|].
    change (c :: s) with ([c] ++ s). constructor; [|assumption].
    apply matches_word_set. eauto.
Qed.

Lemma matches_word_plus (s : list ascii) :
  matches (RPlus word_set) s <-> word_run s.
Proof.
  unfold word_run. split.
  - intros Hm. inversion Hm as [ | | | | | | | | r s1 s2 H1 H2 ]; subst.
    apply matches_word_set in H1 as (c & -> & Hc).
    split; [discriminate|]. constructor; [assumption|].
    now apply matches_word_star.
  - intros [Hne Hall]. destruct s as [|c s]; [congruence|].
    inversion Hall as [|? ? Hc Hs]; subst.
    change (c :: s) with ([c] ++ s). constructor.
    + apply matches_word_set. eauto.
    + now apply matches_word_star.
Qed.

Lemma matches_folder_name_pattern (s : list ascii) :
  matches folder_name_pattern s <->
  (exists rest, s = "."%char :: rest /\ word_run rest) \/ word_run s.
Proof.
  unfold folder_name_pattern. split.
  - intros Hm. inversion Hm as [ | | | | ? ? ? Hl | ? ? ? Hr | | | ]; subst.
    + left. inversion Hl as [ | | | ? ? s1 s2 H1 H2 | | | | | ]; subst.
      inversion H1; subst. exists s2. split; [reflexivity|].
      now apply matches_word_plus.
    + right. now apply matches_word_plus.
  - intros [(rest & -> & Hrest)|Hrun].
    + apply MAltL.
      apply (MCat (RLit ".") (RPlus word_set) ["."%char] rest); [constructor|].
      now apply matches_word_plus.
    + apply MAltR. now apply matches_word_plus.
Qed.

(** C8. [is_valid_did_folder_name] always returns, and returns [True]
    exactly on the names of the grammar: one or more characters of
    [[A-Za-z0-9_-]], optionally preceded by one dot. A name holding any
    character that is neither in that set nor a dot, [/] for one, is
    rejected. *)
Theorem is_valid_did_folder_name_grammar (name : string) (w : World) :
  exists b,
    is_valid_did_folder_name name w = (inl b, w) /\
    (b = true <-> folder_name_grammar name) /\
    (forall c, In c (list_ascii_of_string name) ->
               ~ In c word_chars -> c <> "."%char -> b = false).
Proof.
  unfold is_valid_did_folder_name. eexists. split; [reflexivity|].
  assert (Hiff : bool_of_match (re_fullmatch folder_name_pattern name) = true
                 <-> folder_name_grammar name).
  { rewrite re_fullmatch_matches. apply matches_folder_name_pattern. }
  split; [exact Hiff|].
  intros c Hin Hword Hdot.
  destruct (bool_of_match _); [|reflexivity].
  exfalso. destruct Hiff as [Hg _]. specialize (Hg eq_refl).
  assert (Hrun : forall cs, word_run cs -> In c cs -> False).
  { intros cs [_ Hall] Hc. rewrite Forall_forall in Hall. apply Hword.
    apply Hall. now apply list_elem_of_In. }
  destruct Hg as [(rest & E & Hrest)|Hall].
  - rewrite E in Hin. destruct Hin as [<- | Hin]; [congruence|]. eauto.
  - eauto.
Qed.

Lemma is_valid_did_folder_name_grammar_witness :
  is_valid_did_folder_name ".well-known" Demo.empty_world
    = (inl true, Demo.empty_world) /\
  is_valid_did_folder_name "a/b" Demo.empty_world
    = (inl false, Demo.empty_world).
Proof.
  split.
  - reflexivity.
  - destruct (is_valid_did_folder_name_grammar "a/b" Demo.empty_world)
      as (b & Hrun & _ & Hreject).
    rewrite Hrun. f_equal. f_equal.
    apply (Hreject "/"%char).
    + simpl. tauto.
    + intros Hin. simpl in Hin. repeat destruct Hin as [Hin|Hin]; try discriminate Hin.
      exact Hin.
    + discriminate.
Defined.

(** * Further properties *)

(** ** Backtracking search *)

#[local] Arguments Ascii.eqb : simpl nomatch.

Lemma starts_with_app (l rest : list ascii) : starts_with l (l ++ rest) = true.
Proof.
  induction l as [|c l IH]; simpl; [reflexivity|].
  now rewrite Ascii.eqb_refl, IH.
Qed.

Lemma starts_with_split (l s : list ascii) :
  starts_with l s = true -> s = l ++ skipn (length l) s.
Proof.
  revert s. induction l as [|c l IH]; intros s Hs; simpl in *; [reflexivity|].
  destruct s as [|d s]; [discriminate Hs|].
  apply andb_true_iff in Hs as [Hc Hl]. apply Ascii.eqb_eq in Hc. subst d.
  simpl. f_equal. now apply IH.
Qed.

(** A literal matches in one way, and only where the text starts
    with it. *)
Lemma run_lit (l : string) (s : list ascii) (caps : captures) :
  run (lit l) s caps =
    if starts_with (list_ascii_of_string l) s
    then [(caps, skipn (String.length l) s)] else [].
Proof.
  revert s. induction l as [|c l IH]; intros s; simpl; [reflexivity|].
  destruct s as [|d s]; simpl; [reflexivity|].
  rewrite (Ascii.eqb_sym c d).
  destruct (Ascii.eqb d c); simpl; [|reflexivity].
  rewrite IH. destruct (starts_with _ s); reflexivity.
Qed.

Lemma run_seq_lit (l : string) (q : pattern) (s : list ascii) (caps : captures) :
  run (PSeq (lit l) q) s caps =
    if starts_with (list_ascii_of_string l) s
    then run q (skipn (String.length l) s) caps else [].
Proof.
  cbn [run]. rewrite run_lit.
  destruct (starts_with _ s); simpl; [apply app_nil_r|reflexivity].
Qed.

Lemma run_seq_atom (a : atom) (q : pattern) (s : list ascii) (caps : captures) :
  run (PSeq (PAtom a) q) s caps =
    match s with
    | c :: rest => if atom_matches a c then run q rest caps else []
    | [] => []
    end.
Proof.
  cbn [run]. destruct s as [|c rest]; [reflexivity|].
  destruct (atom_matches a c); simpl; [apply app_nil_r|reflexivity].
Qed.

(** The search skips every position before the first occurrence of the
    literal the pattern begins with. *)
Lemma search_from_skips (l : string) (q : pattern) (pre rest : list ascii) :
  forall i,
    find_from (list_ascii_of_string l) (pre ++ rest) i = Some (i + length pre)%nat ->
    search_from (PSeq (lit l) q) (pre ++ rest) = search_from (PSeq (lit l) q) rest.
Proof.
  induction pre as [|c pre IH]; intros i Hfind; [reflexivity|].
  cbn [app] in *. cbn [find_from] in Hfind. cbn [search_from].
  rewrite run_seq_lit.
  destruct (starts_with _ (c :: pre ++ rest)).
  - injection Hfind as Hi. cbn [length] in Hi. lia.
  - apply (IH (S i)). rewrite Hfind. f_equal. cbn [length]. lia.
Qed.

Lemma flat_map_all_nil {A B} (f : A -> list B) (l : list A) :
  (forall x, In x l -> f x = []) -> List.flat_map f l = [].
Proof.
  induction l as [|x l IH]; intros Hf; simpl; [reflexivity|].
  rewrite (Hf x) by (left; reflexivity). apply IH. intros y Hy. apply Hf. now right.
Qed.

(** A lazy group followed by [q]: the group takes the shortest text
    after which [q] matches. Here [taken ++ s1] is what the group has
    when it stops at the end of [s1]. *)
Lemma lazy_group_first (n : nat) (a : atom) (q : pattern) (s2 : list ascii)
    (caps : captures) (s : list ascii) :
  forall s1 taken,
    s = taken ++ s1 ++ s2 ->
    s1 <> [] ->
    Forall (fun c => atom_matches a c = true) s1 ->
    (forall t1 t2, s1 = t1 ++ t2 -> t1 <> [] -> t2 <> [] ->
                   run q (t2 ++ s2) ((n, taken ++ t1) :: caps) = []) ->
    List.flat_map
      (fun rest => run q rest ((n, firstn (length s - length rest) s) :: caps))
      (lazy_tails a (s1 ++ s2))
    = run q s2 ((n, taken ++ s1) :: caps)
      ++ List.flat_map
           (fun rest => run q rest ((n, firstn (length s - length rest) s) :: caps))
           (lazy_tails a s2).
Proof.
  induction s1 as [|c t IH]; intros taken Hs Hne Hall Hshort; [congruence|].
  inversion Hall as [|? ? Hc Ht]; subst.
  cbn [app lazy_tails]. rewrite Hc. cbn [List.flat_map].
  assert (Hcut : firstn (length (taken ++ c :: t ++ s2) - length (t ++ s2))
                        (taken ++ c :: t ++ s2) = taken ++ [c]).
  { replace (taken ++ c :: t ++ s2) with ((taken ++ [c]) ++ (t ++ s2))
      by (rewrite <- app_assoc; reflexivity).
    rewrite length_app.
    replace (length (taken ++ [c]) + length (t ++ s2) - length (t ++ s2))%nat
      with (length (taken ++ [c]) + 0)%nat by lia.
    rewrite firstn_app_2. simpl. now rewrite app_nil_r. }
  rewrite Hcut. destruct t as [|d t'].
  - reflexivity.
  - rewrite (Hshort [c] (d :: t')) by (reflexivity || discriminate).
    cbn [app].
    specialize (IH (taken ++ [c])).
    rewrite <- !app_assoc in IH. cbn [app] in IH.
    apply IH; [reflexivity|discriminate|assumption|].
    intros t1 t2 E Ht1 Ht2.
    specialize (Hshort (c :: t1) t2). cbn [app] in Hshort.
    rewrite <- app_assoc. cbn [app]. apply Hshort; [now rewrite E|discriminate|assumption].
Qed.

Lemma run_lazy_group_seq (n : nat) (a : atom) (q : pattern) (s : list ascii)
    (caps : captures) :
  run (PSeq (PGroup n (PLazyPlus a)) q) s caps =
    List.flat_map
      (fun rest => run q rest ((n, firstn (length s - length rest) s) :: caps))
      (lazy_tails a s).
Proof.
  cbn [run]. rewrite map_map. cbn [fst snd].
  induction (lazy_tails a s) as [|r l IH]; simpl; [reflexivity|]. now rewrite IH.
Qed.

(** The form used below: the first match of a lazy group followed by
    [q] is the first match of [q] after the shortest admissible text. *)
Lemma lazy_group_seq_head (n : nat) (a : atom) (q : pattern)
    (s1 s2 : list ascii) (caps : captures) (m : captures * list ascii) :
  s1 <> [] ->
  Forall (fun c => atom_matches a c = true) s1 ->
  (forall t1 t2, s1 = t1 ++ t2 -> t1 <> [] -> t2 <> [] ->
                 run q (t2 ++ s2) ((n, t1) :: caps) = []) ->
  head (run q s2 ((n, s1) :: caps)) = Some m ->
  head (run (PSeq (PGroup n (PLazyPlus a)) q) (s1 ++ s2) caps) = Some m.
Proof.
  intros Hne Hall Hshort Hhead.
  rewrite run_lazy_group_seq.
  rewrite (lazy_group_first n a q s2 caps (s1 ++ s2) s1 []);
    [|reflexivity|assumption|assumption|exact Hshort].
  cbn [app]. destruct (run q s2 ((n, s1) :: caps)); [discriminate Hhead|exact Hhead].
Qed.

Lemma github_pattern_parts :
  github_pattern =
    PSeq (lit "github.com")
    (PSeq (PAtom (ASet [Single "/"; Single "|"; Single ":"]))
    (PSeq (PGroup 1 (PLazyPlus AAny))
    (PSeq (PAtom (AChar "/"))
    (PSeq (PGroup 2 (PLazyPlus AAny)) github_tail)))).
Proof. reflexivity. Qed.

(** A pattern leaves the groups it does not contain as they were. *)
Lemma run_preserves_group (k : nat) (p : pattern) :
  sets_group k p = false ->
  forall s caps m, In m (run p s caps) -> group (fst m) k = group caps k.
Proof.
  induction p as [ | a | p IHp q IHq | p IHp q IHq | p IHp | a | n p IHp ];
    cbn [sets_group run]; intros Hk s caps m Hm.
  - destruct Hm as [<- | []]. reflexivity.
  - destruct s as [|c rest]; [destruct Hm|].
    destruct (atom_matches a c); [|destruct Hm].
    destruct Hm as [<- | []]. reflexivity.
  - apply orb_false_iff in Hk as [Hp Hq].
    apply in_flat_map in Hm as (m1 & Hm1 & Hm2).
    rewrite (IHq Hq _ _ _ Hm2). exact (IHp Hp _ _ _ Hm1).
  - apply orb_false_iff in Hk as [Hp Hq].
    apply in_app_or in Hm as [Hm|Hm]; eauto.
  - apply in_app_or in Hm as [Hm|Hm]; [eauto|].
    destruct Hm as [<- | []]. reflexivity.
  - apply in_map_iff in Hm as (r & <- & _). reflexivity.
  - apply orb_false_iff in Hk as [Hn Hp].
    apply in_map_iff in Hm as (m1 & <- & Hm1).
    cbn [fst group]. rewrite Hn. eauto.
Qed.

(** After the repository name the rest of a remote line matches. *)
Lemma github_tail_matches (suffix kind post : list ascii) (caps : captures) :
  suffix = [] \/ suffix = list_ascii_of_string ".git" ->
  kind = list_ascii_of_string "fetch" \/ kind = list_ascii_of_string "push" ->
  run github_tail
      (suffix ++ list_ascii_of_string " (" ++ kind ++ list_ascii_of_string ")" ++ post)
      caps <> [].
Proof.
  intros [-> | ->] [-> | ->]; cbn; discriminate.
Qed.

Lemma run_seq_opt (p q : pattern) (s : list ascii) (caps : captures) :
  run (PSeq (POpt p) q) s caps =
    List.flat_map (fun m => run q (snd m) (fst m)) (run p s caps) ++ run q s caps.
Proof.
  cbn [run]. rewrite flat_map_app. cbn [List.flat_map fst snd].
  now rewrite app_nil_r.
Qed.

Lemma run_group_lit (n : nat) (l : string) (s : list ascii) (caps : captures) :
  run (PGroup n (lit l)) s caps =
    if starts_with (list_ascii_of_string l) s
    then [((n, firstn (length s - length (skipn (String.length l) s)) s) :: caps,
           skipn (String.length l) s)]
    else [].
Proof.
  cbn [run]. rewrite run_lit. destruct (starts_with _ s); reflexivity.
Qed.

Lemma github_kind_needs_blank (c : ascii) (s : list ascii) (caps : captures) :
  c <> " "%char -> run github_kind (c :: s) caps = [].
Proof.
  intros Hc. unfold github_kind. rewrite run_seq_lit.
  cbn [list_ascii_of_string starts_with].
  destruct (Ascii.eqb_spec " " c); [congruence|reflexivity].
Qed.

(** It does not match earlier, inside a name without spaces, unless the
    name ends in [.git] and nothing but the blank follows. *)
Lemma github_tail_fails (t2 suffix rest : list ascii) (caps : captures) :
  t2 <> [] ->
  ~ In " "%char t2 ->
  suffix = list_ascii_of_string ".git" \/
  (suffix = [] /\ t2 <> list_ascii_of_string ".git") ->
  run github_tail (t2 ++ suffix ++ list_ascii_of_string " (" ++ rest) caps = [].
Proof.
  intros Hne Hsp Hsuffix. unfold github_tail. rewrite run_seq_opt, run_group_lit.
  destruct t2 as [|c1 t2]; [congruence|].
  assert (H1 : c1 <> " "%char) by (intros ->; apply Hsp; now left).
  cbn [app]. rewrite (github_kind_needs_blank c1) by assumption.
  rewrite app_nil_r.
  destruct (starts_with _ _) eqn:Hgit; [|reflexivity].
  cbn [List.flat_map fst snd]. rewrite app_nil_r.
  cbn [list_ascii_of_string starts_with String.length skipn] in *.
  apply andb_true_iff in Hgit as [E1 Hgit]. apply Ascii.eqb_eq in E1. subst c1.
  destruct t2 as [|c2 t2].
  { destruct Hsuffix as [-> | [-> _]]; discriminate Hgit. }
  cbn [app starts_with] in Hgit.
  apply andb_true_iff in Hgit as [E2 Hgit]. apply Ascii.eqb_eq in E2. subst c2.
  destruct t2 as [|c3 t2].
  { destruct Hsuffix as [-> | [-> _]]; discriminate Hgit. }
  cbn [app starts_with] in Hgit.
  apply andb_true_iff in Hgit as [E3 Hgit]. apply Ascii.eqb_eq in E3. subst c3.
  destruct t2 as [|c4 t2].
  { destruct Hsuffix as [-> | [-> _]]; discriminate Hgit. }
  cbn [app starts_with] in Hgit.
  apply andb_true_iff in Hgit as [E4 _]. apply Ascii.eqb_eq in E4. subst c4.
  cbn [app skipn].
  destruct t2 as [|c5 t2].
  - destruct Hsuffix as [-> | [-> Hnot]].
    + cbn [app list_ascii_of_string]. apply github_kind_needs_blank. discriminate.
    + exfalso. apply Hnot. reflexivity.
  - cbn [app]. apply github_kind_needs_blank.
    intros ->. apply Hsp. do 4 right. now left.
Qed.

Lemma search_from_head (p : pattern) (s : list ascii) (m : captures * list ascii) :
  head (run p s []) = Some m -> search_from p s = Some (fst m).
Proof.
  intros Hm. destruct s; cbn [search_from];
    destruct (run p _ []); (discriminate Hm || (injection Hm as ->; reflexivity)).
Qed.

Lemma Forall_any_matches (s : list ascii) :
  ~ In "010"%char s -> Forall (fun c => atom_matches AAny c = true) s.
Proof.
  intros Hnl. apply Forall_forall. intros c Hc. apply list_elem_of_In in Hc.
  cbn [atom_matches]. destruct (Ascii.eqb_spec c "010"); [subst; tauto|reflexivity].
Qed.

(** The remote line of a GitHub repository: the groups are the owner
    and the repository name, without the [.git] of the URL. *)
Lemma github_search_standard (pre owner repo suffix kind post : list ascii)
    (sep : ascii) :
  let gh := list_ascii_of_string "github.com" in
  let line := pre ++ gh ++ sep :: owner ++ "/"%char :: repo ++ suffix
              ++ list_ascii_of_string " (" ++ kind ++ list_ascii_of_string ")"
              ++ post in
  find_from gh line 0 = Some (length pre) ->
  in_set sep [Single "/"; Single "|"; Single ":"] = true ->
  owner <> [] -> ~ In "/"%char owner -> ~ In "010"%char owner ->
  repo <> [] -> ~ In " "%char repo -> ~ In "010"%char repo ->
  suffix = list_ascii_of_string ".git" \/
  (suffix = [] /\ forall t, t <> [] -> repo <> t ++ list_ascii_of_string ".git") ->
  kind = list_ascii_of_string "fetch" \/ kind = list_ascii_of_string "push" ->
  exists m,
    search_from github_pattern line = Some m /\
    group m 1 = Some (string_of_list_ascii owner) /\
    group m 2 = Some (string_of_list_ascii repo).
Proof.
  cbv zeta. intros Hfind Hsep Ho Hoslash Honl Hr Hrsp Hrnl Hsuffix Hkind.
  set (caps2 := [(2%nat, repo); (1%nat, owner)]).
  set (after_repo := suffix ++ list_ascii_of_string " (" ++ kind
                     ++ list_ascii_of_string ")" ++ post).
  destruct (run github_tail after_repo caps2) as [|m rest] eqn:Etail.
  { exfalso. revert Etail. apply github_tail_matches; [tauto|assumption]. }
  exists (fst m). split; [|split].
  - rewrite github_pattern_parts.
    rewrite (search_from_skips "github.com" _ pre _ 0) by exact Hfind.
    apply search_from_head. rewrite run_seq_lit, starts_with_app.
    replace (skipn (String.length "github.com") _)
      with (sep :: owner ++ "/"%char :: repo ++ after_repo) by reflexivity.
    rewrite run_seq_atom. cbn [atom_matches]. rewrite Hsep.
    apply lazy_group_seq_head; [assumption|now apply Forall_any_matches| |].
    + intros t1 [|c t2] E _ Ht2; [congruence|].
      cbn [app]. rewrite run_seq_atom. cbn [atom_matches].
      destruct (Ascii.eqb_spec c "/"); [|reflexivity].
      exfalso. apply Hoslash. rewrite E. apply in_or_app. right. left. now subst.
    + rewrite run_seq_atom. cbn [atom_matches]. rewrite Ascii.eqb_refl.
      apply lazy_group_seq_head; [assumption|now apply Forall_any_matches| |].
      * intros t1 t2 E Ht1 Ht2. apply github_tail_fails; [assumption| |].
        -- intros Hin. apply Hrsp. rewrite E. apply in_or_app. now right.
        -- destruct Hsuffix as [Hs | [Hs Hnot]]; [now left|right].
           split; [assumption|]. intros ->. exact (Hnot t1 Ht1 E).
      * fold after_repo caps2. now rewrite Etail.
  - rewrite (run_preserves_group 1 github_tail eq_refl after_repo caps2 m)
      by (rewrite Etail; now left).
    reflexivity.
  - rewrite (run_preserves_group 2 github_tail eq_refl after_repo caps2 m)
      by (rewrite Etail; now left).
    reflexivity.
Qed.

(** ** Lines *)

Lemma list_ascii_of_string_app (a b : string) :
  list_ascii_of_string (a +:+ b) = list_ascii_of_string a ++ list_ascii_of_string b.
Proof. induction a as [|c a IH]; simpl; [reflexivity|]. now rewrite IH. Qed.

Lemma string_of_list_ascii_app (a b : list ascii) :
  string_of_list_ascii (a ++ b) = string_of_list_ascii a +:+ string_of_list_ascii b.
Proof. induction a as [|c a IH]; simpl; [reflexivity|]. now rewrite IH. Qed.

Lemma splitlines_from_first (l rest cur : list ascii) :
  forallb (fun c => negb (is_line_boundary c)) l = true ->
  splitlines_from cur (l ++ "010"%char :: rest)
    = (rev cur ++ l) :: splitlines_from [] rest.
Proof.
  revert cur. induction l as [|c l IH]; intros cur Hl.
  - cbn [app splitlines_from].
    change (is_line_boundary "010") with true. cbv iota.
    rewrite app_nil_r. change (Ascii.eqb "010" "013") with false.
    cbn [andb]. destruct rest; reflexivity.
  - cbn [forallb] in Hl. apply andb_true_iff in Hl as [Hc Hl].
    cbn [app splitlines_from]. apply negb_true_iff in Hc. rewrite Hc.
    rewrite IH by assumption. cbn [rev]. now rewrite <- app_assoc.
Qed.

(** A first line without boundary characters, ended by a line feed, is
    the first element of [splitlines]. *)
Lemma splitlines_first (line more : string) :
  no_line_boundary line ->
  splitlines (line +:+ newline +:+ more) = line :: splitlines more.
Proof.
  intros Hl. unfold splitlines, newline.
  rewrite !list_ascii_of_string_app. cbn [list_ascii_of_string app].
  rewrite splitlines_from_first by exact Hl.
  cbn [map rev app]. now rewrite string_of_list_ascii_of_string.
Qed.

(** Each line is a piece of the text. *)
Lemma splitlines_from_infix (n : nat) :
  forall s cur line,
    (length s <= n)%nat ->
    In line (splitlines_from cur s) ->
    exists a b, rev cur ++ s = a ++ line ++ b.
Proof.
  induction n as [|n IH]; intros s cur line Hlen Hin.
  - destruct s; [|cbn [length] in Hlen; lia].
    cbn [splitlines_from] in Hin. destruct cur; [destruct Hin|].
    destruct Hin as [<- | []]. exists [], []. now rewrite !app_nil_r.
  - destruct s as [|c rest].
    + cbn [splitlines_from] in Hin. destruct cur; [destruct Hin|].
      destruct Hin as [<- | []]. exists [], []. now rewrite !app_nil_r.
    + cbn [length] in Hlen. cbn [splitlines_from] in Hin.
      destruct (is_line_boundary c).
      * destruct Hin as [<- | Hin]; [exists [], (c :: rest); reflexivity|].
        assert (Htail : exists a b, rest = a ++ line ++ b).
        { destruct rest as [|d rest2].
          - destruct Hin.
          - destruct (Ascii.eqb c "013" && Ascii.eqb d "010").
            + destruct (IH rest2 [] line) as (a & b & E);
                [cbn [length] in Hlen; lia|exact Hin|].
              exists (d :: a), b. cbn [rev app] in E. now rewrite E.
            + destruct (IH (d :: rest2) [] line) as (a & b & E);
                [lia|exact Hin|].
              exists a, b. exact E. }
        destruct Htail as (a & b & ->).
        exists (rev cur ++ c :: a), b. now rewrite <- app_assoc.
      * destruct (IH rest (c :: cur) line) as (a & b & E); [lia|exact Hin|].
        exists a, b. rewrite <- E. cbn [rev]. now rewrite <- app_assoc.
Qed.

Lemma find_from_none (l s : list ascii) (i : nat) :
  find_from l s i = None -> forall a b, s <> a ++ l ++ b.
Proof.
  revert i. induction s as [|c s IH]; intros i Hf a b E.
  - cbn [find_from] in Hf. destruct (starts_with l []) eqn:Hs; [discriminate|].
    destruct a; [|discriminate E]. cbn [app] in E.
    rewrite E, starts_with_app in Hs. discriminate.
  - cbn [find_from] in Hf. destruct (starts_with l (c :: s)) eqn:Hs; [discriminate|].
    destruct a as [|d a].
    + cbn [app] in E. rewrite E, starts_with_app in Hs. discriminate.
    + injection E as _ E. exact (IH _ Hf a b E).
Qed.

Lemma find_from_absent (l s : list ascii) (i : nat) :
  (forall a b, s <> a ++ l ++ b) -> find_from l s i = None.
Proof.
  revert i. induction s as [|c s IH]; intros i Hno; cbn [find_from].
  - destruct (starts_with l []) eqn:Hs; [|reflexivity].
    exfalso. apply (Hno [] (skipn (length l) [])). now apply starts_with_split.
  - destruct (starts_with l (c :: s)) eqn:Hs.
    + exfalso. apply (Hno [] (skipn (length l) (c :: s))). now apply starts_with_split.
    + apply IH. intros a b E. apply (Hno (c :: a) b). now rewrite E.
Qed.

Lemma search_from_absent (l : string) (q : pattern) (s : list ascii) :
  (forall i, find_from (list_ascii_of_string l) s i = None) ->
  search_from (PSeq (lit l) q) s = None.
Proof.
  induction s as [|c s IH]; intros Hf; cbn [search_from]; rewrite run_seq_lit.
  - specialize (Hf 0%nat). cbn [find_from] in Hf.
    destruct (starts_with _ []); [discriminate Hf|reflexivity].
  - pose proof (Hf 0%nat) as H0. cbn [find_from] in H0.
    destruct (starts_with _ (c :: s)); [discriminate H0|].
    apply IH. intros i. specialize (Hf i). cbn [find_from] in Hf.
    destruct (starts_with _ (c :: s)) eqn:E; [discriminate Hf|].
    apply find_from_absent. eapply find_from_none. exact H0.
Qed.

(** Without [github.com] in the text no line matches. *)
Lemma scan_remotes_absent (text : string) (did_folder : option string) :
  str_find "github.com" text = None ->
  scan_remotes (splitlines text) did_folder = None.
Proof.
  intros Hfind. unfold str_find in Hfind.
  pose proof (find_from_none _ _ _ Hfind) as Hno.
  assert (Hlines : forall line, In line (splitlines text) ->
                     re_search github_pattern line = None).
  { intros line Hin. unfold splitlines in Hin.
    apply in_map_iff in Hin as (cs & <- & Hcs).
    destruct (splitlines_from_infix _ _ [] cs (le_n _) Hcs) as (a & b & E).
    cbn [rev app] in E. unfold re_search.
    rewrite list_ascii_of_string_of_list_ascii, github_pattern_parts.
    apply search_from_absent. intros i. apply find_from_absent.
    intros a' b' E'. apply (Hno (a ++ a') (b' ++ b)).
    rewrite E, E'. now rewrite <- !app_assoc. }
  induction (splitlines text) as [|line rest IH]; [reflexivity|].
  cbn [scan_remotes]. rewrite (Hlines line) by now left.
  apply IH. intros l Hl. apply Hlines. now right.
Qed.

(** ** Inferring the DID *)

Lemma no_line_boundary_app (a b : string) :
  no_line_boundary (a +:+ b) -> no_line_boundary a /\ no_line_boundary b.
Proof.
  unfold no_line_boundary. rewrite list_ascii_of_string_app, forallb_app.
  apply andb_true_iff.
Qed.

Lemma no_line_boundary_no_lf (s : string) :
  no_line_boundary s -> ~ In "010"%char (list_ascii_of_string s).
Proof.
  unfold no_line_boundary. intros Hs Hin.
  rewrite forallb_forall in Hs. specialize (Hs _ Hin). discriminate Hs.
Qed.

Lemma string_app_assoc (a b c : string) : (a +:+ b) +:+ c = a +:+ b +:+ c.
Proof.
  induction a as [|x a IH]; [reflexivity|].
  change (String x ((a +:+ b) +:+ c) = String x (a +:+ b +:+ c)). now rewrite IH.
Qed.

Lemma list_ascii_of_string_length (s : string) :
  length (list_ascii_of_string s) = String.length s.
Proof. induction s as [|c s IH]; simpl; congruence. Qed.

Lemma list_ascii_of_string_nil (s : string) :
  s <> "" -> list_ascii_of_string s <> [].
Proof. destruct s; [congruence|discriminate]. Qed.

Lemma did_of_match_groups (m : captures) (did_folder : option string)
    (owner repo : string) :
  group m 1 = Some owner -> group m 2 = Some repo ->
  did_of_match m did_folder =
    if String.eqb repo (owner +:+ ".github.io")
    then "did:web:" +:+ owner +:+ ".github.io" +:+ folder_suffix did_folder
    else "did:web:" +:+ owner +:+ ".github.io:" +:+ repo
         +:+ folder_suffix did_folder.
Proof.
  intros H1 H2. unfold did_of_match. rewrite H1, H2. cbn [format_group].
  destruct did_folder as [[|c f]|]; reflexivity.
Qed.

Section Inference.

Context {shell : Shell}.

Lemma infer_did_from_git_run (did_folder : option string) (s : Session) :
  infer_did_from_git did_folder s =
    let args := ["git"; "remote"; "--verbose"] in
    let (r, fx) := spawn args true (world s) in
    let s' := after_spawn s args fx in
    match r with
    | NotStarted e => (inr (Propagated (RaiseException e)), s')
    | Exited rc out =>
        if rc =? 0 then
          match scan_remotes (splitlines out) did_folder with
          | Some did => (inl did, s')
          | None =>
              (inr (Propagated (RaiseSystemExit 1)),
               after_die s' "Could not infer a DID from the git configuration")
          end
        else
          (inr (Propagated (RaiseSystemExit 1)),
           after_die s'
             "Could not get git remote information. Are you in a git repository?")
    end.
Proof.
  unfold infer_did_from_git, sh_bind, try_except_called_process_error,
    subprocess_run. cbv zeta.
  destruct (spawn _ true (world s)) as [[rc out|e] fx]; [|reflexivity].
  destruct (Z.eqb_spec rc 0) as [-> | Hrc]; cbn [andb negb].
  - cbn [subprocess.stdout].
    destruct (scan_remotes (splitlines out) did_folder); reflexivity.
  - reflexivity.
Qed.

(** X1. A first line of [git remote --verbose] that names a GitHub
    repository decides the DID: [did:web:OWNER.github.io] for the
    repository [OWNER.github.io], [did:web:OWNER.github.io:REPO] for any
    other, then [:FOLDER] when a folder is given. The line may use [/],
    [:] or [|] after [github.com] and may or may not end the URL in
    [.git]; one command is started and nothing is printed. *)
Theorem infer_did_from_git_standard_remote (did_folder : option string)
    (s : Session) (pre owner repo suffix kind post more : string) (sep : ascii)
    (fx : child_effects) :
  let line := pre +:+ "github.com" +:+ String sep "" +:+ owner +:+ "/" +:+ repo
              +:+ suffix +:+ " (" +:+ kind +:+ ")" +:+ post in
  spawn ["git"; "remote"; "--verbose"] true (world s)
    = (Exited 0 (line +:+ newline +:+ more), fx) ->
  no_line_boundary line ->
  str_find "github.com" line = Some (String.length pre) ->
  In sep ["/"; "|"; ":"]%char ->
  owner <> "" -> ~ contains_char "/" owner ->
  repo <> "" -> ~ contains_char " " repo ->
  suffix = ".git" \/ (suffix = "" /\ forall t, t <> "" -> repo <> t +:+ ".git") ->
  kind = "fetch" \/ kind = "push" ->
  infer_did_from_git did_folder s =
    (inl (if String.eqb repo (owner +:+ ".github.io")
          then "did:web:" +:+ owner +:+ ".github.io" +:+ folder_suffix did_folder
          else "did:web:" +:+ owner +:+ ".github.io:" +:+ repo
               +:+ folder_suffix did_folder),
     after_spawn s ["git"; "remote"; "--verbose"] fx).
Proof.
  cbv zeta. intros Hspawn Hline Hfind Hsep Ho Hoslash Hr Hrsp Hsuffix Hkind.
  rewrite infer_did_from_git_run. cbv zeta. rewrite Hspawn. cbn [Z.eqb].
  rewrite splitlines_first by exact Hline. cbn [scan_remotes].
  assert (Hparts : no_line_boundary owner /\ no_line_boundary repo).
  { apply no_line_boundary_app in Hline as [_ Hline].
    apply no_line_boundary_app in Hline as [_ Hline].
    apply no_line_boundary_app in Hline as [_ Hline].
    apply no_line_boundary_app in Hline as [Hown Hline].
    apply no_line_boundary_app in Hline as [_ Hline].
    apply no_line_boundary_app in Hline as [Hrepo _]. now split. }
  destruct Hparts as [Hown Hrepo].
  destruct (github_search_standard
              (list_ascii_of_string pre) (list_ascii_of_string owner)
              (list_ascii_of_string repo) (list_ascii_of_string suffix)
              (list_ascii_of_string kind) (list_ascii_of_string post) sep)
    as (m & Hm & Hg1 & Hg2).
  - unfold str_find in Hfind. rewrite !list_ascii_of_string_app in Hfind.
    rewrite list_ascii_of_string_length. exact Hfind.
  - destruct Hsep as [<- | [<- | [<- | []]]]; reflexivity.
  - now apply list_ascii_of_string_nil.
  - exact Hoslash.
  - now apply no_line_boundary_no_lf.
  - now apply list_ascii_of_string_nil.
  - exact Hrsp.
  - now apply no_line_boundary_no_lf.
  - destruct Hsuffix as [-> | [-> Hnot]]; [now left|right].
    split; [reflexivity|]. intros t Ht E.
    apply (Hnot (string_of_list_ascii t)).
    + destruct t; [congruence|discriminate].
    + rewrite <- (string_of_list_ascii_of_string repo), E.
      apply string_of_list_ascii_app.
  - destruct Hkind as [-> | ->]; [now left|now right].
  - unfold re_search. rewrite !list_ascii_of_string_app.
    cbn [list_ascii_of_string app] in *. rewrite Hm.
    rewrite !string_of_list_ascii_of_string in Hg1, Hg2.
    now rewrite (did_of_match_groups m did_folder owner repo Hg1 Hg2).
Qed.

(** X2. When [git remote] exits with a non-zero status the function
    reports it through [die]: one line on standard error after whatever
    the child wrote, then [SystemExit(1)]; no DID is produced. *)
Theorem infer_did_from_git_git_fails (did_folder : option string) (s : Session)
    (rc : Z) (out : string) (fx : child_effects) :
  spawn ["git"; "remote"; "--verbose"] true (world s) = (Exited rc out, fx) ->
  rc <> 0 ->
  infer_did_from_git did_folder s =
    (inr (Propagated (RaiseSystemExit 1)),
     after_die (after_spawn s ["git"; "remote"; "--verbose"] fx)
       "Could not get git remote information. Are you in a git repository?").
Proof.
  intros Hspawn Hrc. rewrite infer_did_from_git_run. cbv zeta. rewrite Hspawn.
  destruct (Z.eqb_spec rc 0); [contradiction|reflexivity].
Qed.

(** X3. When [git] cannot be started at all the [OSError] is not caught:
    it leaves the function as an ordinary exception, and the script
    prints no diagnostic of its own. *)
Theorem infer_did_from_git_git_missing (did_folder : option string) (s : Session)
    (e : exception) (fx : child_effects) :
  spawn ["git"; "remote"; "--verbose"] true (world s) = (NotStarted e, fx) ->
  infer_did_from_git did_folder s =
    (inr (Propagated (RaiseException e)),
     after_spawn s ["git"; "remote"; "--verbose"] fx).
Proof.
  intros Hspawn. rewrite infer_did_from_git_run. cbv zeta. now rewrite Hspawn.
Qed.

(** X4. When the output of [git remote] does not contain [github.com]
    the function ends in [die] with the inference diagnostic. *)
Theorem infer_did_from_git_no_github_remote (did_folder : option string)
    (s : Session) (out : string) (fx : child_effects) :
  spawn ["git"; "remote"; "--verbose"] true (world s) = (Exited 0 out, fx) ->
  str_find "github.com" out = None ->
  infer_did_from_git did_folder s =
    (inr (Propagated (RaiseSystemExit 1)),
     after_die (after_spawn s ["git"; "remote"; "--verbose"] fx)
       "Could not infer a DID from the git configuration").
Proof.
  intros Hspawn Hfind. rewrite infer_did_from_git_run. cbv zeta. rewrite Hspawn.
  cbn [Z.eqb]. now rewrite scan_remotes_absent.
Qed.

Lemma scan_remotes_shape (lines : list string) (did_folder : option string)
    (did : string) :
  scan_remotes lines did_folder = Some did ->
  exists body, did = "did:web:" +:+ body +:+ folder_suffix did_folder.
Proof.
  induction lines as [|line rest IH]; cbn [scan_remotes]; [discriminate|].
  destruct (re_search github_pattern line) as [m|]; [|exact IH].
  intros E. injection E as <-. unfold did_of_match.
  fold (folder_suffix did_folder).
  destruct (match group m 2 with Some r => _ | None => false end).
  - exists (format_group (group m 1) +:+ ".github.io").
    now rewrite !string_app_assoc.
  - exists (format_group (group m 1) +:+ ".github.io:" +:+ format_group (group m 2)).
    now rewrite !string_app_assoc.
Qed.

(** X5. Whatever [git remote] prints, a DID the function returns starts
    with [did:web:] (so [main] would take it back as an explicit DID) and
    ends with [:FOLDER] for a non-empty folder; for [None] and for the
    empty folder name nothing is appended. *)
Theorem infer_did_from_git_result_shape (did_folder : option string)
    (s s' : Session) (did : string) :
  infer_did_from_git did_folder s = (inl did, s') ->
  String.prefix "did:web:" did = true /\
  exists body, did = "did:web:" +:+ body +:+ folder_suffix did_folder.
Proof.
  rewrite infer_did_from_git_run. cbv zeta.
  destruct (spawn _ true (world s)) as [[rc out|e] fx]; [|discriminate].
  destruct (rc =? 0); [|discriminate].
  destruct (scan_remotes (splitlines out) did_folder) as [d|] eqn:Hscan;
    [|discriminate].
  intros E. injection E as <- _.
  destruct (scan_remotes_shape _ _ _ Hscan) as [body ->].
  split; [|eauto]. cbn. destruct (body +:+ _); reflexivity.
Qed.

End Inference.

Lemma infer_did_from_git_standard_remote_witness :
  let shell := DemoShell.scripted
                 [(DemoShell.git_remote, Exited 0 DemoShell.remote_output)] in
  let s := DemoShell.session Demo.empty_world in
  infer_did_from_git (shell := shell) (Some "team") s =
    (inl "did:web:alice.github.io:keys:team",
     after_spawn s DemoShell.git_remote (no_effects Demo.empty_world)).
Proof.
  cbv zeta.
  apply (infer_did_from_git_standard_remote
           (shell := DemoShell.scripted
                   [(DemoShell.git_remote, Exited 0 DemoShell.remote_output)])
           (Some "team") (DemoShell.session Demo.empty_world)
           ("origin" +:+ DemoShell.tab +:+ "git@") "alice" "keys" ".git" "fetch" ""
           ("origin" +:+ DemoShell.tab +:+ "git@github.com:alice/keys.git (push)"
            +:+ newline)
           ":"%char (no_effects Demo.empty_world)).
  - reflexivity.
  - vm_compute. reflexivity.
  - vm_compute. reflexivity.
  - right. right. left. reflexivity.
  - discriminate.
  - unfold contains_char. simpl. intros Hin.
    repeat destruct Hin as [Hin|Hin]; try discriminate Hin. exact Hin.
  - discriminate.
  - unfold contains_char. simpl. intros Hin.
    repeat destruct Hin as [Hin|Hin]; try discriminate Hin. exact Hin.
  - left. reflexivity.
  - left. reflexivity.
Defined.

Lemma infer_did_from_git_git_fails_witness :
  let shell := DemoShell.scripted [(DemoShell.git_remote, Exited 128 "")] in
  let s := DemoShell.session Demo.empty_world in
  infer_did_from_git (shell := shell) None s =
    (inr (Propagated (RaiseSystemExit 1)),
     after_die (after_spawn s DemoShell.git_remote (no_effects Demo.empty_world))
       "Could not get git remote information. Are you in a git repository?").
Proof.
  cbv zeta.
  apply (infer_did_from_git_git_fails
           (shell := DemoShell.scripted [(DemoShell.git_remote, Exited 128 "")])
           None (DemoShell.session Demo.empty_world) 128 ""
           (no_effects Demo.empty_world)).
  - reflexivity.
  - discriminate.
Defined.

Lemma infer_did_from_git_git_missing_witness :
  let shell := DemoShell.scripted [] in
  let s := DemoShell.session Demo.empty_world in
  infer_did_from_git (shell := shell) None s =
    (inr (Propagated
            (RaiseException
               (OSError "FileNotFoundError"
                  "[Errno 2] No such file or directory: 'git'"))),
     after_spawn s DemoShell.git_remote (no_effects Demo.empty_world)).
Proof.
  cbv zeta.
  apply (infer_did_from_git_git_missing (shell := DemoShell.scripted [])
           None (DemoShell.session Demo.empty_world)).
  reflexivity.
Defined.

Lemma infer_did_from_git_no_github_remote_witness :
  let out := "origin" +:+ DemoShell.tab +:+ "git@gitlab.com:alice/keys.git (fetch)"
             +:+ newline in
  let shell := DemoShell.scripted [(DemoShell.git_remote, Exited 0 out)] in
  let s := DemoShell.session Demo.empty_world in
  infer_did_from_git (shell := shell) (Some "team") s =
    (inr (Propagated (RaiseSystemExit 1)),
     after_die (after_spawn s DemoShell.git_remote (no_effects Demo.empty_world))
       "Could not infer a DID from the git configuration").
Proof.
  cbv zeta.
  apply (infer_did_from_git_no_github_remote
           (shell := DemoShell.scripted
                   [(DemoShell.git_remote,
                     Exited 0 ("origin" +:+ DemoShell.tab
                               +:+ "git@gitlab.com:alice/keys.git (fetch)"
                               +:+ newline))])
           (Some "team") (DemoShell.session Demo.empty_world)
           ("origin" +:+ DemoShell.tab +:+ "git@gitlab.com:alice/keys.git (fetch)"
            +:+ newline)
           (no_effects Demo.empty_world)).
  - reflexivity.
  - vm_compute. reflexivity.
Defined.

Lemma infer_did_from_git_result_shape_witness :
  let shell := DemoShell.scripted
                 [(DemoShell.git_remote, Exited 0 DemoShell.remote_output)] in
  let r := infer_did_from_git (shell := shell) (Some "")
             (DemoShell.session Demo.empty_world) in
  fst r = inl "did:web:alice.github.io:keys" /\
  String.prefix "did:web:" "did:web:alice.github.io:keys" = true.
Proof.
  cbv zeta. split; [vm_compute; reflexivity|].
  apply (infer_did_from_git_result_shape
           (shell := DemoShell.scripted
                   [(DemoShell.git_remote, Exited 0 DemoShell.remote_output)])
           (Some "") (DemoShell.session Demo.empty_world)
           (after_spawn (DemoShell.session Demo.empty_world) DemoShell.git_remote
              (no_effects Demo.empty_world))).
  vm_compute. reflexivity.
Defined.

(** ** Saving and committing *)

Lemma write_bytes_writable (w : World) (p : string) (data : list byte) :
  writable w p -> write_bytes p data w = (inl tt, after_write w p data).
Proof.
  intros [Hdir Hden]. unfold write_bytes. cbv zeta.
  rewrite bool_decide_eq_false_2 by exact Hden.
  destruct (files w !! p) as [[data'|]|]; try reflexivity. congruence.
Qed.


Section Saving.

Context {shell : Shell}.

(** X6. With the file written and [git add] done, [git commit] is run
    exactly when [git diff-index] exits with a non-zero status: then, and
    only then, the script prints that it commits and starts a third
    command; otherwise it returns after two. When the commit is run the
    function returns if it exits with 0, ends in [die] with
    [Git operation failed: ...] if it exits with another status, and
    ends in [die] with [Could not save DID document: ...] if [git]
    cannot be started. *)
Theorem save_and_commit_commits_on_change (document : value) (did_path : string)
    (s : Session) (o1 o2 : string) (rc : Z) (fx1 fx2 fx3 : child_effects)
    (r3 : process_result) :
  let w1 := after_write (world s) did_path (document_bytes document) in
  let w2 := after_child w1 fx1 in
  let w3 := after_child w2 fx2 in
  let w4 := mkWorld (files w3) (denied w3)
                    (stdout w3 ++ ["Committing the DID document..."])
                    (stderr w3) (fs_log w3) (entropy w3) (unreadable w3)
                    (fault w3) in
  let s4 := mkSession (after_child w4 fx3)
              (spawned s ++ [git_add did_path; git_diff_index did_path;
                             git_commit did_path]) in
  writable (world s) did_path ->
  spawn (git_add did_path) false w1 = (Exited 0 o1, fx1) ->
  spawn (git_diff_index did_path) true w2 = (Exited rc o2, fx2) ->
  spawn (git_commit did_path) false w4 = (r3, fx3) ->
  save_and_commit_did_document document did_path s =
    if rc =? 0 then
      (inl tt,
       mkSession w3 (spawned s ++ [git_add did_path; git_diff_index did_path]))
    else
      match r3 with
      | Exited rc3 _ =>
          if rc3 =? 0 then (inl tt, s4)
          else
            (inr (Propagated (RaiseSystemExit 1)),
             after_die s4
               ("Git operation failed: "
                +:+ called_process_error_str (git_commit did_path) rc3))
      | NotStarted e =>
          (inr (Propagated (RaiseSystemExit 1)),
           after_die s4 ("Could not save DID document: " +:+ exception_str e))
      end.
Proof.
  cbv zeta. intros Hw Hadd Hdiff Hcommit.
  unfold save_and_commit_did_document, try_except_process_then_exception,
    sh_bind, lift_world, subprocess_run, write_text.
  fold (document_bytes document).
  rewrite (write_bytes_writable _ _ _ Hw). cbn [world spawned].
  unfold git_add in Hadd. rewrite Hadd. cbn [andb negb Z.eqb world spawned].
  unfold git_diff_index in Hdiff. rewrite Hdiff. cbn [andb negb world spawned].
  cbn [subprocess.returncode].
  destruct (Z.eqb_spec rc 0) as [-> | Hrc]; cbn [negb].
  - unfold sh_ret. rewrite <- app_assoc. reflexivity.
  - unfold print. cbn [world spawned].
    unfold git_commit in Hcommit. unfold after_child in Hcommit |- *.
    cbn [files denied stdout stderr fs_log entropy unreadable fault]
      in Hcommit |- *.
    rewrite Hcommit. rewrite <- !app_assoc. cbn [app].
    destruct r3 as [rc3 o3|e]; [|reflexivity].
    destruct (rc3 =? 0); cbn [andb negb]; reflexivity.
Qed.



(** X9. When [git] cannot be started the [OSError] of [git add] falls
    into the catch-all clause: the run ends in [die] with
    [Could not save DID document: ...], although the file has been
    written. *)
Theorem save_and_commit_git_missing (document : value) (did_path : string)
    (s : Session) (e : exception) (fx : child_effects) :
  let w1 := after_write (world s) did_path (document_bytes document) in
  writable (world s) did_path ->
  spawn (git_add did_path) false w1 = (NotStarted e, fx) ->
  save_and_commit_did_document document did_path s =
    (inr (Propagated (RaiseSystemExit 1)),
     after_die (mkSession (after_child w1 fx) (spawned s ++ [git_add did_path]))
       ("Could not save DID document: " +:+ exception_str e)).
Proof.
  cbv zeta. intros Hw Hadd.
  unfold save_and_commit_did_document, try_except_process_then_exception,
    sh_bind, lift_world, subprocess_run, write_text.
  fold (document_bytes document).
  rewrite (write_bytes_writable _ _ _ Hw). cbn [world spawned].
  unfold git_add in Hadd. rewrite Hadd. reflexivity.
Qed.

End Saving.

Lemma writable_empty_world (p : string) : writable Demo.empty_world p.
Proof.
  split.
  - cbn [Demo.empty_world Demo.world files]. rewrite lookup_empty. discriminate.
  - cbn [Demo.empty_world Demo.world denied]. apply not_elem_of_empty.
Qed.

Lemma save_and_commit_commits_on_change_witness :
  let r := save_and_commit_did_document (shell := DemoSave.changed)
             DemoSave.document "did.json" DemoSave.start in
  let r' := save_and_commit_did_document (shell := DemoSave.commit_refused)
              DemoSave.document "did.json" DemoSave.start in
  (fst r = inl tt /\
   spawned (snd r)
     = [git_add "did.json"; git_diff_index "did.json"; git_commit "did.json"] /\
   stdout (world (snd r)) = ["Committing the DID document..."]) /\
  fst r' = inr (Propagated (RaiseSystemExit 1)).
Proof.
  cbv zeta. split.
  - rewrite (save_and_commit_commits_on_change (shell := DemoSave.changed)
               DemoSave.document "did.json" DemoSave.start "" "" 1
               (no_effects (after_write Demo.empty_world "did.json"
                              (document_bytes DemoSave.document)))
               (no_effects (after_write Demo.empty_world "did.json"
                              (document_bytes DemoSave.document)))
               (no_effects (after_write Demo.empty_world "did.json"
                              (document_bytes DemoSave.document)))
               (Exited 0 "")).
    + repeat split.
    + apply writable_empty_world.
    + reflexivity.
    + reflexivity.
    + reflexivity.
  - rewrite (save_and_commit_commits_on_change (shell := DemoSave.commit_refused)
               DemoSave.document "did.json" DemoSave.start "" "" 1
               (no_effects (after_write Demo.empty_world "did.json"
                              (document_bytes DemoSave.document)))
               (no_effects (after_write Demo.empty_world "did.json"
                              (document_bytes DemoSave.document)))
               (no_effects (after_write Demo.empty_world "did.json"
                              (document_bytes DemoSave.document)))
               (Exited 1 "")).
    + reflexivity.
    + apply writable_empty_world.
    + reflexivity.
    + reflexivity.
    + reflexivity.
Defined.




Lemma save_and_commit_git_missing_witness :
  let r := save_and_commit_did_document (shell := DemoShell.scripted [])
             DemoSave.document "did.json" DemoSave.start in
  fst r = inr (Propagated (RaiseSystemExit 1)) /\
  stderr (world (snd r))
    = ["Error: Could not save DID document: [Errno 2] No such file or directory: 'git'"].
Proof.
  cbv zeta.
  rewrite (save_and_commit_git_missing (shell := DemoShell.scripted [])
             DemoSave.document "did.json" DemoSave.start
             (OSError "FileNotFoundError"
                "[Errno 2] No such file or directory: 'git'")
             (no_effects (after_write Demo.empty_world "did.json"
                            (document_bytes DemoSave.document)))).
  - split; reflexivity.
  - apply writable_empty_world.
  - reflexivity.
Defined.

(** ** Running a session *)

Lemma sh_bind_returns {A B} (m : Sh A) (f : A -> Sh B) (s s' : Session) (a : A) :
  m s = (inl a, s') -> sh_bind m f s = f a s'.
Proof. intros E. unfold sh_bind. now rewrite E. Qed.

Lemma sh_bind_raises {A B} (m : Sh A) (f : A -> Sh B) (s s' : Session)
    (r : sh_raised) :
  m s = (inr r, s') -> sh_bind m f s = (inr r, s').
Proof. intros E. unfold sh_bind. now rewrite E. Qed.

Lemma lift_world_returns {A} (m : M A) (s : Session) (a : A) (w' : World) :
  m (world s) = (inl a, w') -> lift_world m s = (inl a, with_world s w').
Proof. intros E. unfold lift_world. now rewrite E. Qed.

Lemma lift_world_raises {A} (m : M A) (s : Session) (r : raised) (w' : World) :
  m (world s) = (inr r, w') -> lift_world m s = (inr (Propagated r), with_world s w').
Proof. intros E. unfold lift_world. now rewrite E. Qed.

Lemma lift_world_die {A} (message : string) (s : Session) :
  lift_world (@die A message) s
    = (inr (Propagated (RaiseSystemExit 1)), after_die s message).
Proof. reflexivity. Qed.

Lemma write_bytes_trace (p : string) (data : list byte) (w w' : World)
    (o : unit + raised) :
  write_bytes p data w = (o, w') ->
  fs_log w' = fs_log w ++ [FsWrite p data] /\
  stdout w' = stdout w /\ stderr w' = stderr w /\
  match o with inr (RaiseSystemExit _) => False | _ => True end.
Proof.
  unfold write_bytes. cbv zeta.
  destruct (files w !! p) as [[d|]|];
    try (destruct (bool_decide (p ∈ denied w));
         [destruct (fault_at w p) as [e|kept e]|]);
    intros E; injection E as <- <-; cbn; auto.
Qed.

Section SavingTrace.

Context {shell : Shell}.

(** Whatever the outcome, saving attempts one write, of the JSON text
    at the document path, and starts an initial part of the three
    commands, in their order. *)
Lemma save_and_commit_trace (document : value) (did_path : string)
    (s s' : Session) (o : unit + sh_raised) :
  save_and_commit_did_document document did_path s = (o, s') ->
  fs_log (world s')
    = fs_log (world s) ++ [FsWrite did_path (document_bytes document)] /\
  (exists printed, stdout (world s') = stdout (world s) ++ printed) /\
  exists cmds,
    spawned s' = spawned s ++ cmds /\
    initial_part cmds
      [git_add did_path; git_diff_index did_path; git_commit did_path].
Proof.
  unfold save_and_commit_did_document, try_except_process_then_exception,
    sh_bind, lift_world, subprocess_run, write_text.
  fold (document_bytes document).
  destruct (write_bytes did_path (document_bytes document) (world s))
    as [[[]|r] w1] eqn:Hwrite;
    destruct (write_bytes_trace _ _ _ _ _ Hwrite) as (Hlog & Hout & _ & Hres).
  2:{ destruct r as [e|code]; [|destruct Hres].
      intros E. injection E as <- <-. cbn.
      split; [exact Hlog|]. split; [exists []; now rewrite app_nil_r|].
      exists []. split; [now rewrite app_nil_r|]. eexists. reflexivity. }
  cbn [world spawned].
  destruct (spawn ["git"; "add"; did_path] false w1) as [[rc1 o1|e1] fx1].
  2:{ intros E. injection E as <- <-. cbn. rewrite Hlog, Hout.
      split; [reflexivity|]. split; [eauto|].
      exists [git_add did_path]. split; [reflexivity|]. eexists. reflexivity. }
  destruct (rc1 =? 0); cbn [andb negb].
  2:{ intros E. injection E as <- <-. cbn. rewrite Hlog, Hout.
      split; [reflexivity|]. split; [eauto|].
      exists [git_add did_path]. split; [reflexivity|]. eexists. reflexivity. }
  cbn [world spawned].
  destruct (spawn ["git"; "diff-index"; "--quiet"; "HEAD"; did_path] true _)
    as [[rc2 o2|e2] fx2].
  2:{ intros E. injection E as <- <-. cbn. rewrite Hlog, Hout.
      split; [reflexivity|]. split; [rewrite <- app_assoc; eauto|].
      exists [git_add did_path; git_diff_index did_path].
      split; [now rewrite <- app_assoc|]. eexists. reflexivity. }
  cbn [subprocess.returncode world spawned].
  destruct (rc2 =? 0); cbn [negb].
  { unfold sh_ret. intros E. injection E as <- <-. cbn. rewrite Hlog, Hout.
    split; [reflexivity|]. split; [rewrite <- app_assoc; eauto|].
    exists [git_add did_path; git_diff_index did_path].
    split; [now rewrite <- app_assoc|]. eexists. reflexivity. }
  unfold print. cbn [world spawned].
  destruct (spawn _ false _) as [[rc3 o3|e3] fx3].
  2:{ intros E. injection E as <- <-. cbn. rewrite Hlog, Hout.
      split; [reflexivity|]. split; [rewrite <- !app_assoc; eauto|].
      exists [git_add did_path; git_diff_index did_path; git_commit did_path].
      split; [now rewrite <- !app_assoc|]. exists []. reflexivity. }
  destruct (rc3 =? 0); cbn [andb negb]; unfold sh_ret;
    intros E; injection E as <- <-; cbn; rewrite Hlog, Hout;
    (split; [reflexivity|]); (split; [rewrite <- !app_assoc; eauto|]);
    exists [git_add did_path; git_diff_index did_path; git_commit did_path];
    (split; [now rewrite <- !app_assoc|]); exists []; reflexivity.
Qed.

(** X10. Whatever its outcome, [save_and_commit_did_document] attempts
    exactly one file write, of the JSON text at the document path, and
    the commands it starts are an initial part of [git add],
    [git diff-index], [git commit] on that path, in this order: it never
    commits without having added and compared. *)
Theorem save_and_commit_effects (document : value) (did_path : string)
    (s s' : Session) (o : unit + sh_raised) :
  save_and_commit_did_document document did_path s = (o, s') ->
  fs_log (world s')
    = fs_log (world s) ++ [FsWrite did_path (document_bytes document)] /\
  exists cmds,
    spawned s' = spawned s ++ cmds /\
    initial_part cmds
      [git_add did_path; git_diff_index did_path; git_commit did_path].
Proof.
  intros Hrun. destruct (save_and_commit_trace _ _ _ _ _ Hrun) as (Hlog & _ & Hc).
  split; assumption.
Qed.

Lemma subprocess_run_keeps (p : string) (args : list string)
    (check capture : bool) (s s' : Session)
    (o : subprocess.CompletedProcess + sh_raised) :
  leaves_alone shell p ->
  subprocess_run args check capture s = (o, s') ->
  files (world s') !! p = files (world s) !! p.
Proof.
  intros Hkeep. unfold subprocess_run.
  specialize (Hkeep args capture (world s)).
  destruct (spawn args capture (world s)) as [[rc out|e] fx];
    cbn [snd] in Hkeep;
    [destruct (check && negb (rc =? 0))|];
    intros E; injection E as <- <-; exact Hkeep.
Qed.

(** With the path writable and children that do not touch it, the file
    holds the JSON text however the function ends. *)
Lemma save_and_commit_file_kept (document : value) (did_path : string)
    (s s' : Session) (o : unit + sh_raised) :
  writable (world s) did_path ->
  leaves_alone shell did_path ->
  save_and_commit_did_document document did_path s = (o, s') ->
  files (world s') !! did_path = Some (File (document_bytes document)).
Proof.
  intros Hw Hkeep.
  unfold save_and_commit_did_document, try_except_process_then_exception.
  unfold sh_bind at 1. unfold lift_world at 1, write_text.
  fold (document_bytes document).
  rewrite (write_bytes_writable _ _ _ Hw).
  match goal with
  | |- context [sh_bind _ _ ?s1] =>
      assert (H1 : files (world s1) !! did_path
                   = Some (File (document_bytes document)))
        by (cbn; apply lookup_insert_eq);
      generalize dependent s1
  end.
  intros s1 H1. unfold sh_bind at 1.
  destruct (subprocess_run ["git"; "add"; did_path] true false s1)
    as [[r1|e1] s2] eqn:E1;
    apply (subprocess_run_keeps did_path) in E1; [|exact Hkeep| |exact Hkeep];
    rewrite H1 in E1.
  2:{ destruct e1 as [[e|code]|cmd rc]; intros E; injection E as <- <-;
        exact E1. }
  unfold sh_bind at 1.
  destruct (subprocess_run _ false true s2) as [[r2|e2] s3] eqn:E2;
    apply (subprocess_run_keeps did_path) in E2; [|exact Hkeep| |exact Hkeep];
    rewrite E1 in E2.
  2:{ destruct e2 as [[e|code]|cmd rc]; intros E; injection E as <- <-;
        exact E2. }
  destruct (negb (subprocess.returncode r2 =? 0)).
  2:{ unfold sh_ret. intros E; injection E as <- <-. exact E2. }
  unfold sh_bind at 1. unfold lift_world at 1, print.
  unfold sh_bind at 1.
  match goal with
  | |- context [subprocess_run ?c true false ?s4] =>
      destruct (subprocess_run c true false s4) as [[r3|e3] s5] eqn:E3;
      apply (subprocess_run_keeps did_path) in E3; [|exact Hkeep| |exact Hkeep];
      cbn [world files] in E3; rewrite E2 in E3
  end.
  - unfold sh_ret. intros E; injection E as <- <-. exact E3.
  - destruct e3 as [[e|code]|cmd rc]; intros E; injection E as <- <-;
      exact E3.
Qed.

End SavingTrace.

(** ** [main] *)

Lemma initial_part_nil {A} (l : list A) : initial_part [] l.
Proof. exists l. reflexivity. Qed.

Lemma initial_part_refl {A} (l : list A) : initial_part l l.
Proof. exists []. now rewrite app_nil_r. Qed.

Lemma initial_part_app {A} (l l1 l2 : list A) :
  initial_part l1 l2 -> initial_part (l ++ l1) (l ++ l2).
Proof. intros [rest ->]. exists rest. now rewrite app_assoc. Qed.

Lemma initial_part_weaken {A} (l1 l2 more : list A) :
  initial_part l1 l2 -> initial_part l1 (l2 ++ more).
Proof. intros [rest ->]. exists (rest ++ more). now rewrite app_assoc. Qed.

Lemma folder_name_decided (name : string) :
  bool_of_match (re_fullmatch folder_name_pattern name) = true
  <-> folder_name_grammar name.
Proof. rewrite re_fullmatch_matches. apply matches_folder_name_pattern. Qed.

Lemma colon_not_word : ~ In ":"%char word_chars.
Proof.
  intros Hin. simpl in Hin.
  repeat destruct Hin as [Hin|Hin]; try discriminate Hin. exact Hin.
Qed.

Lemma prefix_cons (a b : ascii) (s1 s2 : string) :
  String.prefix (String a s1) (String b s2) = true ->
  a = b /\ String.prefix s1 s2 = true.
Proof.
  cbn [String.prefix]. destruct (Ascii.ascii_dec a b); [tauto|discriminate].
Qed.

(** No folder name of the grammar is taken for a DID. *)
Lemma folder_name_not_did (name : string) :
  folder_name_grammar name -> String.prefix "did:web:" name = false.
Proof.
  intros Hg. destruct (String.prefix "did:web:" name) eqn:E; [exfalso|reflexivity].
  destruct name as [|a name]; [discriminate E|apply prefix_cons in E as [<- E]].
  destruct name as [|b name]; [discriminate E|apply prefix_cons in E as [<- E]].
  destruct name as [|c name]; [discriminate E|apply prefix_cons in E as [<- E]].
  destruct name as [|d name]; [discriminate E|apply prefix_cons in E as [<- _]].
  apply colon_not_word.
  destruct Hg as [(tail & Ecs & _)|[_ Hall]].
  - discriminate Ecs.
  - cbn in Hall. rewrite Forall_forall in Hall. apply Hall.
    apply list_elem_of_In. simpl. tauto.
Qed.

Lemma folder_name_not_empty (name : string) :
  folder_name_grammar name -> name <> "".
Proof.
  intros Hg ->. apply folder_name_decided in Hg. discriminate Hg.
Qed.

(** [repr] of a folder name of the grammar: single quotes around the
    name as it is. *)
Lemma name_char_plain (c : ascii) :
  In c word_chars \/ c = "."%char ->
  repr_escape "'" c = String c "" /\ Ascii.eqb "'" c = false.
Proof.
  intros [Hin | ->]; [|split; reflexivity].
  simpl in Hin.
  repeat (destruct Hin as [<- | Hin]; [split; reflexivity|]).
  destruct Hin.
Qed.

Lemma concat_escapes_plain (cs : list ascii) :
  Forall (fun c => In c word_chars \/ c = "."%char) cs ->
  String.concat "" (map (repr_escape "'") cs) = string_of_list_ascii cs /\
  existsb (Ascii.eqb "'") cs = false.
Proof.
  induction 1 as [|c cs Hc _ [IH1 IH2]]; [split; reflexivity|].
  destruct (name_char_plain c Hc) as [He Hq].
  cbn [map existsb string_of_list_ascii]. rewrite Hq, IH2, He.
  split; [|reflexivity].
  destruct cs as [|d cs]; [reflexivity|].
  cbn [map] in IH1 |- *.
  change (String.concat "" (String c "" :: ?l))
    with (String c (String.concat "" l)).
  now rewrite IH1.
Qed.

Lemma py_repr_folder_name (name : string) :
  folder_name_grammar name -> py_repr name = "'" +:+ name +:+ "'".
Proof.
  intros Hg.
  assert (Hall : Forall (fun c => In c word_chars \/ c = "."%char)
                   (list_ascii_of_string name)).
  { destruct Hg as [(tail & -> & [_ Htail])|[_ Hall]].
    - constructor; [now right|].
      eapply Forall_impl; [exact Htail|]. intros c Hc. now left.
    - eapply Forall_impl; [exact Hall|]. intros c Hc. now left. }
  destruct (concat_escapes_plain _ Hall) as [Hcat Hquote].
  unfold py_repr, has_char. rewrite Hquote. cbn [andb].
  rewrite Hcat, string_of_list_ascii_of_string. reflexivity.
Qed.

Lemma with_world_same (s : Session) : with_world s (world s) = s.
Proof. now destruct s. Qed.

Section Main.

Context {backend : Backend} {shell : Shell}.

(** X11. [main] turns away every command line that is neither empty,
    nor one DID, nor one folder name of the grammar: it prints the one
    diagnostic and exits with status 1, having read, written, created
    and started nothing. *)
Theorem main_rejects_bad_arguments (program : string) (arguments : list string)
    (s : Session) :
  ~ accepted_arguments arguments ->
  main program arguments s
    = (inr (Propagated (RaiseSystemExit 1)),
       after_die s (rejection program arguments)).
Proof.
  intros Hbad. destruct arguments as [|arg [|arg2 rest]].
  - destruct Hbad. exact I.
  - cbn [accepted_arguments] in Hbad.
    unfold main, parse_arguments.
    destruct (String.prefix "did:web:" arg) eqn:Hdid; [tauto|].
    unfold is_valid_did_folder_name.
    destruct (bool_of_match (re_fullmatch folder_name_pattern arg)) eqn:Hv.
    + apply folder_name_decided in Hv. tauto.
    + reflexivity.
  - reflexivity.
Qed.

End Main.

Section MainEffects.
Context {backend : Backend} {shell : Shell}.

(** What each stage of [main] may log and start. *)
Lemma infer_did_from_git_trace (did_folder : option string) (s s1 : Session)
    (o : string + sh_raised) :
  infer_did_from_git did_folder s = (o, s1) ->
  fs_log (world s1) = fs_log (world s) /\ spawned s1 = spawned s ++ [git_remote].
Proof.
  rewrite infer_did_from_git_run. cbv zeta.
  destruct (spawn _ true (world s)) as [[rc out|e] fx].
  - destruct (rc =? 0); [destruct (scan_remotes _ _)|];
      intros E; injection E as <- <-; split; reflexivity.
  - intros E; injection E as <- <-; split; reflexivity.
Qed.

Lemma makedirs_exist_ok_trace (p : string) (w w' : World) (o : unit + raised) :
  makedirs_exist_ok p w = (o, w') -> fs_log w' = fs_log w.
Proof.
  unfold makedirs_exist_ok.
  destruct (files w !! p) as [[d|]|];
    [| |destruct (bool_decide _); [destruct (fault_at w p) as [e|kept e]|]];
    intros E; injection E as <- <-; reflexivity.
Qed.

Lemma parse_arguments_trace (program : string) (arguments : list string)
    (s s1 : Session) (o : string * string + sh_raised) :
  parse_arguments program arguments s = (o, s1) ->
  fs_log (world s1) = fs_log (world s) /\
  match o with
  | inl (did, folder) =>
      folder = folder_of arguments /\
      spawned s1 = spawned s ++ inference_commands arguments
  | inr _ =>
      exists cmds, spawned s1 = spawned s ++ cmds /\
                   initial_part cmds (inference_commands arguments)
  end.
Proof.
  unfold parse_arguments. destruct arguments as [|arg [|arg2 rest]].
  - unfold sh_bind.
    destruct (infer_did_from_git None s) as [[did|r] s0] eqn:Hinfer;
      destruct (infer_did_from_git_trace _ _ _ _ Hinfer) as [Hlog Hsp];
      intros E; injection E as <- <-; (split; [exact Hlog|]).
    + split; [reflexivity|exact Hsp].
    + exists [git_remote]. split; [exact Hsp|apply initial_part_refl].
  - cbn [folder_of inference_commands].
    destruct (String.prefix "did:web:" arg).
    { intros E; injection E as <- <-. split; [reflexivity|].
      split; [reflexivity|now rewrite app_nil_r]. }
    unfold is_valid_did_folder_name.
    destruct (bool_of_match (re_fullmatch folder_name_pattern arg)).
    2:{ intros E; injection E as <- <-. split; [reflexivity|].
        exists []. split; [cbn; now rewrite app_nil_r|apply initial_part_nil]. }
    unfold sh_bind at 1. unfold lift_world at 1, ret. cbn [world spawned].
    unfold sh_bind at 1.
    destruct (infer_did_from_git (Some arg) _) as [[did|r] s0] eqn:Hinfer;
      destruct (infer_did_from_git_trace _ _ _ _ Hinfer) as [Hlog Hsp];
      cbn [world spawned] in Hlog, Hsp.
    2:{ intros E; injection E as <- <-. split; [exact Hlog|].
        exists [git_remote]. split; [exact Hsp|apply initial_part_refl]. }
    unfold sh_bind, lift_world.
    destruct (makedirs_exist_ok arg (world s0)) as [[[]|r] w1] eqn:Hmk;
      apply makedirs_exist_ok_trace in Hmk;
      intros E; injection E as <- <-; cbn [world spawned];
      (split; [congruence|]).
    + split; [reflexivity|exact Hsp].
    + exists [git_remote]. split; [exact Hsp|apply initial_part_refl].
  - intros E; injection E as <- <-. split; [reflexivity|].
    exists []. split; [cbn; now rewrite app_nil_r|apply initial_part_nil].
Qed.

Lemma load_or_generate_private_key_calls (key_path : string) (w w' : World)
    (o : ec.EllipticCurvePrivateKey + raised) :
  load_or_generate_private_key key_path w = (o, w') ->
  exists calls,
    fs_log w' = fs_log w ++ calls /\
    Forall (fun c => call_path c = key_path) calls.
Proof.
  intros E. destruct (files w !! key_path) as [n|] eqn:Hn.
  - rewrite (load_existing_key key_path w n Hn) in E. cbv zeta in E.
    exists [FsRead key_path].
    split; [|repeat constructor].
    destruct n as [data|];
      [destruct (unreadable w !! key_path) as [e0|];
         [|destruct (load_pem_private_key data None) as [[k|alg]|e]]|];
      injection E as <- <-; reflexivity.
  - rewrite (generate_new_key key_path w Hn) in E. cbv zeta in E.
    eexists [FsWrite key_path _].
    split; [|repeat constructor].
    destruct (bool_decide _); [destruct (fault_at w key_path) as [e|kept e]|];
      injection E as <- <-; reflexivity.
Qed.

(** X12. Whatever the command line and the outcome, the file reads and
    writes of a run of [main] are on the key file and the document file
    of the folder the command line names, and the commands it starts are
    an initial part of: [git remote --verbose] unless a DID was given,
    then [git add], [git diff-index] and [git commit] on the document
    file. With a DID on the command line the git remotes are never
    consulted. *)
Theorem main_effects_confined (program : string) (arguments : list string)
    (s s' : Session) (o : unit + sh_raised) :
  main program arguments s = (o, s') ->
  (exists calls,
     fs_log (world s') = fs_log (world s) ++ calls /\
     Forall (fun c => In (call_path c)
                        [in_folder (folder_of arguments) "private_key.pem";
                         in_folder (folder_of arguments) "did.json"]) calls) /\
  exists cmds,
    spawned s' = spawned s ++ cmds /\
    initial_part cmds (script_commands arguments).
Proof.
  unfold main. unfold sh_bind at 1.
  destruct (parse_arguments program arguments s) as [[[did folder]|r] s1] eqn:Hparse;
    destruct (parse_arguments_trace _ _ _ _ _ Hparse) as [Hlog1 Hcmd1].
  2:{ intros E; injection E as <- <-. split.
      - exists []. split; [now rewrite app_nil_r|constructor].
      - destruct Hcmd1 as (cmds & Hsp & Hpart). exists cmds.
        split; [exact Hsp|]. now apply initial_part_weaken. }
  destruct Hcmd1 as [-> Hsp1]. cbn [fst snd].
  unfold script_commands. cbv zeta.
  change (match folder_of arguments with
          | "" => "private_key.pem"
          | String _ _ => folder_of arguments +:+ "/" +:+ "private_key.pem"
          end) with (in_folder (folder_of arguments) "private_key.pem").
  change (match folder_of arguments with
          | "" => "did.json"
          | String _ _ => folder_of arguments +:+ "/did.json"
          end) with (in_folder (folder_of arguments) "did.json").
  set (key_path := in_folder (folder_of arguments) "private_key.pem").
  set (did_path := in_folder (folder_of arguments) "did.json").
  unfold sh_bind at 1. unfold lift_world at 1.
  destruct (load_or_generate_private_key key_path (world s1))
    as [[private_key|r] w2] eqn:Hload;
    destruct (load_or_generate_private_key_calls _ _ _ _ Hload)
      as (calls & Hlog2 & Hcalls).
  2:{ intros E; injection E as <- <-. cbn [world spawned]. split.
      - exists calls. split; [congruence|].
        eapply Forall_impl; [exact Hcalls|]. intros c ->. left. reflexivity.
      - exists (inference_commands arguments).
        split; [exact Hsp1|]. exists [git_add did_path; git_diff_index did_path; git_commit did_path]. reflexivity. }
  assert (Hkey : Forall (fun c => In (call_path c) [key_path; did_path]) calls).
  { eapply Forall_impl; [exact Hcalls|]. intros c ->. left. reflexivity. }
  unfold sh_bind at 1. unfold lift_world at 1, print at 1.
  unfold sh_bind at 1. unfold lift_world at 1, generate_key_fingerprint, ret.
  unfold sh_bind at 1. unfold lift_world at 1, print at 1.
  unfold sh_bind at 1. unfold lift_world at 1.
  destruct (pure_create_did_document did (ec.public_key private_key)) as [od Hdoc].
  rewrite Hdoc.
  cbn [world spawned files denied stdout stderr fs_log entropy].
  match goal with
  | |- context [mkSession ?w (spawned s1)] => set (s3 := mkSession w (spawned s1))
  end.
  assert (Hlog3 : fs_log (world s3) = fs_log (world s) ++ calls)
    by (cbn; congruence).
  assert (Hsp3 : spawned s3 = spawned s ++ inference_commands arguments)
    by exact Hsp1.
  clearbody s3.
  destruct od as [document|r].
  2:{ intros E; injection E as <- <-. split.
      - exists calls. split; assumption.
      - exists (inference_commands arguments). split; [exact Hsp3|].
        eexists. reflexivity. }
  unfold sh_bind at 1.
  destruct (save_and_commit_did_document document did_path s3)
    as [[[]|r] s4] eqn:Hsave;
    destruct (save_and_commit_trace _ _ _ _ _ Hsave)
      as (Hlog4 & _ & cmds & Hsp4 & Hpart).
  2:{ intros E; injection E as <- <-. split.
      - eexists. split; [rewrite Hlog4, Hlog3, <- app_assoc; reflexivity|].
        apply Forall_app. split; [exact Hkey|].
        constructor; [right; left; reflexivity|constructor].
      - exists (inference_commands arguments ++ cmds).
        split; [rewrite Hsp4, Hsp3, <- app_assoc; reflexivity|].
        now apply initial_part_app. }
  unfold sh_bind, lift_world, print.
  cbn [world spawned files denied stdout stderr fs_log entropy].
  intros E; injection E as <- <-.
  cbn [world spawned files denied stdout stderr fs_log entropy]. split.
  - eexists. split; [rewrite Hlog4, Hlog3, <- app_assoc; reflexivity|].
    apply Forall_app. split; [exact Hkey|].
    constructor; [right; left; reflexivity|constructor].
  - exists (inference_commands arguments ++ cmds).
    split; [rewrite Hsp4, Hsp3, <- app_assoc; reflexivity|].
    now apply initial_part_app.
Qed.

End MainEffects.

Lemma main_effects_confined_witness :
  let s := DemoSave.start in
  let r := main (backend := Demo.backend) (shell := DemoSave.changed)
             "generate.py" ["did:web:example.com"] s in
  (exists calls,
     fs_log (world (snd r)) = fs_log (world s) ++ calls /\
     Forall (fun c => In (call_path c) ["private_key.pem"; "did.json"]) calls) /\
  exists cmds,
    spawned (snd r) = spawned s ++ cmds /\
    initial_part cmds
      [git_add "did.json"; git_diff_index "did.json"; git_commit "did.json"].
Proof.
  cbv zeta.
  exact (main_effects_confined (backend := Demo.backend)
           (shell := DemoSave.changed) "generate.py" ["did:web:example.com"]
           DemoSave.start _ _ (surjective_pairing _)).
Defined.

Lemma save_and_commit_effects_witness :
  let s := DemoSave.start in
  let r := save_and_commit_did_document (shell := DemoSave.add_refused)
             DemoSave.document "did.json" s in
  fs_log (world (snd r))
    = fs_log (world s) ++ [FsWrite "did.json" (document_bytes DemoSave.document)] /\
  exists cmds,
    spawned (snd r) = spawned s ++ cmds /\
    initial_part cmds
      [git_add "did.json"; git_diff_index "did.json"; git_commit "did.json"].
Proof.
  cbv zeta.
  exact (save_and_commit_effects (shell := DemoSave.add_refused)
           DemoSave.document "did.json" DemoSave.start _ _
           (surjective_pairing _)).
Defined.

Lemma not_accepted_slash : ~ accepted_arguments ["a/b"].
Proof.
  intros [Hdid|Hg]; [discriminate Hdid|].
  apply folder_name_decided in Hg. discriminate Hg.
Qed.

Lemma main_rejects_bad_arguments_witness :
  main (backend := Demo.backend) (shell := DemoSave.changed)
    "generate.py" ["a/b"] DemoSave.start
    = (inr (Propagated (RaiseSystemExit 1)),
       after_die DemoSave.start "`a/b` is not a valid DID folder name").
Proof.
  exact (main_rejects_bad_arguments (backend := Demo.backend)
           (shell := DemoSave.changed) "generate.py" ["a/b"] DemoSave.start
           not_accepted_slash).
Defined.

Section MainFolder.

Context {backend : Backend} {shell : Shell}.

(** The folder branch of the argument parsing, up to the inference. *)
Lemma parse_folder_argument (program arg : string) (s : Session) :
  folder_name_grammar arg ->
  parse_arguments program [arg] s =
    match infer_did_from_git (Some arg) s with
    | (inl did, s1) =>
        match makedirs_exist_ok arg (world s1) with
        | (inl _, w2) => (inl (did, arg), with_world s1 w2)
        | (inr r, w2) => (inr (Propagated r), with_world s1 w2)
        end
    | (inr r, s1) => (inr r, s1)
    end.
Proof.
  intros Hg. unfold parse_arguments.
  rewrite (folder_name_not_did _ Hg).
  apply folder_name_decided in Hg.
  unfold is_valid_did_folder_name. rewrite Hg.
  unfold sh_bind at 1. unfold lift_world at 1, ret.
  change (mkSession (world s) (spawned s)) with (with_world s (world s)).
  rewrite with_world_same.
  unfold sh_bind at 1.
  destruct (infer_did_from_git (Some arg) s) as [[did|r] s1]; [|reflexivity].
  unfold sh_bind, lift_world, sh_ret, with_world.
  destruct (makedirs_exist_ok arg (world s1)) as [[[]|r] w2]; reflexivity.
Qed.

(** X13. With a folder name on the command line, a run whose DID
    inference fails ends as the inference ended: the folder is not
    created, and no key is loaded or generated. *)
Theorem main_no_did_no_folder (program arg : string) (s s1 : Session)
    (r : sh_raised) :
  folder_name_grammar arg ->
  infer_did_from_git (Some arg) s = (inr r, s1) ->
  main program [arg] s = (inr r, s1).
Proof.
  intros Hg Hinfer. unfold main. unfold sh_bind at 1.
  rewrite (parse_folder_argument _ _ _ Hg), Hinfer. reflexivity.
Qed.

(** X14. With a folder name at which a regular file exists, once the
    DID is inferred [os.makedirs] raises [FileExistsError], which [main]
    does not catch: the run ends in that exception, not in a diagnostic
    of [die], and no key is loaded or generated. *)
Theorem main_folder_is_a_file (program arg did : string) (s s1 : Session)
    (data : list byte) :
  folder_name_grammar arg ->
  infer_did_from_git (Some arg) s = (inl did, s1) ->
  files (world s1) !! arg = Some (File data) ->
  main program [arg] s
    = (inr (Propagated (RaiseException
              (OSError "FileExistsError"
                 ("[Errno 17] File exists: '" +:+ arg +:+ "'")))), s1).
Proof.
  intros Hg Hinfer Hfile. unfold main. unfold sh_bind at 1.
  rewrite (parse_folder_argument _ _ _ Hg), Hinfer.
  unfold makedirs_exist_ok. rewrite Hfile.
  rewrite (py_repr_folder_name _ Hg). now rewrite with_world_same.
Qed.

End MainFolder.

Section DocumentShape.

Context {backend : Backend}.

(** The document of a key on a registered curve, written out. *)
Lemma create_did_document_registered (did : string)
    (public_key : ec.EllipticCurvePublicKey) :
  let numbers := ec.public_numbers public_key in
  let size := ec.key_size (ec.curve numbers) in
  let len := Z.to_nat ((size + 7) / 8) in
  let fingerprint :=
    hexlify (sha256 (public_bytes public_key serialization.DER
                       serialization.SubjectPublicKeyInfo)) in
  registered size ->
  coordinates_in_field public_key ->
  exists crv alg,
    EC_CURVE_NAMES !! size = Some crv /\
    SIGNING_ALGORITHMS !! size = Some alg /\
    forall w,
      create_did_document did public_key w =
        (inl (did_document did fingerprint
                (jwk_fields crv
                   (urlsafe_b64encode (be_bytes len (ec.x numbers)))
                   (urlsafe_b64encode (be_bytes len (ec.y numbers)))
                   ("#" +:+ fingerprint) alg)), w).
Proof.
  cbv zeta. intros Hreg Hfield.
  destruct (subscript_algorithms_registered _ Hreg) as [alg Halg].
  destruct (subscript_names_registered _ Hreg) as [crv Hcrv].
  exists crv, alg.
  split. { unfold subscript in Hcrv. destruct (EC_CURVE_NAMES !! _); congruence. }
  split. { unfold subscript in Halg. destruct (SIGNING_ALGORITHMS !! _); congruence. }
  intros w. unfold create_did_document, generate_key_fingerprint.
  rewrite bind_ret. unfold ec.public_curve. rewrite Halg. cbn [lift]. rewrite bind_ret.
  erewrite bind_returns; [reflexivity|].
  rewrite (convert_key_to_jwk_eval _ _ w Hfield). cbv zeta.
  rewrite Hcrv. reflexivity.
Qed.

End DocumentShape.

Section MainRuns.

Context {backend : Backend} {shell : Shell}.

Lemma parse_did_argument (program arg : string) (s : Session) :
  String.prefix "did:web:" arg = true ->
  parse_arguments program [arg] s = (inl (arg, ""), s).
Proof. intros Hdid. unfold parse_arguments. now rewrite Hdid. Qed.

(** The part of [main] after the document is built. *)
Lemma main_closing (did : string) (s3 s' : Session) (o : unit + sh_raised)
    (document : value) (did_path : string) :
  sh_bind (save_and_commit_did_document document did_path)
    (fun _ =>
       (lift_world (print "Done!");;;
        lift_world (print "Run `git push` to publish the DID document to GitHub");;;
        lift_world (print ("Check status at: https://dev.uniresolver.io/#" +:+ did));;;
        lift_world
          (print "Note: GitHub Pages deployment may take a few minutes after pushing"))%sh)
    s3 = (o, s') ->
  fs_log (world s')
    = fs_log (world s3) ++ [FsWrite did_path (document_bytes document)] /\
  (exists printed, stdout (world s') = stdout (world s3) ++ printed) /\
  match save_and_commit_did_document document did_path s3 with
  | (inl _, s4) =>
      o = inl tt /\ spawned s' = spawned s4 /\
      files (world s') = files (world s4) /\
      stdout (world s') = stdout (world s4) ++ closing_lines did
  | (inr r, s4) => o = inr r /\ s' = s4
  end.
Proof.
  unfold sh_bind at 1.
  destruct (save_and_commit_did_document document did_path s3)
    as [[[]|r] s4] eqn:Hsave;
    destruct (save_and_commit_trace _ _ _ _ _ Hsave)
      as (Hlog & [printed Hout] & _).
  - unfold sh_bind, lift_world, print.
    cbn [world spawned files denied stdout stderr fs_log entropy].
    intros E; injection E as <- <-.
    cbn [world spawned files denied stdout stderr fs_log entropy].
    split; [exact Hlog|]. split.
    + rewrite Hout, <- !app_assoc. eauto.
    + split; [reflexivity|]. split; [reflexivity|]. split; [reflexivity|].
      rewrite <- !app_assoc. reflexivity.
  - intros E; injection E as <- <-. split; [exact Hlog|]. split; eauto.
Qed.

(** X15. Given a DID on the command line, a readable
    [private_key.pem] holding a key of a registered curve, a writable
    [did.json] and git commands that do not touch that file, whatever
    else the git commands do and however the run ends: the run reads
    the key file once and never writes it, makes one write, and
    [did.json] then holds the JSON text of the document whose [id] and
    [controller] are the argument as given, whose verification method
    is named by the argument, [#] and the fingerprint, and whose JWK
    has [kty], [crv], [x], [y], [kid], [alg] in this order; the key ID
    it prints is the [kid] of that document. *)
Theorem main_explicit_did_document (program arg : string) (s s' : Session)
    (data : list byte) (k : ec.EllipticCurvePrivateKey) (o : unit + sh_raised) :
  let numbers := ec.public_numbers (ec.public_key k) in
  let size := ec.key_size (ec.curve numbers) in
  let len := Z.to_nat ((size + 7) / 8) in
  let fingerprint :=
    hexlify (sha256 (public_bytes (ec.public_key k) serialization.DER
                       serialization.SubjectPublicKeyInfo)) in
  String.prefix "did:web:" arg = true ->
  files (world s) !! "private_key.pem" = Some (File data) ->
  unreadable (world s) !! "private_key.pem" = None ->
  load_pem_private_key data None = inl (ECPrivateKey k) ->
  registered size ->
  coordinates_in_field (ec.public_key k) ->
  writable (world s) "did.json" ->
  leaves_alone shell "did.json" ->
  main program [arg] s = (o, s') ->
  exists crv alg,
    let text :=
      document_bytes
        (did_document arg fingerprint
           (jwk_fields crv
              (urlsafe_b64encode (be_bytes len (ec.x numbers)))
              (urlsafe_b64encode (be_bytes len (ec.y numbers)))
              ("#" +:+ fingerprint) alg)) in
    EC_CURVE_NAMES !! size = Some crv /\
    SIGNING_ALGORITHMS !! size = Some alg /\
    fs_log (world s')
      = fs_log (world s) ++ [FsRead "private_key.pem"; FsWrite "did.json" text] /\
    files (world s') !! "did.json" = Some (File text) /\
    exists more,
      stdout (world s')
        = stdout (world s)
          ++ ["Using existing private key at `private_key.pem`";
              "Creating DID document for `" +:+ arg +:+ "`...";
              "Key ID: `" +:+ ("#" +:+ fingerprint) +:+ "`"]
          ++ more.
Proof.
  cbv zeta. intros Hdid Hfile Hread Hpem Hreg Hfield Hw Hkeep Hrun.
  destruct (create_did_document_registered arg (ec.public_key k) Hreg Hfield)
    as (crv & alg & Hcrv & Halg & Hdoc).
  exists crv, alg. split; [exact Hcrv|]. split; [exact Halg|].
  revert Hrun. unfold main. unfold sh_bind at 1.
  rewrite (parse_did_argument _ _ _ Hdid). cbn [fst snd].
  unfold sh_bind at 1. unfold lift_world at 1.
  rewrite (load_existing_key _ _ _ Hfile). cbv zeta. rewrite Hread, Hpem.
  unfold sh_bind at 1. unfold lift_world at 1, print at 1.
  unfold sh_bind at 1. unfold lift_world at 1, generate_key_fingerprint, ret.
  unfold sh_bind at 1. unfold lift_world at 1, print at 1.
  unfold sh_bind at 1. unfold lift_world at 1.
  rewrite Hdoc.
  cbn [world spawned files denied stdout stderr fs_log entropy unreadable fault].
  match goal with
  | |- sh_bind (save_and_commit_did_document ?doc _) _ ?s3 = _ -> _ =>
      pose proof (save_and_commit_file_kept doc "did.json" s3) as Hkept
  end.
  intros Hrun. apply main_closing in Hrun as (Hlog & [printed Hout] & Hsave).
  cbn [world spawned files denied stdout stderr fs_log entropy unreadable fault]
    in Hlog, Hout.
  split; [rewrite Hlog, <- app_assoc; reflexivity|]. split.
  - destruct (save_and_commit_did_document _ "did.json" _) as [[[]|r] s4];
      [destruct Hsave as (_ & _ & -> & _)|destruct Hsave as [_ ->]];
      eapply Hkept; solve [exact Hw | exact Hkeep | reflexivity].
  - exists printed. rewrite Hout, <- !app_assoc. reflexivity.
Qed.

(** Saving when every command does what is hoped for. *)
Lemma save_and_commit_succeeds (document : value) (did_path : string)
    (s : Session) (o1 o2 o3 : string) (rc : Z) :
  writable (world s) did_path ->
  (forall w, fst (spawn (git_add did_path) false w) = Exited 0 o1) ->
  (forall w, fst (spawn (git_diff_index did_path) true w) = Exited rc o2) ->
  (rc <> 0 ->
   forall w, fst (spawn (git_commit did_path) false w) = Exited 0 o3) ->
  fst (save_and_commit_did_document document did_path s) = inl tt /\
  spawned (snd (save_and_commit_did_document document did_path s))
    = spawned s ++ [git_add did_path; git_diff_index did_path]
      ++ (if rc =? 0 then [] else [git_commit did_path]).
Proof.
  intros Hw Hadd Hdiff Hcommit.
  unfold save_and_commit_did_document, try_except_process_then_exception,
    sh_bind, lift_world, subprocess_run, write_text.
  fold (document_bytes document).
  rewrite (write_bytes_writable _ _ _ Hw). cbn [world spawned].
  match goal with
  | |- context [spawn ["git"; "add"; did_path] false ?w] =>
      specialize (Hadd w); unfold git_add in Hadd;
      destruct (spawn ["git"; "add"; did_path] false w) as [r1 fx1]
  end.
  cbn [fst] in Hadd. subst r1. cbn [andb negb Z.eqb world spawned].
  match goal with
  | |- context [spawn ["git"; "diff-index"; "--quiet"; "HEAD"; did_path] true ?w] =>
      specialize (Hdiff w); unfold git_diff_index in Hdiff;
      destruct (spawn ["git"; "diff-index"; "--quiet"; "HEAD"; did_path] true w)
        as [r2 fx2]
  end.
  cbn [fst] in Hdiff. subst r2.
  cbn [andb negb world spawned subprocess.returncode].
  destruct (Z.eqb_spec rc 0) as [Hrc|Hrc]; cbn [negb].
  - unfold sh_ret. cbn [fst snd spawned]. rewrite <- app_assoc. split; reflexivity.
  - unfold print. cbn [world spawned].
    match goal with
    | |- context [spawn ?c false ?w] =>
        specialize (Hcommit Hrc w); unfold git_commit in Hcommit;
        destruct (spawn c false w) as [r3 fx3]
    end.
    cbn [fst] in Hcommit. subst r3. cbn [andb negb Z.eqb].
    unfold sh_ret. cbn [fst snd spawned]. rewrite <- !app_assoc.
    split; reflexivity.
Qed.

(** X16. A first run with a DID on the command line, no key file, both
    files writable, a library that generates the key on the curve asked
    for, and git commands that succeed: [main] returns normally, having
    written the new key to [private_key.pem] and then the document, with
    curve [P-384] and algorithm [ES384], to [did.json]; it has started
    [git add], [git diff-index] and, unless the latter exited with 0,
    [git commit]; the last lines printed are the four closing ones. *)
Theorem main_first_run (program arg : string) (s : Session)
    (o1 o2 o3 : string) (rc : Z) :
  let key := generate_private_key DEFAULT_EC_CURVE (entropy (world s)) in
  let pem := private_bytes key serialization.PEM serialization.PKCS8
               serialization.NoEncryption in
  let numbers := ec.public_numbers (ec.public_key key) in
  let fingerprint :=
    hexlify (sha256 (public_bytes (ec.public_key key) serialization.DER
                       serialization.SubjectPublicKeyInfo)) in
  let document :=
    did_document arg fingerprint
      (jwk_fields "P-384"
         (urlsafe_b64encode (be_bytes 48 (ec.x numbers)))
         (urlsafe_b64encode (be_bytes 48 (ec.y numbers)))
         ("#" +:+ fingerprint) "ES384") in
  String.prefix "did:web:" arg = true ->
  files (world s) !! "private_key.pem" = None ->
  "private_key.pem" ∉ denied (world s) ->
  writable (world s) "did.json" ->
  ec.curve numbers = DEFAULT_EC_CURVE ->
  coordinates_in_field (ec.public_key key) ->
  (forall w, fst (spawn (git_add "did.json") false w) = Exited 0 o1) ->
  (forall w, fst (spawn (git_diff_index "did.json") true w) = Exited rc o2) ->
  (rc <> 0 ->
   forall w, fst (spawn (git_commit "did.json") false w) = Exited 0 o3) ->
  let r := main program [arg] s in
  fst r = inl tt /\
  fs_log (world (snd r))
    = fs_log (world s)
      ++ [FsWrite "private_key.pem" pem;
          FsWrite "did.json" (document_bytes document)] /\
  spawned (snd r)
    = spawned s ++ [git_add "did.json"; git_diff_index "did.json"]
      ++ (if rc =? 0 then [] else [git_commit "did.json"]) /\
  exists before, stdout (world (snd r)) = before ++ closing_lines arg.
Proof.
  cbv zeta. intros Hdid Hnone Hfree Hw Hcurve Hfield Hadd Hdiff Hcommit.
  assert (Hreg : registered (ec.key_size (ec.curve (ec.public_numbers
            (ec.public_key (generate_private_key DEFAULT_EC_CURVE
                              (entropy (world s)))))))).
  { rewrite Hcurve. right. left. reflexivity. }
  destruct (create_did_document_registered arg _ Hreg Hfield)
    as (crv & alg & Hcrv & Halg & Hdoc).
  rewrite Hcurve in Hcrv, Halg, Hdoc.
  assert (crv = "P-384") as ->.
  { rewrite EC_CURVE_NAMES_lookup in Hcrv. cbn in Hcrv. congruence. }
  assert (alg = "ES384") as ->.
  { rewrite SIGNING_ALGORITHMS_lookup in Halg. cbn in Halg. congruence. }
  change (Z.to_nat ((ec.key_size DEFAULT_EC_CURVE + 7) / 8)) with 48%nat in Hdoc.
  destruct (main program [arg] s) as [o s'] eqn:Hrun. cbn [fst snd].
  revert Hrun. unfold main. unfold sh_bind at 1.
  rewrite (parse_did_argument _ _ _ Hdid). cbn [fst snd].
  unfold sh_bind at 1. unfold lift_world at 1.
  rewrite (generate_new_key _ _ Hnone). cbv zeta.
  rewrite bool_decide_eq_false_2 by exact Hfree.
  unfold sh_bind at 1. unfold lift_world at 1, print at 1.
  unfold sh_bind at 1. unfold lift_world at 1, generate_key_fingerprint, ret.
  unfold sh_bind at 1. unfold lift_world at 1, print at 1.
  unfold sh_bind at 1. unfold lift_world at 1.
  rewrite Hdoc.
  cbn [world spawned files denied stdout stderr fs_log entropy].
  match goal with
  | |- sh_bind (save_and_commit_did_document ?doc _) _ ?s3 = _ -> _ =>
      destruct (save_and_commit_succeeds doc "did.json" s3 o1 o2 o3 rc)
        as [Hok Hsp]; try assumption
  end.
  { destruct Hw as [Hdir Hden]. split; [|exact Hden].
    cbn [world with_file files]. rewrite lookup_insert_ne by discriminate.
    exact Hdir. }
  intros Hrun. apply main_closing in Hrun as (Hlog & _ & Hsave).
  destruct (save_and_commit_did_document _ "did.json" _) as [[[]|r] s4];
    [|discriminate Hok].
  cbn [snd spawned world] in Hsp.
  destruct Hsave as (-> & Hsp' & _ & Hout).
  split; [reflexivity|]. split.
  - rewrite Hlog. cbn [world with_file fs_log]. rewrite <- app_assoc.
    reflexivity.
  - split; [congruence|]. eauto.
Qed.

End MainRuns.

Lemma folder_name_keys : folder_name_grammar "keys".
Proof. apply folder_name_decided. reflexivity. Qed.

Lemma main_no_did_no_folder_witness :
  let r := main (backend := Demo.backend) (shell := DemoMain.no_remote)
             "generate.py" ["keys"] DemoSave.start in
  fst r = inr (Propagated (RaiseSystemExit 1)) /\
  files (world (snd r)) = ∅ /\ fs_log (world (snd r)) = [].
Proof.
  cbv zeta.
  rewrite (main_no_did_no_folder (backend := Demo.backend)
             (shell := DemoMain.no_remote) "generate.py" "keys" DemoSave.start
             (after_die (after_spawn DemoSave.start git_remote
                           (no_effects Demo.empty_world))
                "Could not get git remote information. Are you in a git repository?")
             (Propagated (RaiseSystemExit 1))).
  - repeat split.
  - exact folder_name_keys.
  - reflexivity.
Defined.

Lemma main_folder_is_a_file_witness :
  fst (main (backend := Demo.backend) (shell := DemoMain.with_remote)
         "generate.py" ["keys"] DemoMain.keys_is_file)
    = inr (Propagated (RaiseException
             (OSError "FileExistsError" "[Errno 17] File exists: 'keys'"))).
Proof.
  rewrite (main_folder_is_a_file (backend := Demo.backend)
             (shell := DemoMain.with_remote) "generate.py" "keys"
             "did:web:alice.github.io:keys:keys" DemoMain.keys_is_file
             (after_spawn DemoMain.keys_is_file git_remote
                (no_effects (world DemoMain.keys_is_file))) []).
  - reflexivity.
  - exact folder_name_keys.
  - vm_compute. reflexivity.
  - vm_compute. reflexivity.
Defined.

Lemma main_explicit_did_document_witness :
  let r := main (backend := Demo.backend) (shell := DemoSave.changed)
             "generate.py" ["did:web:example.com"] DemoMain.with_key in
  exists text,
    files (world (snd r)) !! "did.json" = Some (File text) /\
    fs_log (world (snd r))
      = [FsRead "private_key.pem"; FsWrite "did.json" text].
Proof.
  cbv zeta.
  destruct (main_explicit_did_document (backend := Demo.backend)
              (shell := DemoSave.changed) "generate.py" "did:web:example.com"
              DemoMain.with_key
              (snd (main (backend := Demo.backend) (shell := DemoSave.changed)
                      "generate.py" ["did:web:example.com"] DemoMain.with_key))
              Demo.ec_file DemoMain.key
              (fst (main (backend := Demo.backend) (shell := DemoSave.changed)
                      "generate.py" ["did:web:example.com"] DemoMain.with_key)))
    as (crv & alg & _ & _ & Hlog & Hfile & _).
  - reflexivity.
  - vm_compute. reflexivity.
  - reflexivity.
  - reflexivity.
  - right. left. reflexivity.
  - unfold coordinates_in_field. cbv zeta.
    repeat split; (apply Z.leb_le || apply Z.ltb_lt); vm_compute; reflexivity.
  - split; [vm_compute; discriminate|apply not_elem_of_empty].
  - intros args capture w. reflexivity.
  - apply surjective_pairing.
  - eexists. split; [exact Hfile|exact Hlog].
Defined.

Lemma main_first_run_witness :
  let r := main (backend := Demo.backend) (shell := DemoSave.changed)
             "generate.py" ["did:web:example.com"] DemoSave.start in
  fst r = inl tt /\
  spawned (snd r)
    = [git_add "did.json"; git_diff_index "did.json"; git_commit "did.json"] /\
  exists before,
    stdout (world (snd r)) = before ++ closing_lines "did:web:example.com".
Proof.
  cbv zeta.
  destruct (main_first_run (backend := Demo.backend) (shell := DemoSave.changed)
              "generate.py" "did:web:example.com" DemoSave.start "" "" "" 1)
    as (Hok & _ & Hsp & Hout).
  - reflexivity.
  - vm_compute. reflexivity.
  - apply not_elem_of_empty.
  - apply writable_empty_world.
  - reflexivity.
  - unfold coordinates_in_field. cbv zeta.
    repeat split; (apply Z.leb_le || apply Z.ltb_lt); vm_compute; reflexivity.
  - intros w. reflexivity.
  - intros w. reflexivity.
  - intros _ w. reflexivity.
  - split; [exact Hok|]. split; [exact Hsp|exact Hout].
Defined.

(** ** Key file, encoding and JSON text *)

Section KeyFile.

Context {backend : Backend}.

(** X18. Round trip of the key file. When nothing exists at the key
    path, the path is writable, the file written there can be read, and
    the library reads back the PEM text it writes for the new key, a
    first run generates the key and stores that text, and a second run
    from the world the first one left returns the same key: it only
    reads the file, changes no file and draws no randomness. *)
Theorem generated_key_round_trip (key_path : string) (w : World) :
  let key := generate_private_key DEFAULT_EC_CURVE (entropy w) in
  let pem := private_bytes key serialization.PEM serialization.PKCS8
               serialization.NoEncryption in
  let first := load_or_generate_private_key key_path w in
  let second := load_or_generate_private_key key_path (snd first) in
  files w !! key_path = None ->
  key_path ∉ denied w ->
  unreadable w !! key_path = None ->
  load_pem_private_key pem None = inl (ECPrivateKey key) ->
  fst first = inl key /\
  files (snd first) = <[key_path := File pem]> (files w) /\
  fst second = inl key /\
  files (snd second) = files (snd first) /\
  fs_log (snd second) = fs_log w ++ [FsWrite key_path pem; FsRead key_path] /\
  entropy (snd second) = entropy (snd first).
Proof.
  cbv zeta. intros Hnone Hfree Hread Hpem.
  rewrite (generate_new_key _ _ Hnone). cbv zeta.
  rewrite bool_decide_eq_false_2 by exact Hfree. cbn [fst snd with_file files].
  split; [reflexivity|]. split; [reflexivity|].
  match goal with
  | |- context [load_or_generate_private_key key_path ?w1] =>
      rewrite (load_existing_key key_path w1
                 (File (private_bytes
                          (generate_private_key DEFAULT_EC_CURVE (entropy w))
                          serialization.PEM serialization.PKCS8
                          serialization.NoEncryption)))
        by (cbn [files]; apply lookup_insert_eq)
  end.
  cbv zeta. cbn [unreadable with_file]. rewrite Hread, Hpem.
  cbn [fst snd with_file files fs_log entropy].
  rewrite <- app_assoc. repeat split.
Qed.

(** X19. When the new key cannot be written the run ends in [die] with
    a [Could not write private key] diagnostic, after it has announced
    the generation and drawn the key. No other file is touched. When
    the refusal comes as the file is opened nothing is created; when
    the write fails after that, a key file is left behind that holds
    only the first bytes of the PEM text: the script does not remove
    it. *)
Theorem generate_write_failure (key_path : string) (w : World) :
  let key := generate_private_key DEFAULT_EC_CURVE (entropy w) in
  let pem := private_bytes key serialization.PEM serialization.PKCS8
               serialization.NoEncryption in
  let r := load_or_generate_private_key key_path w in
  files w !! key_path = None ->
  key_path ∈ denied w ->
  fails_with KeyPersistError w r /\
  entropy (snd r) = N.succ (entropy w) /\
  stdout (snd r)
    = stdout w ++ ["Generating new private key at `" +:+ key_path +:+ "`"] /\
  (forall p, p <> key_path -> files (snd r) !! p = files w !! p) /\
  match fault_at w key_path with
  | RefusedAtOpen _ => files (snd r) = files w
  | FailsAfter kept _ =>
      files (snd r) = <[key_path := File (take kept pem)]> (files w)
  end.
Proof.
  cbv zeta. intros Hnone Hden.
  rewrite (generate_new_key _ _ Hnone). cbv zeta.
  rewrite bool_decide_eq_true_2 by exact Hden.
  destruct (fault_at w key_path) as [e|kept e]; rewrite die_run;
    unfold fails_with; cbn [fst snd with_file files stderr stdout entropy].
  - split; [|repeat split].
    split; [reflexivity|]. eexists. split; [reflexivity|].
    apply failure_of_write_diagnostic.
  - split; [|split; [reflexivity|split; [reflexivity|split; [|reflexivity]]]].
    + split; [reflexivity|]. eexists. split; [reflexivity|].
      apply failure_of_write_diagnostic.
    + intros p Hp. apply lookup_insert_ne. congruence.
Qed.

(** X20. A directory at the key path counts as existing: the run takes
    the load branch, the read raises [IsADirectoryError], and the run
    ends in [die] with [Could not load private key: [Errno 21] Is a
    directory: ] followed by the [repr] of the path; no key is generated
    and nothing is written. *)
Theorem key_path_is_directory (key_path : string) (w : World) :
  let r := load_or_generate_private_key key_path w in
  files w !! key_path = Some Directory ->
  fst r = inr (RaiseSystemExit 1) /\
  stderr (snd r)
    = stderr w ++ ["Error: Could not load private key: [Errno 21] Is a directory: "
                   +:+ py_repr key_path] /\
  fails_with KeyLoadError w r /\
  files (snd r) = files w /\
  entropy (snd r) = entropy w /\
  fs_log (snd r) = fs_log w ++ [FsRead key_path].
Proof.
  cbv zeta. intros Hdir.
  rewrite (load_existing_key _ _ _ Hdir). cbv zeta. rewrite die_run.
  unfold fails_with. cbn [fst snd files stderr stdout entropy fs_log].
  split; [reflexivity|]. split; [reflexivity|]. split; [|repeat split].
  split; [reflexivity|]. eexists. split; [reflexivity|].
  apply failure_of_load_diagnostic.
Qed.

End KeyFile.

Lemma subscript_algorithms_unregistered (b : Z) :
  ~ registered b -> subscript SIGNING_ALGORITHMS b = inr (KeyError b).
Proof.
  unfold subscript, registered. rewrite SIGNING_ALGORITHMS_lookup.
  destruct (Z.eqb_spec b 256); [tauto|].
  destruct (Z.eqb_spec b 384); [tauto|].
  destruct (Z.eqb_spec b 521); [tauto|]. reflexivity.
Qed.

(** Merging into a dict: the value of a key afterwards. *)
Lemma dict_get_set (k k' : string) (v : value) (d : pydict) :
  dict_get k (dict_set k' v d) = if String.eqb k' k then Some v else dict_get k d.
Proof.
  destruct (String.eqb_spec k' k) as [-> | Hne].
  - apply dict_get_set_eq.
  - apply dict_get_set_ne. congruence.
Qed.

Lemma dict_get_absent (k : string) (d : pydict) :
  ~ In k (dict_keys d) -> dict_get k d = None.
Proof.
  induction d as [|[k' v'] d IH]; [reflexivity|]. cbn. intros Hnot.
  destruct (String.eqb_spec k' k) as [-> | Hne]; [tauto|]. apply IH. tauto.
Qed.

Lemma dict_get_merge (k : string) (extra : pydict) :
  NoDup (dict_keys extra) ->
  forall d,
    dict_get k (dict_merge d extra) =
      match dict_get k extra with
      | Some v => Some v
      | None => dict_get k d
      end.
Proof.
  unfold dict_merge.
  induction extra as [|[k' v'] extra IH]; intros Hnd d; [reflexivity|].
  cbn [fold_left fst snd dict_get]. cbn in Hnd. apply NoDup_cons in Hnd as [Hnot Hnd].
  rewrite (IH Hnd). rewrite dict_get_set.
  destruct (String.eqb_spec k' k) as [-> | Hne]; [|reflexivity].
  rewrite dict_get_absent; [reflexivity|].
  intros Hin. apply Hnot. now apply list_elem_of_In.
Qed.

Lemma hex_digit_in (i : Z) :
  In (hex_digit i) (list_ascii_of_string "0123456789abcdef").
Proof.
  unfold hex_digit.
  destruct (Z.to_nat i) as [|[|[|[|[|[|[|[|[|[|[|[|[|[|[|[|n]]]]]]]]]]]]]]]];
    cbn; tauto.
Qed.

Lemma hex_chars_length (bs : list byte) :
  length (hex_chars bs) = (2 * length bs)%nat.
Proof. induction bs as [|b bs IH]; cbn [hex_chars length]; lia. Qed.

Lemma hex_chars_digits (bs : list byte) :
  Forall (fun c => In c (list_ascii_of_string "0123456789abcdef")) (hex_chars bs).
Proof.
  induction bs as [|b bs IH]; cbn [hex_chars]; [constructor|].
  constructor; [apply hex_digit_in|]. constructor; [apply hex_digit_in|exact IH].
Qed.

Lemma hex_digit_index (i : Z) :
  0 <= i < 16 -> index_from (hex_digit i) "0123456789abcdef" 0 = Some i.
Proof.
  intros Hi. rewrite <- (Z2Nat.id i) at 2 by lia.
  unfold hex_digit.
  assert (Hn : (Z.to_nat i < 16)%nat) by lia.
  destruct (Z.to_nat i) as [|[|[|[|[|[|[|[|[|[|[|[|[|[|[|[|n]]]]]]]]]]]]]]]];
    try reflexivity.
  lia.
Qed.

Lemma hex_digits_inj (a b : byte) :
  hex_digit (Z_of_byte a / 16) = hex_digit (Z_of_byte b / 16) ->
  hex_digit (Z_of_byte a mod 16) = hex_digit (Z_of_byte b mod 16) ->
  a = b.
Proof.
  intros Hhi Hlo.
  pose proof (Z_of_byte_range a) as Ha. pose proof (Z_of_byte_range b) as Hb.
  assert (Ehi : Z_of_byte a / 16 = Z_of_byte b / 16).
  { apply (f_equal (fun c => index_from c "0123456789abcdef" 0)) in Hhi.
    rewrite !hex_digit_index in Hhi
      by (split; [apply Z.div_pos; lia|apply Z.div_lt_upper_bound; lia]).
    congruence. }
  assert (Elo : Z_of_byte a mod 16 = Z_of_byte b mod 16).
  { apply (f_equal (fun c => index_from c "0123456789abcdef" 0)) in Hlo.
    rewrite !hex_digit_index in Hlo by (apply Z.mod_pos_bound; lia).
    congruence. }
  rewrite <- (byte_of_Z_of_byte a), <- (byte_of_Z_of_byte b). f_equal.
  rewrite (Z.div_mod (Z_of_byte a) 16), (Z.div_mod (Z_of_byte b) 16) by lia.
  congruence.
Qed.

Lemma hex_chars_inj (bs1 bs2 : list byte) :
  hex_chars bs1 = hex_chars bs2 -> bs1 = bs2.
Proof.
  revert bs2. induction bs1 as [|a bs1 IH]; intros [|b bs2] E;
    try reflexivity; try discriminate E.
  cbn [hex_chars] in E. injection E as H1 H2 E.
  f_equal; [now apply hex_digits_inj|now apply IH].
Qed.

Section Encoding.

Context {backend : Backend}.

Lemma unregistered_curve_key_error (did : string)
    (public_key : ec.EllipticCurvePublicKey) (w : World) :
  ~ registered (ec.key_size (ec.public_curve public_key)) ->
  create_did_document did public_key w
    = (inr (RaiseException (KeyError (ec.key_size (ec.public_curve public_key)))),
       w).
Proof.
  intros Hnot. unfold create_did_document, generate_key_fingerprint.
  rewrite bind_ret. rewrite (subscript_algorithms_unregistered _ Hnot).
  reflexivity.
Qed.

(** X21. On a key whose curve size is not in the tables,
    [create_did_document] raises [KeyError] of that size, whatever the
    key's coordinates: the algorithm is looked up while the arguments of
    [convert_key_to_jwk] are evaluated, before any coordinate is
    rendered; the world is untouched. *)
Theorem create_did_document_unregistered_curve (did : string)
    (public_key : ec.EllipticCurvePublicKey) (w : World) :
  ~ registered (ec.key_size (ec.public_curve public_key)) ->
  create_did_document did public_key w
    = (inr (RaiseException (KeyError (ec.key_size (ec.public_curve public_key)))),
       w).
Proof. apply unregistered_curve_key_error. Qed.

(** X22. The whole document of a key on a registered curve: the two
    top-level entries [id] and [assertionMethod]; one verification
    method with [@context], [id], [type], [controller], [publicKeyJwk]
    in this order; and a JWK with exactly [kty], [crv], [x], [y], [kid],
    [alg] in this order, where [crv] and [alg] are the entries of the two
    tables for the key's bit size (the curve's name is not consulted) and
    [x], [y] encode the coordinates on [(size + 7) // 8] bytes. *)
Theorem create_did_document_jwk_fields (did : string)
    (public_key : ec.EllipticCurvePublicKey) :
  let numbers := ec.public_numbers public_key in
  let size := ec.key_size (ec.curve numbers) in
  let len := Z.to_nat ((size + 7) / 8) in
  let fingerprint :=
    hexlify (sha256 (public_bytes public_key serialization.DER
                       serialization.SubjectPublicKeyInfo)) in
  registered size ->
  coordinates_in_field public_key ->
  exists crv alg,
    EC_CURVE_NAMES !! size = Some crv /\
    SIGNING_ALGORITHMS !! size = Some alg /\
    forall w,
      create_did_document did public_key w =
        (inl (did_document did fingerprint
                (jwk_fields crv
                   (urlsafe_b64encode (be_bytes len (ec.x numbers)))
                   (urlsafe_b64encode (be_bytes len (ec.y numbers)))
                   ("#" +:+ fingerprint) alg)), w).
Proof. exact (create_did_document_registered did public_key). Qed.

(** X23. In [convert_key_to_jwk] the caller's keyword options take
    precedence: a field named in the options has the caller's value in
    the result, also when it is one of [kty], [crv], [x], [y]; every
    other field has the computed value. Keyword arguments have distinct
    names, and none can be called [public_key], the name of the
    positional parameter. *)
Theorem convert_key_to_jwk_options_override
    (public_key : ec.EllipticCurvePublicKey) (options : pydict) (w : World) :
  let numbers := ec.public_numbers public_key in
  let size := ec.key_size (ec.curve numbers) in
  let len := Z.to_nat ((size + 7) / 8) in
  registered size ->
  coordinates_in_field public_key ->
  NoDup (dict_keys options) ->
  ~ In "public_key" (dict_keys options) ->
  exists crv jwk,
    EC_CURVE_NAMES !! size = Some crv /\
    convert_key_to_jwk public_key options w = (inl jwk, w) /\
    forall k,
      dict_get k jwk =
        match dict_get k options with
        | Some v => Some v
        | None =>
            dict_get k
              [("kty", VStr "EC");
               ("crv", VStr crv);
               ("x", VStr (urlsafe_b64encode (be_bytes len (ec.x numbers))));
               ("y", VStr (urlsafe_b64encode (be_bytes len (ec.y numbers))))]
        end.
Proof.
  cbv zeta. intros Hreg Hfield Hnd _.
  rewrite (convert_key_to_jwk_eval _ options w Hfield). cbv zeta.
  destruct (subscript_names_registered _ Hreg) as [crv Hcrv]. rewrite Hcrv.
  exists crv. eexists. split.
  { unfold subscript in Hcrv. destruct (EC_CURVE_NAMES !! _); congruence. }
  split; [reflexivity|]. intros k. now apply dict_get_merge.
Qed.

(** X24. [generate_key_fingerprint] always returns, leaving the world
    alone; the fingerprint has two characters per digest byte, all of
    them among [0-9a-f], and two keys have the same fingerprint exactly
    when their DER encodings have the same digest. *)
Theorem generate_key_fingerprint_hex (k1 k2 : ec.EllipticCurvePublicKey)
    (w1 w2 : World) :
  let digest k :=
    sha256 (public_bytes k serialization.DER serialization.SubjectPublicKeyInfo) in
  exists f1 f2,
    generate_key_fingerprint k1 w1 = (inl f1, w1) /\
    generate_key_fingerprint k2 w2 = (inl f2, w2) /\
    String.length f1 = (2 * length (digest k1))%nat /\
    Forall (fun c => In c (list_ascii_of_string "0123456789abcdef"))
      (list_ascii_of_string f1) /\
    (f1 = f2 <-> digest k1 = digest k2).
Proof.
  cbv zeta. do 2 eexists. split; [reflexivity|]. split; [reflexivity|].
  unfold hexlify. split; [|split; [|split]].
  - rewrite string_of_list_ascii_length. apply hex_chars_length.
  - rewrite list_ascii_of_string_of_list_ascii. apply hex_chars_digits.
  - intros E. apply hex_chars_inj.
    rewrite <- (list_ascii_of_string_of_list_ascii (hex_chars _)), E.
    apply list_ascii_of_string_of_list_ascii.
  - intros ->. reflexivity.
Qed.

End Encoding.

Section MainCurve.

Context {backend : Backend} {shell : Shell}.

(** X17. Given a DID on the command line, a readable key file holding
    an elliptic-curve key of a size outside the tables is loaded without
    complaint, and the run then ends in an uncaught [KeyError] of that
    size: the script prints no diagnostic of its own ([die] is not
    called), writes no file and starts no command. *)
Theorem main_unregistered_curve (program arg : string) (s : Session)
    (data : list byte) (k : ec.EllipticCurvePrivateKey) :
  let size := ec.key_size (ec.public_curve (ec.public_key k)) in
  let r := main program [arg] s in
  String.prefix "did:web:" arg = true ->
  files (world s) !! "private_key.pem" = Some (File data) ->
  unreadable (world s) !! "private_key.pem" = None ->
  load_pem_private_key data None = inl (ECPrivateKey k) ->
  ~ registered size ->
  fst r = inr (Propagated (RaiseException (KeyError size))) /\
  files (world (snd r)) = files (world s) /\
  fs_log (world (snd r)) = fs_log (world s) ++ [FsRead "private_key.pem"] /\
  spawned (snd r) = spawned s /\
  stderr (world (snd r)) = stderr (world s).
Proof.
  cbv zeta. intros Hdid Hfile Hread Hpem Hnot.
  destruct (main program [arg] s) as [o s'] eqn:Hrun. revert Hrun.
  unfold main. unfold sh_bind at 1.
  rewrite (parse_did_argument _ _ _ Hdid). cbn [fst snd].
  unfold sh_bind at 1. unfold lift_world at 1.
  rewrite (load_existing_key _ _ _ Hfile). cbv zeta. rewrite Hread, Hpem.
  unfold sh_bind at 1. unfold lift_world at 1, print at 1.
  unfold sh_bind at 1. unfold lift_world at 1, generate_key_fingerprint, ret.
  unfold sh_bind at 1. unfold lift_world at 1, print at 1.
  unfold sh_bind at 1. unfold lift_world at 1.
  rewrite (unregistered_curve_key_error _ _ _ Hnot).
  cbn [world spawned files denied stdout stderr fs_log entropy].
  intros E; injection E as <- <-.
  cbn [fst snd world spawned files denied stdout stderr fs_log entropy].
  repeat split.
Qed.

End MainCurve.

Lemma plain_text_app (a b : string) :
  plain_text (a +:+ b) = plain_text a && plain_text b.
Proof. unfold plain_text. rewrite list_ascii_of_string_app. apply forallb_app. Qed.

Lemma plain_text_concat (sep : string) (l : list string) :
  plain_text sep = true ->
  Forall (fun s => plain_text s = true) l ->
  plain_text (String.concat sep l) = true.
Proof.
  intros Hsep Hall. induction Hall as [|s l Hs Hl IH]; [reflexivity|].
  destruct l as [|s' l]; [exact Hs|].
  change (String.concat sep (s :: s' :: l))
    with (s +:+ sep +:+ String.concat sep (s' :: l)).
  rewrite !plain_text_app, Hs, Hsep, IH. reflexivity.
Qed.

Lemma plain_text_json_escape (c : ascii) : plain_text (json_escape c) = true.
Proof. destruct c as [[] [] [] [] [] [] [] []]; reflexivity. Qed.

Lemma plain_text_json_string (s : string) : plain_text (json_string s) = true.
Proof.
  unfold json_string.
  change (String quote_char ?x) with (String quote_char "" +:+ x).
  rewrite !plain_text_app.
  rewrite plain_text_concat; [reflexivity|reflexivity|].
  apply Forall_map, Forall_forall. intros c _. apply plain_text_json_escape.
Qed.

Lemma plain_text_indentation (level : nat) :
  plain_text (newline_indent level) = true.
Proof.
  unfold newline_indent. rewrite plain_text_app.
  induction level as [|k IH]; [reflexivity|].
  cbn [indentation]. rewrite plain_text_app. exact IH.
Qed.

Lemma plain_text_json_encode :
  forall (v : value) (level : nat), plain_text (json_encode level v) = true.
Proof.
  fix IH 1. intros [s|items|entries] level.
  - apply plain_text_json_string.
  - destruct items as [|v items]; [reflexivity|].
    cbn [json_encode]. rewrite !plain_text_app, !plain_text_indentation.
    rewrite plain_text_concat; [reflexivity| |].
    + rewrite plain_text_app, plain_text_indentation. reflexivity.
    + apply Forall_map. generalize (v :: items). intros l.
      induction l as [|x l IHl]; constructor; [apply IH|exact IHl].
  - destruct entries as [|kv entries]; [reflexivity|].
    cbn [json_encode]. rewrite !plain_text_app, !plain_text_indentation.
    rewrite plain_text_concat; [reflexivity| |].
    + rewrite plain_text_app, plain_text_indentation. reflexivity.
    + apply Forall_map. generalize (kv :: entries). intros l.
      induction l as [|[k x] l IHl]; constructor; [|exact IHl].
      cbn [fst snd]. rewrite !plain_text_app, plain_text_json_string, IH.
      reflexivity.
Qed.

Lemma byte_of_ascii_code (c : ascii) : Byte.to_N (byte_of_ascii c) = N_of_ascii c.
Proof. destruct c as [[] [] [] [] [] [] [] []]; reflexivity. Qed.

(** X25. Whatever strings the document holds, the text [json.dump]
    produces for the document file is made of line feeds and printable
    ASCII characters only, one byte per character: everything else is
    escaped. *)
Theorem document_bytes_plain_ascii (document : value) :
  length (document_bytes document) = String.length (json_dumps document) /\
  Forall (fun b => Byte.to_N b = 10%N \/ (32 <= Byte.to_N b <= 126)%N)
    (document_bytes document).
Proof.
  unfold document_bytes, encode_text. split.
  - rewrite length_map. apply list_ascii_of_string_length.
  - apply Forall_map, Forall_forall. intros c Hc.
    pose proof (plain_text_json_encode document 0) as Hall.
    unfold plain_text in Hall. rewrite forallb_forall in Hall.
    apply list_elem_of_In in Hc. specialize (Hall c Hc).
    rewrite byte_of_ascii_code. unfold is_plain in Hall.
    apply orb_true_iff in Hall as [E|E].
    + left. now apply N.eqb_eq.
    + right. apply andb_true_iff in E as [E1 E2].
      apply N.leb_le in E1, E2. lia.
Qed.

Lemma generated_key_round_trip_witness :
  let w := Demo.empty_world in
  let key := Demo.sample_key ec.SECP384R1 0 in
  let first := load_or_generate_private_key (H := Demo.backend) "private_key.pem" w in
  let second :=
    load_or_generate_private_key (H := Demo.backend) "private_key.pem" (snd first) in
  fst first = inl key /\ fst second = inl key /\
  files (snd second) = files (snd first) /\
  entropy (snd second) = entropy (snd first).
Proof.
  cbv zeta.
  destruct (generated_key_round_trip (backend := Demo.backend)
              "private_key.pem" Demo.empty_world)
    as (H1 & _ & H2 & H3 & _ & H4).
  - vm_compute. reflexivity.
  - apply not_elem_of_empty.
  - reflexivity.
  - reflexivity.
  - split; [exact H1|]. split; [exact H2|]. split; [exact H3|exact H4].
Defined.

Lemma generate_write_failure_witness :
  let r := load_or_generate_private_key (H := Demo.backend) "private_key.pem"
             DemoMain.locked_key in
  let r' := load_or_generate_private_key (H := Demo.backend) "private_key.pem"
              DemoMain.full_disk in
  (fails_with KeyPersistError DemoMain.locked_key r /\
   files (snd r) = files DemoMain.locked_key) /\
  (fails_with KeyPersistError DemoMain.full_disk r' /\
   files (snd r') = {["private_key.pem" := File [x45]]}).
Proof.
  cbv zeta. split.
  - destruct (generate_write_failure (backend := Demo.backend) "private_key.pem"
                DemoMain.locked_key) as (Hfail & _ & _ & _ & Hfiles).
    + vm_compute. reflexivity.
    + cbn [DemoMain.locked_key Demo.world denied]. now apply elem_of_singleton.
    + split; [exact Hfail|exact Hfiles].
  - destruct (generate_write_failure (backend := Demo.backend) "private_key.pem"
                DemoMain.full_disk) as (Hfail & _ & _ & _ & Hfiles).
    + vm_compute. reflexivity.
    + cbn [DemoMain.full_disk denied]. now apply elem_of_singleton.
    + split; [exact Hfail|]. rewrite Hfiles. reflexivity.
Defined.

Lemma key_path_is_directory_witness :
  let r := load_or_generate_private_key (H := Demo.backend) "private_key.pem"
             DemoMain.key_is_directory in
  let r' := load_or_generate_private_key (H := Demo.backend) "it's.pem"
              (Demo.world {["it's.pem" := Directory]} ∅) in
  (fst r = inr (RaiseSystemExit 1) /\
   stderr (snd r)
     = ["Error: Could not load private key: [Errno 21] Is a directory: 'private_key.pem'"]) /\
  stderr (snd r')
    = ["Error: Could not load private key: [Errno 21] Is a directory: "
       +:+ String quote_char ("it's.pem" +:+ String quote_char "")].
Proof.
  cbv zeta. split.
  - destruct (key_path_is_directory (backend := Demo.backend) "private_key.pem"
                DemoMain.key_is_directory) as (Hexit & Herr & _).
    + vm_compute. reflexivity.
    + split; [exact Hexit|exact Herr].
  - destruct (key_path_is_directory (backend := Demo.backend) "it's.pem"
                (Demo.world {["it's.pem" := Directory]} ∅)) as (_ & Herr & _).
    + vm_compute. reflexivity.
    + exact Herr.
Defined.

Lemma not_registered_224 : ~ registered 224.
Proof. unfold registered. lia. Qed.

Lemma create_did_document_unregistered_curve_witness :
  create_did_document (H := Demo.backend) "did:web:example.com" Demo.p224_key
    Demo.empty_world
    = (inr (RaiseException (KeyError 224)), Demo.empty_world).
Proof.
  exact (create_did_document_unregistered_curve (backend := Demo.backend)
           "did:web:example.com" Demo.p224_key Demo.empty_world
           not_registered_224).
Defined.

Lemma create_did_document_jwk_fields_witness :
  let fingerprint :=
    hexlify (Demo.checksum (public_bytes (Backend := Demo.backend) Demo.p256_key
                              serialization.DER
                              serialization.SubjectPublicKeyInfo)) in
  exists crv alg,
    EC_CURVE_NAMES !! 256 = Some crv /\
    SIGNING_ALGORITHMS !! 256 = Some alg /\
    forall w,
      create_did_document (H := Demo.backend) "did:web:example.com"
        Demo.p256_key w =
        (inl (did_document "did:web:example.com" fingerprint
                (jwk_fields crv
                   (urlsafe_b64encode
                      (be_bytes 32 (ec.x (ec.public_numbers Demo.p256_key))))
                   (urlsafe_b64encode
                      (be_bytes 32 (ec.y (ec.public_numbers Demo.p256_key))))
                   ("#" +:+ fingerprint) alg)), w).
Proof.
  cbv zeta.
  apply (create_did_document_jwk_fields (backend := Demo.backend)
           "did:web:example.com" Demo.p256_key).
  - left. reflexivity.
  - unfold coordinates_in_field. cbv zeta.
    repeat split; (apply Z.leb_le || apply Z.ltb_lt); vm_compute; reflexivity.
Defined.

Lemma convert_key_to_jwk_options_override_witness :
  exists jwk,
    convert_key_to_jwk Demo.p384_key
      [("kid", VStr "#1"); ("crv", VStr "mine")] Demo.empty_world
      = (inl jwk, Demo.empty_world) /\
    dict_get "crv" jwk = Some (VStr "mine") /\
    dict_get "kty" jwk = Some (VStr "EC").
Proof.
  destruct (convert_key_to_jwk_options_override Demo.p384_key
              [("kid", VStr "#1"); ("crv", VStr "mine")] Demo.empty_world)
    as (crv & jwk & _ & Hrun & Hget).
  - right. left. reflexivity.
  - unfold coordinates_in_field. cbv zeta.
    repeat split; (apply Z.leb_le || apply Z.ltb_lt); vm_compute; reflexivity.
  - apply NoDup_cons. split; [|apply NoDup_singleton].
    intros Hin. apply list_elem_of_In in Hin. simpl in Hin.
    destruct Hin as [Hin|[]]. discriminate Hin.
  - simpl. intros [Hin|[Hin|[]]]; discriminate Hin.
  - exists jwk. split; [exact Hrun|]. split; [apply (Hget "crv")|apply (Hget "kty")].
Defined.

Lemma main_unregistered_curve_witness :
  let r := main (backend := DemoMain.legacy_backend) (shell := DemoSave.changed)
             "generate.py" ["did:web:example.com"] DemoMain.with_key in
  fst r = inr (Propagated (RaiseException (KeyError 224))) /\
  spawned (snd r) = [] /\ stderr (world (snd r)) = [].
Proof.
  cbv zeta.
  destruct (main_unregistered_curve (backend := DemoMain.legacy_backend)
              (shell := DemoSave.changed) "generate.py" "did:web:example.com"
              DemoMain.with_key Demo.ec_file DemoMain.p224_private_key)
    as (Hraise & _ & _ & Hsp & Herr).
  - reflexivity.
  - vm_compute. reflexivity.
  - reflexivity.
  - reflexivity.
  - exact not_registered_224.
  - split; [exact Hraise|]. split; [exact Hsp|exact Herr].
Defined.
